(** * DynamicDashboard: flattening, coercion, metrics and rendering

    A shallow embedding of the three dashboard scripts

      - [airbnb_analytics.py]
      - [dynamic_dashboard_mongo.py]
      - [dynamic_dashboard_df.py]

    Python objects are a first-order datatype [value]; a [dict] is an
    association list in insertion order (Python dicts iterate in insertion
    order, and [d[k] = v] on an existing key keeps the key's position).
    Floats are IEEE binary64 numbers, represented by [spec_float] with
    [prec = 53] and [emax = 1024].  Exceptions are values of an error monad;
    Streamlit calls append to a log of UI events.

    The libraries the scripts call (pandas, pymongo/MongoDB, plotly) are not
    part of the repository.  What the scripts rely on is modelled from the
    libraries' documented behaviour; what they do not rely on is a field of
    an environment record and every theorem holds for all environments. *)

From Stdlib Require Import List String Ascii ZArith Bool Lia Floats Sorted.
From Stdlib Require OrderedTypeEx.
Import ListNotations.
Open Scope string_scope.
Open Scope list_scope.

Set Implicit Arguments.
Set Warnings "-register-all".

(* ================================================================== *)
(** * Python values *)
(* ================================================================== *)

(** [bson.Decimal128]: an IEEE 754-2008 decimal128 datum.  A finite one is
    [(-1)^sign * coefficient * 10^exponent]. *)
Inductive decimal128 : Type :=
| D128_finite (sign : bool) (coefficient : N) (exponent : Z)
| D128_infinity (sign : bool)
| D128_nan
| D128_snan.

Inductive value : Type :=
| VNone
| VBool (b : bool)
| VInt (n : Z)
| VFloat (f : spec_float)
| VStr (s : string)
| VDecimal128 (d : decimal128)
| VList (l : list value)
| VTuple (l : list value)
| VDict (d : list (string * value)).

(** A document, a flattened row, a pipeline stage: all are Python dicts. *)
Definition dict : Type := list (string * value).

(** [isinstance(v, dict)] *)
Definition is_dict (v : value) : bool :=
  match v with VDict _ => true | _ => false end.

(** [list(d.keys())] *)
Definition keys (d : dict) : list string := map fst d.

(** [d.get(k)]: [None] when the key is absent. *)
Fixpoint dict_get (d : dict) (k : string) : option value :=
  match d with
  | [] => None
  | (k', v) :: rest => if String.eqb k k' then Some v else dict_get rest k
  end.

(** [k in d] *)
Definition dict_mem (d : dict) (k : string) : bool :=
  match dict_get d k with Some _ => true | None => false end.

(** [d[k] = v]: overwrite in place when [k] is present, append otherwise. *)
Fixpoint dict_set (d : dict) (k : string) (v : value) : dict :=
  match d with
  | [] => [(k, v)]
  | (k', v') :: rest =>
      if String.eqb k k' then (k', v) :: rest else (k', v') :: dict_set rest k v
  end.

(** [d.update(other)] *)
Definition dict_update (d other : dict) : dict :=
  fold_left (fun acc kv => dict_set acc (fst kv) (snd kv)) other d.

(** The dict a sequence of assignments [flat[k] = v] builds from [{}]. *)
Definition dict_of_writes (ws : list (string * value)) : dict :=
  dict_update [] ws.

(** The value of the last assignment to [k] in a sequence of assignments. *)
Definition last_write (k : string) (ws : list (string * value)) : option value :=
  dict_get (rev ws) k.

(** ** Floating point *)

Definition prec : Z := 53.
Definition emax : Z := 1024.

Definition float_zero : spec_float := S754_zero false.
Definition float_nan : spec_float := S754_nan.

(** The binary64 number nearest to [(-1)^neg * coeff * 10^e10] (ties to
    even), which is what [float(str)] and [float(Decimal)] return. *)
Definition float_of_decimal (neg : bool) (coeff : N) (e10 : Z) : spec_float :=
  match coeff with
  | N0 => S754_zero neg
  | Npos p =>
      if (0 <=? e10)%Z
      then binary_round prec emax neg (p * Z.to_pos (10 ^ e10)) 0
      else
        let '(q, e, l) :=
          SFdiv_core_binary prec emax (Zpos p) 0 (10 ^ (- e10)) 0 in
        binary_round_aux prec emax neg q e l
  end.

(** [float(n)] for a Python int. *)
Definition float_of_Z (n : Z) : spec_float :=
  binary_normalize prec emax n 0 false.

Definition is_nan (f : spec_float) : bool :=
  match f with S754_nan => true | _ => false end.

Definition is_finite (f : spec_float) : bool :=
  match f with S754_zero _ | S754_finite _ _ _ => true | _ => false end.

(** The binary64 number 100.5 = 201 * 2^45 * 2^-46. *)
Definition float_100_5 : spec_float := S754_finite false 7072058789855232 (-46).

(** ** Exceptions *)

(** A raised exception: its class name, whether the class derives from
    [Exception] (as opposed to [KeyboardInterrupt], [SystemExit], ...), and
    [str(e)]. *)
Record exn : Type := mkExn {
  exn_class : string;
  exn_is_Exception : bool;
  exn_str : string
}.

Inductive outcome (A : Type) : Type :=
| Ok (a : A)
| Raise (e : exn).
Arguments Ok {A} a.
Arguments Raise {A} e.

(** [repr(s)] of a string: the text between quotes, single ones unless
    the text holds a single quote and no double quote; the quote, the
    backslash and the control characters are escaped.  Characters outside
    ASCII are kept, as [repr] keeps those that are printable. *)
Definition single_quote : ascii := ascii_of_nat 39.
Definition double_quote : ascii := ascii_of_nat 34.

Fixpoint contains (c : ascii) (s : string) : bool :=
  match s with
  | EmptyString => false
  | String c' rest => orb (Ascii.eqb c c') (contains c rest)
  end.

Definition hex_digit (n : nat) : ascii :=
  if (n <? 10)%nat then ascii_of_nat (48 + n) else ascii_of_nat (87 + n).

Definition escape_char (q c : ascii) : string :=
  let n := nat_of_ascii c in
  if orb (Ascii.eqb c q) (Ascii.eqb c "\") then String "\" (String c EmptyString)
  else if (n =? 9)%nat then "\t"
  else if (n =? 10)%nat then "\n"
  else if (n =? 13)%nat then "\r"
  else if orb (n <? 32)%nat (n =? 127)%nat
  then String "\" (String "x" (String (hex_digit (n / 16))
                                      (String (hex_digit (n mod 16))
                                              EmptyString)))
  else String c EmptyString.

Fixpoint escape (q : ascii) (s : string) : string :=
  match s with
  | EmptyString => EmptyString
  | String c rest => escape_char q c ++ escape q rest
  end.

Definition py_repr (s : string) : string :=
  let q := if andb (contains single_quote s) (negb (contains double_quote s))
           then double_quote else single_quote in
  String q (escape q s ++ String q EmptyString).

Definition IndexError (msg : string) : exn := mkExn "IndexError" true msg.
(** [KeyError(key)]: [str(e)] is the [repr] of the key. *)
Definition KeyError (key : string) : exn := mkExn "KeyError" true (py_repr key).
Definition ValueError (msg : string) : exn := mkExn "ValueError" true msg.

(** [float(d.to_decimal())].  Converting a signalling NaN raises
    [ValueError]; every other datum converts. *)
Definition Decimal128_to_float (d : decimal128) : outcome spec_float :=
  match d with
  | D128_finite s c e => Ok (float_of_decimal s c e)
  | D128_infinity s => Ok (S754_infinity s)
  | D128_nan => Ok S754_nan
  | D128_snan => Raise (ValueError "cannot convert signaling NaN to float")
  end.

(** ** Strings *)

(** [l[0]] *)
Definition list_head (A : Type) (l : list A) : outcome A :=
  match l with
  | x :: _ => Ok x
  | [] => Raise (IndexError "list index out of range")
  end.

Definition ascii_lower (c : ascii) : ascii :=
  let n := nat_of_ascii c in
  if andb (65 <=? n)%nat (n <=? 90)%nat then ascii_of_nat (n + 32) else c.

(** [s.lower()] on ASCII text. *)
Fixpoint lower (s : string) : string :=
  match s with
  | EmptyString => EmptyString
  | String c rest => String (ascii_lower c) (lower rest)
  end.

(** [s.replace(old, new)], scanning left to right with [fuel] characters of
    [s] still to look at; [old] is not empty. *)
Fixpoint replace_from (fuel : nat) (s old new : string) : string :=
  match fuel with
  | O => s
  | S fuel' =>
      if String.prefix old s
      then new ++ replace_from fuel' (String.substring (String.length old)
                                        (String.length s - String.length old) s)
                               old new
      else match s with
           | EmptyString => EmptyString
           | String c rest => String c (replace_from fuel' rest old new)
           end
  end.

Definition replace (s old new : string) : string :=
  replace_from (String.length s) s old new.

(** [sep.join(l)] *)
Definition join (sep : string) (l : list string) : string := String.concat sep l.

(** [round(x, 2)]: the decimal with two fractional digits nearest to the
    exact value of [x] (ties to even), read back as a float; infinities and
    NaN are returned as they are. *)
Definition round2 (x : spec_float) : spec_float :=
  match x with
  | S754_finite s m e =>
      let n := (100 * Zpos m)%Z in
      let hundredths :=
        match e with
        | Zneg p =>
            let d := Z.pow_pos 2 p in
            let q := (n / d)%Z in
            let r := (n mod d)%Z in
            match (2 * r ?= d)%Z with
            | Lt => q
            | Gt => (q + 1)%Z
            | Eq => if Z.even q then q else (q + 1)%Z
            end
        | _ => (n * 2 ^ e)%Z
        end in
      float_of_decimal s (Z.to_N hundredths) (-2)
  | _ => x
  end.

(** The integer part of a finite float (rounding toward zero). *)
Definition float_trunc (f : spec_float) : Z :=
  match f with
  | S754_finite s m e =>
      let a := match e with
               | Zneg p => (Zpos m / Z.pow_pos 2 p)%Z
               | _ => (Zpos m * 2 ^ e)%Z
               end in
      if s then (- a)%Z else a
  | _ => 0%Z
  end.

Definition float_is_zero (f : spec_float) : bool :=
  match f with S754_zero _ => true | _ => false end.

(* ================================================================== *)
(** * Streamlit: the UI as a log of events *)
(* ================================================================== *)

(** A pandas [DataFrame] with the default index: the number of rows, and
    the columns in order, each with its cells by row. *)
Record DataFrame : Type := mkDataFrame {
  index : nat;
  columns : list (string * list value)
}.

(** A chart-building expression: the plotting function, the table it is
    given and its keyword arguments.  A figure is identified with the call
    that built it. *)
Record chart_call : Type := mkChart {
  chart_fn : string;
  chart_frame : DataFrame;
  chart_kwargs : dict
}.

Definition figure : Type := chart_call.

Inductive ui_event : Type :=
| st_title (s : string)
| st_header (s : string)
| st_subheader (s : string)
| st_columns (n : nat)
| st_metric (label : string) (shown : value)
| st_plotly_chart (fig : figure)
| st_warning (s : string)
| st_error (s : string).

(** A computation that may raise and that appends to the UI log. *)
Definition ui (A : Type) : Type := list ui_event -> outcome A * list ui_event.

Definition ret (A : Type) (a : A) : ui A := fun log => (Ok a, log).

Definition bind (A B : Type) (c : ui A) (k : A -> ui B) : ui B :=
  fun log =>
    match c log with
    | (Ok a, log') => k a log'
    | (Raise e, log') => (Raise e, log')
    end.

Notation "x <- c ;; k" := (bind c (fun x => k))
  (at level 61, c at next level, right associativity).
Notation "c ;;; k" := (bind c (fun _ => k))
  (at level 61, right associativity).

Definition emit (ev : ui_event) : ui unit := fun log => (Ok tt, log ++ [ev]).

Definition lift (A : Type) (o : outcome A) : ui A := fun log => (o, log).

(** [try: body except: handler] -- a bare [except] catches everything. *)
Definition try_except (A : Type) (body : ui A) (handler : exn -> ui A) : ui A :=
  fun log =>
    match body log with
    | (Ok a, log') => (Ok a, log')
    | (Raise e, log') => handler e log'
    end.

(** [try: body except Exception as e: handler] -- exceptions that do not
    derive from [Exception] propagate. *)
Definition try_except_Exception (A : Type) (body : ui A) (handler : exn -> ui A)
  : ui A :=
  fun log =>
    match body log with
    | (Ok a, log') => (Ok a, log')
    | (Raise e, log') =>
        if exn_is_Exception e then handler e log' else (Raise e, log')
    end.

(** Plotly and the pandas expressions the panels evaluate while they build
    a figure.  Each either returns or raises; the scripts depend on nothing
    else. *)
Record plotting : Type := mkPlotting {
  (** evaluating a chart-building expression *)
  draw_raises : chart_call -> option exn;
  (** [st.plotly_chart(fig)] *)
  show_raises : figure -> option exn;
  (** formatting the mean of a column with the f-string of a metric *)
  format_mean : string -> list value -> outcome string
}.

Definition draw (P : plotting) (c : chart_call) : ui figure :=
  lift (match draw_raises P c with Some e => Raise e | None => Ok c end).

Definition plotly_chart (P : plotting) (fig : figure) : ui unit :=
  match show_raises P fig with
  | Some e => lift (Raise e)
  | None => emit (st_plotly_chart fig)
  end.

(* ================================================================== *)
(** * pandas: tables, numeric coercion *)
(* ================================================================== *)

Module pandas.

(** [pd.DataFrame()] *)
Definition empty : DataFrame := mkDataFrame 0 [].

Definition nan : value := VFloat float_nan.

Definition min_int64 : Z := (- 2 ^ 63)%Z.
Definition max_int64 : Z := (2 ^ 63 - 1)%Z.
Definition max_uint64 : Z := (2 ^ 64 - 1)%Z.

(** ** The dtype [pd.DataFrame] infers for a column *)

(** The constructor scans the objects of a column
    ([maybe_convert_objects]) and stores the column with the dtype that
    fits them all. *)

(** [None] or NaN: a missing entry. *)
Definition is_null (v : value) : bool :=
  match v with
  | VNone => true
  | VFloat f => is_nan f
  | _ => false
  end.

Definition is_str (v : value) : bool :=
  match v with VStr _ => true | _ => false end.

(** Neither a number, nor a boolean, nor missing. *)
Definition is_object (v : value) : bool :=
  match v with
  | VStr _ | VDecimal128 _ | VList _ | VTuple _ | VDict _ => true
  | _ => false
  end.

Definition is_bool (v : value) : bool :=
  match v with VBool _ => true | _ => false end.

Definition is_int (v : value) : bool :=
  match v with VInt _ => true | _ => false end.

Definition is_None (v : value) : bool :=
  match v with VNone => true | _ => false end.

(** The ints the scan checks against the 64-bit ranges: those it meets
    before the first [None]. *)
Fixpoint checked_ints (cells : list value) : list Z :=
  match cells with
  | [] => []
  | VNone :: _ => []
  | VInt z :: rest => z :: checked_ints rest
  | _ :: rest => checked_ints rest
  end.

(** The ints fit one of int64 and uint64. *)
Definition ints_fit (zs : list Z) : bool :=
  andb (forallb (fun z => andb (min_int64 <=? z)%Z (z <=? max_uint64)%Z) zs)
       (negb (andb (existsb (fun z => (max_int64 <? z)%Z) zs)
                   (existsb (fun z => (z <? 0)%Z) zs))).

(** A cell of a float64 column. *)
Definition as_float (v : value) : value :=
  match v with
  | VNone => nan
  | VInt z => VFloat (float_of_Z z)
  | _ => v
  end.

(** A cell of a column of strings: a missing entry reads NaN. *)
Definition as_str (v : value) : value :=
  match v with
  | VNone => nan
  | _ => v
  end.

(** The cells of the column as stored.  Strings with missing entries make
    a column of strings; any other object, a boolean beside something
    else, ints that fit neither int64 nor uint64, or nothing but [None]
    leave the objects as they are; otherwise ints alone stay ints, and
    numbers with a float or a missing entry among them become floats. *)
Definition infer_column (cells : list value) : list value :=
  if existsb is_object cells then
    if forallb (fun v => orb (is_str v) (is_null v)) cells
    then map as_str cells
    else cells
  else if existsb is_bool cells then cells
  else if negb (ints_fit (checked_ints cells)) then cells
  else if forallb is_None cells then cells
  else if forallb is_int cells then cells
  else map as_float cells.

(** The column labels of [pd.DataFrame(data)]: the keys of the rows, in
    order of first appearance. *)
Definition add_label (acc : list string) (k : string) : list string :=
  if existsb (String.eqb k) acc then acc else acc ++ [k].

Definition labels (data : list dict) : list string :=
  fold_left (fun acc row => fold_left add_label (keys row) acc) data [].

(** The objects of a column of [pd.DataFrame(data)]: the value of the key
    in each row, NaN where the row does not have the key. *)
Definition raw_column (data : list dict) (c : string) : list value :=
  map (fun row => match dict_get row c with
                  | Some v => v
                  | None => nan
                  end) data.

(** [pd.DataFrame(data)] for a list of dicts: one row per dict, one column
    per key, each column with the dtype inferred for its objects. *)
Definition from_records (data : list dict) : DataFrame :=
  mkDataFrame (List.length data)
    (map (fun c => (c, infer_column (raw_column data c))) (labels data)).

(** [c in df.columns] *)
Definition has_column (df : DataFrame) (c : string) : bool :=
  existsb (fun col => String.eqb c (fst col)) (columns df).

Fixpoint lookup_column (cols : list (string * list value)) (c : string)
  : option (list value) :=
  match cols with
  | [] => None
  | (c', cells) :: rest =>
      if String.eqb c c' then Some cells else lookup_column rest c
  end.

(** [df[c]] *)
Definition get_column (df : DataFrame) (c : string) : outcome (list value) :=
  match lookup_column (columns df) c with
  | Some cells => Ok cells
  | None => Raise (KeyError c)
  end.

Fixpoint assign (cols : list (string * list value)) (c : string)
                (cells : list value) : list (string * list value) :=
  match cols with
  | [] => [(c, cells)]
  | (c', old) :: rest =>
      if String.eqb c c' then (c', cells) :: rest
      else (c', old) :: assign rest c cells
  end.

(** [df[c] = series], the series having the index of [df]. *)
Definition set_column (df : DataFrame) (c : string) (cells : list value)
  : DataFrame :=
  mkDataFrame (index df) (assign (columns df) c cells).

(** [df[c] = scalar]: the scalar in every row. *)
Definition set_scalar (df : DataFrame) (c : string) (v : value) : DataFrame :=
  set_column df c (repeat v (index df)).

(** [df.at[i, c]] *)
Definition cell (df : DataFrame) (c : string) (i : nat) : option value :=
  match lookup_column (columns df) c with
  | Some cells => nth_error cells i
  | None => None
  end.

(** ** Reading a number from a string *)

(** [pd.to_numeric] reads a string with the reader of the CSV tokenizer
    ([to_double], that is [precise_xstrtod] and the check that the whole
    text was read) and, when the reader fails, compares the text with the
    names of the infinities ([floatify]). *)

Definition is_space (c : ascii) : bool :=
  let n := nat_of_ascii c in
  orb (n =? 32)%nat (andb (9 <=? n)%nat (n <=? 13)%nat).

Definition is_digit (c : ascii) : bool :=
  let n := nat_of_ascii c in andb (48 <=? n)%nat (n <=? 57)%nat.

Definition digit_value (c : ascii) : N := N.of_nat (nat_of_ascii c - 48).

Fixpoint skip_spaces (s : string) : string :=
  match s with
  | String c rest => if is_space c then skip_spaces rest else s
  | EmptyString => EmptyString
  end.

(** A leading sign: whether it is [-], and what follows it. *)
Definition read_sign (s : string) : bool * string :=
  match s with
  | String "-" rest => (true, rest)
  | String "+" rest => (false, rest)
  | _ => (false, s)
  end.

(** The number of digits the reader accumulates. *)
Definition max_digits : Z := 17.

(** The arithmetic of a C [int], wrapping around. *)
Definition wrap_int32 (z : Z) : Z := ((z + 2 ^ 31) mod 2 ^ 32 - 2 ^ 31)%Z.

(** [number * 10. + (c - '0')], in double arithmetic. *)
Definition push_digit (number : spec_float) (c : ascii) : spec_float :=
  SFadd prec emax (SFmul prec emax number (float_of_Z 10))
        (float_of_Z (Z.of_N (digit_value c))).

(** The digits before the decimal point: the first [max_digits] are
    accumulated, each further one raises the exponent. *)
Fixpoint read_integer (s : string) (number : spec_float)
                      (num_digits exponent : Z)
  : spec_float * Z * Z * string :=
  match s with
  | String c rest =>
      if is_digit c then
        if (num_digits <? max_digits)%Z
        then read_integer rest (push_digit number c) (num_digits + 1)%Z
                          exponent
        else read_integer rest number num_digits (wrap_int32 (exponent + 1))
      else (number, num_digits, exponent, s)
  | EmptyString => (number, num_digits, exponent, s)
  end.

(** The digits after the decimal point, while fewer than [max_digits]
    digits have been accumulated. *)
Fixpoint read_fraction (s : string) (number : spec_float)
                       (num_digits num_decimals : Z)
  : spec_float * Z * Z * string :=
  match s with
  | String c rest =>
      if andb (num_digits <? max_digits)%Z (is_digit c)
      then read_fraction rest (push_digit number c) (num_digits + 1)%Z
                         (num_decimals + 1)%Z
      else (number, num_digits, num_decimals, s)
  | EmptyString => (number, num_digits, num_decimals, s)
  end.

Fixpoint skip_digits (s : string) : string :=
  match s with
  | String c rest => if is_digit c then skip_digits rest else s
  | EmptyString => EmptyString
  end.

(** The digits of the exponent, at most [max_digits] of them. *)
Fixpoint read_exponent (s : string) (n num_digits : Z) : Z * Z * string :=
  match s with
  | String c rest =>
      if andb (num_digits <? max_digits)%Z (is_digit c)
      then read_exponent rest
                         (wrap_int32 (n * 10 + Z.of_N (digit_value c)))
                         (num_digits + 1)%Z
      else (n, num_digits, s)
  | EmptyString => (n, num_digits, s)
  end.

(** The table of the powers of ten: the double nearest to [10^k]. *)
Definition power_of_ten (k : Z) : spec_float := float_of_decimal false 1 k.

(** The number scaled by the power of ten; the reader fails when the
    exponent is above 308 or the result is infinite. *)
Definition scale (number : spec_float) (exponent : Z) : option spec_float :=
  if (308 <? exponent)%Z then None
  else
    let r :=
      if (0 <? exponent)%Z then
        SFmul prec emax number (power_of_ten exponent)
      else if (exponent <? -308)%Z then
        if (exponent <? -616)%Z then float_zero
        else SFdiv prec emax
                   (SFdiv prec emax number (power_of_ten (-308 - exponent)))
                   (power_of_ten 308)
      else SFdiv prec emax number (power_of_ten (- exponent)) in
    match r with
    | S754_infinity _ => None
    | _ => Some r
    end.

(** The text as the C reader sees it: up to the first NUL character. *)
Fixpoint c_string (s : string) : string :=
  match s with
  | EmptyString => EmptyString
  | String c rest =>
      if (nat_of_ascii c =? 0)%nat then EmptyString
      else String c (c_string rest)
  end.

(** [to_double]: the double the text denotes and whether the text may be
    an integer (it has neither a decimal point nor an exponent); white
    space around the number is skipped. *)
Definition to_double (text : string) : option (spec_float * bool) :=
  let '(negative, s) := read_sign (skip_spaces (c_string text)) in
  let '(number, num_digits, exponent, s) := read_integer s float_zero 0 0 in
  let '(number, num_digits, exponent, maybe_int, s) :=
    match s with
    | String "." rest =>
        let '(number, num_digits, num_decimals, rest) :=
          read_fraction rest number num_digits 0 in
        let rest :=
          if (max_digits <=? num_digits)%Z then skip_digits rest else rest in
        (number, num_digits, wrap_int32 (exponent - num_decimals), false, rest)
    | _ => (number, num_digits, exponent, true, s)
    end in
  if (num_digits =? 0)%Z then None
  else
    let number := if negative then SFopp number else number in
    let '(exponent, maybe_int, s) :=
      match s with
      | String c rest =>
          if orb (Ascii.eqb c "e") (Ascii.eqb c "E") then
            let '(negative, rest) := read_sign rest in
            let '(n, count, rest) := read_exponent rest 0 0 in
            if (count =? 0)%Z then (exponent, false, s)
            else (wrap_int32 (if negative then exponent - n else exponent + n),
                  false, rest)
          else (exponent, maybe_int, s)
      | EmptyString => (exponent, maybe_int, s)
      end in
    match scale number exponent with
    | Some r =>
        match skip_spaces s with
        | EmptyString => Some (r, maybe_int)
        | _ => None
        end
    | None => None
    end.

(** The names of the infinities, in any case, with nothing around them. *)
Definition read_infinity (text : string) : option spec_float :=
  let name := lower (c_string text) in
  if orb (orb (String.eqb name "inf") (String.eqb name "+inf"))
         (orb (String.eqb name "infinity") (String.eqb name "+infinity"))
  then Some (S754_infinity false)
  else if orb (String.eqb name "-inf") (String.eqb name "-infinity")
  then Some (S754_infinity true)
  else None.

(** The longest prefix of digits: [acc] extended by them, and what
    follows. *)
Fixpoint read_digits (s : string) (acc : N) : N * string :=
  match s with
  | String c rest =>
      if is_digit c then read_digits rest (10 * acc + digit_value c)%N
      else (acc, s)
  | EmptyString => (acc, s)
  end.

(** [int(text)] for a text that may be an integer; it raises
    [ValueError] when the text holds a NUL character. *)
Definition read_int (text : string) : option Z :=
  if String.eqb (c_string text) text then
    let '(negative, s) := read_sign (skip_spaces text) in
    let '(n, _) := read_digits s 0 in
    Some (if negative then (- Z.of_N n)%Z else Z.of_N n)
  else None.

(** Numbers in a table are integers, binary64 floats or booleans. *)
Inductive num : Type :=
| NInt (n : Z)
| NFloat (f : spec_float)
| NBool (b : bool).

Definition NaN : num := NFloat float_nan.

(** The number a string denotes: an int when the text may be an integer,
    a float otherwise.  [None] when the text is not a number. *)
Definition read_number (text : string) : option num :=
  match to_double text with
  | Some (_, true) => option_map NInt (read_int text)
  | Some (r, false) => Some (NFloat r)
  | None => option_map NFloat (read_infinity text)
  end.

(** The double [pd.to_numeric] reads from a string, if any. *)
Definition read_float (text : string) : option spec_float :=
  match read_number text with
  | Some (NFloat r) => Some r
  | Some _ =>
      match to_double text with
      | Some (r, _) => Some r
      | None => None
      end
  | None => None
  end.

(** ** [pd.to_numeric(series, errors='coerce')] *)

(** One cell: numbers and booleans are kept, strings are read, [None]
    and everything that is not a number become NaN. *)
Definition coerce_cell (v : value) : num :=
  match v with
  | VBool b => NBool b
  | VInt n => NInt n
  | VFloat f => NFloat f
  | VStr s => match read_number s with Some n => n | None => NaN end
  | _ => NaN
  end.

(** The cell as a double. *)
Definition float_cell (v : value) : spec_float :=
  match v with
  | VBool b => float_of_Z (if b then 1 else 0)
  | VInt n => float_of_Z n
  | VFloat f => f
  | VStr s => match read_float s with Some f => f | None => float_nan end
  | _ => float_nan
  end.

Definition is_NBool (n : num) : bool :=
  match n with NBool _ => true | _ => false end.

Definition is_integral (n : num) : bool :=
  match n with NFloat _ => false | _ => true end.

Definition to_int (n : num) : Z :=
  match n with
  | NInt z => z
  | NBool b => if b then 1%Z else 0%Z
  | NFloat _ => 0%Z
  end.

Definition to_float (n : num) : spec_float :=
  match n with
  | NInt z => float_of_Z z
  | NFloat f => f
  | NBool b => float_of_Z (if b then 1 else 0)
  end.

(** The series is of dtype bool when every cell is a boolean, of dtype
    int64 or uint64 when every cell is an integer or a boolean and the
    integers fit one of the two, and of dtype float64 otherwise. *)
Definition to_numeric (cells : list value) : list num :=
  let ns := map coerce_cell cells in
  if forallb is_NBool ns then ns
  else if andb (forallb is_integral ns) (ints_fit (map to_int ns))
  then map (fun n => NInt (to_int n)) ns
  else map (fun v => NFloat (float_cell v)) cells.

(** [series.fillna(x)] *)
Definition fillna (x : spec_float) (s : list num) : list num :=
  map (fun n => match n with
                | NFloat f => if is_nan f then NFloat x else n
                | _ => n
                end) s.

(** The target types of the coercion table: the Python builtins [float],
    [int] and [bool]. *)
Inductive dtype : Type := py_float | py_int | py_bool.

(** The C cast of a finite double to int64; out of range it yields the
    smallest int64 on the usual platforms. *)
Definition cast_int64 (f : spec_float) : Z :=
  let z := float_trunc f in
  if andb (min_int64 <=? z)%Z (z <=? max_int64)%Z then z else min_int64.

(** The cast of an integer to int64: a uint64 above the largest int64
    wraps around. *)
Definition wrap_int64 (z : Z) : Z := ((z + 2 ^ 63) mod 2 ^ 64 - 2 ^ 63)%Z.

Definition non_finite (n : num) : bool :=
  match n with NFloat f => negb (is_finite f) | _ => false end.

(** [series.astype(t)]: casting NaN or an infinity to int raises.  The
    text of the error varies with the version of pandas; no theorem
    depends on it. *)
Definition astype (t : dtype) (s : list num) : outcome (list value) :=
  match t with
  | py_float => Ok (map (fun n => VFloat (to_float n)) s)
  | py_int =>
      if existsb non_finite s
      then Raise (ValueError
                    "Cannot convert non-finite values (NA or inf) to integer")
      else Ok (map (fun n => match n with
                             | NFloat f => VInt (cast_int64 f)
                             | _ => VInt (wrap_int64 (to_int n))
                             end) s)
  | py_bool =>
      Ok (map (fun n => match n with
                        | NInt z => VBool (negb (z =? 0)%Z)
                        | NFloat f => VBool (negb (float_is_zero f))
                        | NBool b => VBool b
                        end) s)
  end.

(** [t(x)] for a float [x]: the builtin called as a function. *)
Definition call_dtype (t : dtype) (x : spec_float) : outcome value :=
  match t with
  | py_float => Ok (VFloat x)
  | py_int =>
      match x with
      | S754_nan =>
          Raise (ValueError "cannot convert float NaN to integer")
      | S754_infinity _ =>
          Raise (mkExn "OverflowError" true
                       "cannot convert float infinity to integer")
      | _ => Ok (VInt (float_trunc x))
      end
  | py_bool => Ok (VBool (negb (float_is_zero x)))
  end.

End pandas.

(** ** Equality of values *)

(** Equality of Python values is decidable. *)
Definition value_eq_dec : forall a b : value, {a = b} + {a <> b}.
Proof.
  fix IH 1.
  assert (Hf : forall f g : spec_float, {f = g} + {f <> g}).
  { decide equality; try apply Z.eq_dec; try apply Pos.eq_dec;
      apply bool_dec. }
  assert (Hd : forall d e : decimal128, {d = e} + {d <> e}).
  { decide equality; try apply Z.eq_dec; try apply N.eq_dec;
      apply bool_dec. }
  intros a b; destruct a, b; try (right; discriminate).
  - left; reflexivity.
  - destruct (bool_dec b b0); [left; congruence | right; congruence].
  - destruct (Z.eq_dec n n0); [left; congruence | right; congruence].
  - destruct (Hf f f0); [left; congruence | right; congruence].
  - destruct (string_dec s s0); [left; congruence | right; congruence].
  - destruct (Hd d d0); [left; congruence | right; congruence].
  - destruct (list_eq_dec IH l l0); [left; congruence | right; congruence].
  - destruct (list_eq_dec IH l l0); [left; congruence | right; congruence].
  - assert (Hp : forall p q : string * value, {p = q} + {p <> q}).
    { intros [k v] [k' v'].
      destruct (string_dec k k'); [| right; congruence].
      destruct (IH v v'); [left; congruence | right; congruence]. }
    destruct (list_eq_dec Hp d d0); [left; congruence | right; congruence].
Defined.

Definition value_eqb (a b : value) : bool :=
  if value_eq_dec a b then true else false.

(* ================================================================== *)
(** * MongoDB through pymongo: cursors and aggregation pipelines *)
(* ================================================================== *)

Module mongo.

Definition OperationFailure (msg : string) : exn :=
  mkExn "OperationFailure" true msg.

(** What the store does that the scripts do not depend on. *)
Record store : Type := mkStore {
  (** [$sample]: the documents the store picks *)
  sample : Z -> list dict -> list dict;
  (** an accumulator of [$group] other than a constant [$sum] and an
      [$addToSet] of a field *)
  accumulate : string -> value -> list dict -> value;
  (** a stage other than [$sample], [$limit] and [$group] by null
      ([$addFields] and [$project] among them) *)
  other_stage : dict -> list dict -> outcome (list dict)
}.

(** [collection.find().limit(n)], read to the end: a limit of 0 is no
    limit, a negative limit is its absolute value. *)
Definition find_limit (n : Z) (collection : list dict) : list dict :=
  if (n =? 0)%Z then collection
  else firstn (Z.to_nat (Z.abs n)) collection.

(** The components of a dotted name. *)
Fixpoint split_dots (s : string) (cur : string) : list string :=
  match s with
  | EmptyString => [cur]
  | String c rest =>
      if Ascii.eqb c "." then cur :: split_dots rest EmptyString
      else split_dots rest (cur ++ String c EmptyString)
  end.

(** The value of a field path in a document; [None] when the field is
    missing.  A component is looked up in embedded documents only. *)
Fixpoint get_path (path : list string) (doc : dict) : option value :=
  match path with
  | [] => None
  | [k] => dict_get doc k
  | k :: rest =>
      match dict_get doc k with
      | Some (VDict d) => get_path rest d
      | _ => None
      end
  end.

(** The value of the expression ["$<field>"] in a document. *)
Definition field_value (field : string) (doc : dict) : option value :=
  get_path (split_dots field EmptyString) doc.

(** The values a field takes in the documents that have it. *)
Fixpoint field_values (field : string) (docs : list dict) : list value :=
  match docs with
  | [] => []
  | doc :: rest =>
      match field_value field doc with
      | Some v => v :: field_values field rest
      | None => field_values field rest
      end
  end.

(** [$addToSet]: each value once. *)
Fixpoint add_to_set (vals : list value) (set : list value) : list value :=
  match vals with
  | [] => set
  | v :: rest =>
      if existsb (value_eqb v) set then add_to_set rest set
      else add_to_set rest (set ++ [v])
  end.

(** An accumulator [{op: arg}] over the documents of a group. *)
Definition eval_accumulator (S : store) (op : string) (arg : value)
                            (docs : list dict) : value :=
  if String.eqb op "$sum" then
    match arg with
    | VInt c => VInt (c * Z.of_nat (List.length docs))
    | _ => accumulate S op arg docs
    end
  else if String.eqb op "$addToSet" then
    match arg with
    | VStr (String "$" field) =>
        VList (add_to_set (field_values field docs) [])
    | _ => accumulate S op arg docs
    end
  else accumulate S op arg docs.

(** The fields of the result of [$group] other than [_id]. *)
Fixpoint group_fields (S : store) (spec : dict) (docs : list dict)
  : outcome dict :=
  match spec with
  | [] => Ok []
  | (name, VDict [(op, arg)]) :: rest =>
      match group_fields S rest docs with
      | Ok fields => Ok ((name, eval_accumulator S op arg docs) :: fields)
      | Raise e => Raise e
      end
  | (name, _) :: _ =>
      Raise (OperationFailure
               ("The field '" ++ name ++ "' must be an accumulator object"))
  end.

(** [{"$group": {"_id": None, ...}}]: one group holding every document;
    no document in, no group out. *)
Definition group_null (S : store) (spec : dict) (docs : list dict)
  : outcome (list dict) :=
  match docs with
  | [] => Ok []
  | _ :: _ =>
      match group_fields S spec docs with
      | Ok fields => Ok [("_id", VNone) :: fields]
      | Raise e => Raise e
      end
  end.

Definition run_stage (S : store) (stage : dict) (docs : list dict)
  : outcome (list dict) :=
  match stage with
  | [("$sample", VDict [("size", VInt n)])] =>
      Ok (firstn (Z.to_nat n) (sample S n docs))
  | [("$limit", VInt n)] =>
      if (0 <? n)%Z then Ok (firstn (Z.to_nat n) docs)
      else Raise (OperationFailure "the limit must be positive")
  | [("$group", VDict (("_id", VNone) :: spec))] => group_null S spec docs
  | _ => other_stage S stage docs
  end.

(** [list(collection.aggregate(pipeline))] *)
Fixpoint aggregate (S : store) (pipeline : list dict) (docs : list dict)
  : outcome (list dict) :=
  match pipeline with
  | [] => Ok docs
  | stage :: rest =>
      match run_stage S stage docs with
      | Ok docs' => aggregate S rest docs'
      | Raise e => Raise e
      end
  end.

End mongo.

(** Sequencing of computations that may raise. *)
Definition obind (A B : Type) (o : outcome A) (k : A -> outcome B) : outcome B :=
  match o with
  | Ok a => k a
  | Raise e => Raise e
  end.

Notation "x <~ o ;; k" := (obind o (fun x => k))
  (at level 61, o at next level, right associativity).

(* ================================================================== *)
(** * airbnb_analytics.py *)
(* ================================================================== *)

Module airbnb_analytics.
Import pandas.

Definition DEFAULT_NUMERIC : spec_float := float_zero.
Definition MAX_SAMPLE_SIZE : Z := 1000.

(** [safe_convert]: a [Decimal128] becomes a float, [DEFAULT_NUMERIC]
    when the conversion raises; anything else is returned as it is. *)
Definition safe_convert (v : value) : value :=
  match v with
  | VDecimal128 d =>
      match Decimal128_to_float d with
      | Ok f => VFloat f
      | Raise _ => VFloat DEFAULT_NUMERIC
      end
  | _ => v
  end.

(** [safe_flatten].  The body of the [try] does not raise on a document
    (keys are strings, [safe_convert] catches its own exception), so the
    [except: pass] is never taken. *)
Definition safe_flatten (doc : dict) : dict :=
  fold_left
    (fun flat kv =>
       let '(key, value) := kv in
       match value with
       | VDict sub =>
           fold_left
             (fun flat skv =>
                let '(sub_key, sub_value) := skv in
                dict_set flat (key ++ "_" ++ sub_key) (safe_convert sub_value))
             sub flat
       | _ => dict_set flat key (safe_convert value)
       end)
    doc [].

Definition numeric_config : list (string * string * dtype) :=
  [ ("price_$numberDecimal", "price", py_float);
    ("cleaning_fee_$numberDecimal", "cleaning_fee", py_float);
    ("review_scores_review_scores_rating_$numberInt", "review_rating", py_int);
    ("accommodates_$numberInt", "accommodates", py_int);
    ("bedrooms_$numberInt", "bedrooms", py_int);
    ("bathrooms_$numberDecimal", "bathrooms", py_float);
    ("host_host_is_superhost", "host_is_superhost", py_bool) ].

(** One turn of the loop over [numeric_config]. *)
Definition coerce (df : DataFrame) (entry : string * string * dtype)
  : outcome DataFrame :=
  let '(src, dest, dtype) := entry in
  if has_column df src then
    cells <~ get_column df src ;;
    coerced <~ astype dtype (fillna DEFAULT_NUMERIC (to_numeric cells)) ;;
    Ok (set_column df dest coerced)
  else
    v <~ call_dtype dtype DEFAULT_NUMERIC ;;
    Ok (set_scalar df dest v).

Fixpoint coerce_all (df : DataFrame) (config : list (string * string * dtype))
  : outcome DataFrame :=
  match config with
  | [] => Ok df
  | entry :: rest => df' <~ coerce df entry ;; coerce_all df' rest
  end.

(** [lambda x: (x[1], x[0]) if isinstance(x, list) and len(x)==2
    else (None, None)] *)
Definition swap_coordinates (x : value) : value :=
  match x with
  | VList [x0; x1] => VTuple [x1; x0]
  | _ => VTuple [VNone; VNone]
  end.

Definition component (i : nat) (t : value) : value :=
  match t with
  | VTuple l => nth i l VNone
  | _ => VNone
  end.

(** The [coordinates], [lat] and [lon] columns; the last two are the
    columns of the table [pd.DataFrame] makes of the pairs. *)
Definition add_coordinates (df : DataFrame) : outcome DataFrame :=
  if has_column df "address_location_coordinates" then
    cells <~ get_column df "address_location_coordinates" ;;
    let df1 := set_column df "coordinates" (map swap_coordinates cells) in
    coords <~ get_column df1 "coordinates" ;;
    let df2 := set_column df1 "lat"
                 (infer_column (map (component 0) coords)) in
    Ok (set_column df2 "lon" (infer_column (map (component 1) coords)))
  else Ok df.

(** The body of the [try] of [safe_dataframe]. *)
Definition build_dataframe (data : list dict) : outcome DataFrame :=
  let df := from_records data in
  df' <~ coerce_all df numeric_config ;;
  add_coordinates df'.

(** [safe_dataframe] *)
Definition safe_dataframe (data : list dict) : ui DataFrame :=
  try_except_Exception
    (lift (build_dataframe data))
    (fun e =>
       emit (st_error ("Data processing error: " ++ exn_str e)) ;;;
       ret pandas.empty).

(** The f-strings of [render_metrics] applied to the mean of a column. *)
Definition metric_text (P : plotting) (fmt : string) (df : DataFrame)
                       (column : string) : ui value :=
  cells <- lift (get_column df column) ;;
  text <- lift (format_mean P fmt cells) ;;
  ret (VStr text).

Definition render_metrics (P : plotting) (df : DataFrame) : ui unit :=
  try_except
    (emit (st_header "📊 Key Metrics") ;;;
     emit (st_columns 5) ;;;
     price <- metric_text P "${mean:.2f}" df "price" ;;
     rating <- metric_text P "{mean:.0f}/100" df "review_rating" ;;
     superhost <- metric_text P "{mean*100:.1f}%" df "host_is_superhost" ;;
     bedrooms <- metric_text P "{mean:.1f}" df "bedrooms" ;;
     bathrooms <- metric_text P "{mean:.1f}" df "bathrooms" ;;
     emit (st_metric "Avg Price" price) ;;;
     emit (st_metric "Avg Rating" rating) ;;;
     emit (st_metric "Superhost %" superhost) ;;;
     emit (st_metric "Avg Bedrooms" bedrooms) ;;;
     emit (st_metric "Avg Bathrooms" bathrooms))
    (fun _ => emit (st_warning "Metrics unavailable")).

Definition price_chart (df : DataFrame) : chart_call :=
  mkChart "px.scatter" df
    [ ("x", VStr "accommodates"); ("y", VStr "price");
      ("color", VStr "room_type"); ("size", VStr "bedrooms");
      ("hover_name", VStr "property_type");
      ("title", VStr "Price vs Capacity") ].

Definition render_price_analysis (P : plotting) (df : DataFrame) : ui unit :=
  try_except
    (emit (st_header "💰 Pricing Insights") ;;;
     fig <- draw P (price_chart df) ;;
     plotly_chart P fig)
    (fun _ => emit (st_warning "Price analysis unavailable")).

Definition review_cols (df : DataFrame) : list string :=
  filter (String.prefix "review_scores_") (map fst (columns df)).

(** The radar chart of the means of the review columns. *)
Definition review_chart (df : DataFrame) : chart_call :=
  mkChart "go.Scatterpolar" df
    [ ("columns", VList (map VStr (review_cols df)));
      ("fill", VStr "toself");
      ("range", VList [VInt 0; VInt 10]) ].

Definition render_review_analysis (P : plotting) (df : DataFrame) : ui unit :=
  try_except
    (match review_cols df with
     | [] => ret tt
     | _ :: _ =>
         emit (st_header "⭐ Review Breakdown") ;;;
         fig <- draw P (review_chart df) ;;
         plotly_chart P fig
     end)
    (fun _ => emit (st_warning "Review analysis unavailable")).

(** The bar chart of the ten most frequent amenities. *)
Definition amenities_chart (df : DataFrame) : chart_call :=
  mkChart "px.bar" df
    [ ("column", VStr "amenities"); ("head", VInt 10);
      ("orientation", VStr "h");
      ("labels", VDict [("index", VStr "Amenity"); ("value", VStr "Count")]) ].

Definition render_amenities (P : plotting) (df : DataFrame) : ui unit :=
  try_except
    (if has_column df "amenities" then
       emit (st_header "🏆 Top Amenities") ;;;
       fig <- draw P (amenities_chart df) ;;
       plotly_chart P fig
     else ret tt)
    (fun _ => emit (st_warning "Amenities analysis unavailable")).

(** The map of the rows that have a latitude and a longitude. *)
Definition geo_chart (df : DataFrame) : chart_call :=
  mkChart "px.scatter_mapbox" df
    [ ("dropna", VList [VStr "lat"; VStr "lon"]);
      ("lat", VStr "lat"); ("lon", VStr "lon"); ("color", VStr "price");
      ("size", VStr "accommodates"); ("zoom", VInt 10);
      ("mapbox_style", VStr "open-street-map") ].

Definition render_geo (P : plotting) (df : DataFrame) : ui unit :=
  try_except
    (if andb (has_column df "lat") (has_column df "lon") then
       emit (st_header "📍 Geographic Distribution") ;;;
       fig <- draw P (geo_chart df) ;;
       plotly_chart P fig
     else ret tt)
    (fun _ => emit (st_warning "Map unavailable")).

(** The query of [main]: [list(collection.find().limit(MAX_SAMPLE_SIZE))] *)
Definition load (collection : list dict) : list dict :=
  mongo.find_limit MAX_SAMPLE_SIZE collection.

(** [main], from the point where the collection is chosen; [collection]
    is what reading it yields, its documents or the driver's error. *)
Definition main (P : plotting) (collection : outcome (list dict)) : ui unit :=
  try_except_Exception
    (emit (st_title "🏠 Airbnb Analytics Dashboard") ;;;
     loaded <-
       try_except_Exception
         (docs <- lift collection ;;
          df <- safe_dataframe (map safe_flatten (load docs)) ;;
          ret (Some df))
         (fun e =>
            emit (st_error ("Data load failed: " ++ exn_str e)) ;;;
            ret None) ;;
     match loaded with
     | None => ret tt
     | Some df =>
         render_metrics P df ;;;
         render_price_analysis P df ;;;
         render_review_analysis P df ;;;
         render_amenities P df ;;;
         render_geo P df
     end)
    (fun e => emit (st_error ("Critical error: " ++ exn_str e))).

End airbnb_analytics.

(* ================================================================== *)
(** * dynamic_dashboard_df.py *)
(* ================================================================== *)

Module dynamic_dashboard_df.

(** [safe_flatten]: one level, values as they are. *)
Definition safe_flatten (doc : dict) : dict :=
  fold_left
    (fun flat kv =>
       let '(key, value) := kv in
       match value with
       | VDict sub =>
           fold_left
             (fun flat skv =>
                let '(sub_key, sub_value) := skv in
                dict_set flat (key ++ "_" ++ sub_key) sub_value)
             sub flat
       | _ => dict_set flat key value
       end)
    doc [].

(** [convert_decimals] *)
Definition convert_decimals (obj : value) : outcome value :=
  match obj with
  | VDecimal128 d => f <~ Decimal128_to_float d ;; Ok (VFloat f)
  | _ => Ok obj
  end.

(** The rows [main] reads:
    [[convert_decimals(safe_flatten(doc))
      for doc in collection.find().limit(1000)]] *)
Fixpoint convert_all (docs : list dict) : outcome (list value) :=
  match docs with
  | [] => Ok []
  | doc :: rest =>
      row <~ convert_decimals (VDict (safe_flatten doc)) ;;
      rows <~ convert_all rest ;;
      Ok (row :: rows)
  end.

Definition load (collection : list dict) : outcome (list value) :=
  convert_all (mongo.find_limit 1000 collection).









End dynamic_dashboard_df.

(* ================================================================== *)
(** * Sets of strings, sorted *)
(* ================================================================== *)

(** A string put at its place in an ascending list without duplicates;
    strings compare character by character, by code. *)
Fixpoint insert_sorted (k : string) (l : list string) : list string :=
  match l with
  | [] => [k]
  | x :: rest =>
      match String.compare k x with
      | Lt => k :: l
      | Eq => l
      | Gt => x :: insert_sorted k rest
      end
  end.

(** [sorted(set(l))] *)
Definition sorted_set (l : list string) : list string :=
  fold_left (fun acc k => insert_sorted k acc) l [].

(* ================================================================== *)
(** * dynamic_dashboard_mongo.py *)
(* ================================================================== *)

Module dynamic_dashboard_mongo.

(** [safe_flatten(doc, parent_key, sep)], by recursion on the document
    seen as a value; a value that is not a dict has no items. *)
Fixpoint flatten_value (v : value) (parent_key sep : string) : dict :=
  match v with
  | VDict doc =>
      (fix loop (entries : list (string * value)) (items : dict) : dict :=
         match entries with
         | [] => items
         | (k, v) :: rest =>
             let new_key :=
               match parent_key with
               | EmptyString => k
               | _ => (parent_key ++ sep ++ k)%string
               end in
             match v with
             | VDict _ =>
                 loop rest (dict_update items (flatten_value v new_key sep))
             | _ => loop rest (dict_set items new_key v)
             end
         end) doc []
  | _ => []
  end.

Definition safe_flatten (doc : dict) (parent_key sep : string) : dict :=
  flatten_value (VDict doc) parent_key sep.

(** [convert_value] *)
Definition convert_value (v : value) : outcome value :=
  match v with
  | VDecimal128 d => f <~ Decimal128_to_float d ;; Ok (VFloat f)
  | _ => Ok v
  end.

Definition METRIC_OPERATIONS : dict :=
  [ ("Count", VDict [("operator", VStr "$sum"); ("value", VInt 1);
                     ("requires_field", VBool false)]);
    ("Sum", VDict [("operator", VStr "$sum"); ("value", VStr "$value");
                   ("requires_field", VBool true)]);
    ("Average", VDict [("operator", VStr "$avg"); ("value", VStr "$value");
                       ("requires_field", VBool true)]);
    ("Max", VDict [("operator", VStr "$max"); ("value", VStr "$value");
                   ("requires_field", VBool true)]);
    ("Min", VDict [("operator", VStr "$min"); ("value", VStr "$value");
                   ("requires_field", VBool true)]);
    ("Unique Count", VDict [("operator", VStr "$addToSet");
                            ("value", VStr "$value");
                            ("requires_field", VBool true)]) ].

Definition TypeError (msg : string) : exn := mkExn "TypeError" true msg.

(** [d[k]] *)
Definition getitem (d : value) (k : string) : outcome value :=
  match d with
  | VDict d =>
      match dict_get d k with
      | Some v => Ok v
      | None => Raise (KeyError k)
      end
  | _ => Raise (TypeError "object is not subscriptable")
  end.

(** A value used as a dict key here is a string. *)
Definition as_key (v : value) : outcome string :=
  match v with
  | VStr s => Ok s
  | _ => Raise (TypeError "key is not a string")
  end.

(** The truth value of an object. *)
Definition truthy (v : value) : bool :=
  match v with
  | VNone => false
  | VBool b => b
  | VInt n => negb (n =? 0)%Z
  | VFloat f => negb (float_is_zero f)
  | VStr s => negb (String.eqb s "")
  | VDecimal128 _ => true
  | VList l | VTuple l => match l with [] => false | _ => true end
  | VDict d => match d with [] => false | _ => true end
  end.

(** [validate_fields]: the comprehension evaluates [data[0]] once for
    each required field. *)
Fixpoint missing_fields (data : list dict) (required_fields : list string)
  : outcome (list string) :=
  match required_fields with
  | [] => Ok []
  | field :: rest =>
      first <~ list_head data ;;
      missing <~ missing_fields data rest ;;
      Ok (if dict_mem first field then missing else field :: missing)
  end.

Definition validate_fields (data : list dict) (required_fields : list string)
  : ui bool :=
  missing <- lift (missing_fields data required_fields) ;;
  match missing with
  | _ :: _ =>
      emit (st_error ("Missing fields: " ++ join ", " missing)) ;;;
      ret false
  | [] => ret true
  end.

(** One turn of the loop of [build_metric_group]. *)
Definition add_metric (field : string) (group_stage : dict) (metric : string)
  : outcome dict :=
  config <~ getitem (VDict METRIC_OPERATIONS) metric ;;
  if String.eqb metric "Count" then
    operator <~ getitem config "operator" ;;
    operator <~ as_key operator ;;
    value <~ getitem config "value" ;;
    Ok (dict_set group_stage (lower metric) (VDict [(operator, value)]))
  else
    requires_field <~ getitem config "requires_field" ;;
    if truthy requires_field then
      template <~ getitem config "value" ;;
      match template with
      | VStr template =>
          let value := replace template "$value" ("$" ++ field) in
          operator <~ getitem config "operator" ;;
          operator <~ as_key operator ;;
          Ok (dict_set group_stage (lower metric)
                       (VDict [(operator, VStr value)]))
      | _ => Raise (mkExn "AttributeError" true
                          "object has no attribute 'replace'")
      end
    else Ok group_stage.

Fixpoint add_metrics (field : string) (group_stage : dict)
                     (metrics : list string) : outcome dict :=
  match metrics with
  | [] => Ok group_stage
  | metric :: rest =>
      group_stage' <~ add_metric field group_stage metric ;;
      add_metrics field group_stage' rest
  end.

(** [build_metric_group] *)
Definition build_metric_group (field : string) (metrics : list string)
  : outcome dict :=
  add_metrics field [("_id", VNone)] metrics.

(** The query of [get_available_fields]. *)
Definition sample_pipeline : list dict :=
  [ [("$sample", VDict [("size", VInt 10)])]; [("$limit", VInt 10)] ].

Definition sample_docs (S : mongo.store) (collection : list dict)
  : outcome (list dict) :=
  mongo.aggregate S sample_pipeline collection.

(** [d.get(k, default)] *)
Definition get_default (d : dict) (k : string) (default : value) : value :=
  match dict_get d k with Some v => v | None => default end.

(** [len(v)] *)
Definition len (v : value) : outcome Z :=
  match v with
  | VList l | VTuple l => Ok (Z.of_nat (List.length l))
  | VDict d => Ok (Z.of_nat (List.length d))
  | VStr s => Ok (Z.of_nat (String.length s))
  | _ => Raise (TypeError "object has no len()")
  end.

(** The object the f-string of a metric formats:
    [round(value, 2) if isinstance(value, float) else value] *)
Definition shown (v : value) : value :=
  match v with
  | VFloat f => VFloat (round2 f)
  | _ => v
  end.

(** One turn of the loop over [metric_types] in [main]. *)
Definition show_metric (result : dict) (metric : string) : ui unit :=
  value <-
    (if String.eqb metric "Count" then
       ret (get_default result (lower metric) (VInt 0))
     else if String.eqb metric "Unique Count" then
       n <- lift (len (get_default result (lower metric) (VList []))) ;;
       ret (VInt n)
     else ret (get_default result (lower metric) (VInt 0))) ;;
  emit (st_metric metric (shown value)).

Fixpoint show_metrics (result : dict) (metric_types : list string) : ui unit :=
  match metric_types with
  | [] => ret tt
  | metric :: rest => show_metric result metric ;;; show_metrics result rest
  end.

Definition is_alpha (c : ascii) : bool :=
  let n := nat_of_ascii c in
  orb (andb (65 <=? n)%nat (n <=? 90)%nat) (andb (97 <=? n)%nat (n <=? 122)%nat).

Definition ascii_upper (c : ascii) : ascii :=
  let n := nat_of_ascii c in
  if andb (97 <=? n)%nat (n <=? 122)%nat then ascii_of_nat (n - 32) else c.

(** [s.title()] on ASCII text. *)
Fixpoint title_from (in_word : bool) (s : string) : string :=
  match s with
  | EmptyString => EmptyString
  | String c rest =>
      if is_alpha c
      then String (if in_word then ascii_lower c else ascii_upper c)
                  (title_from true rest)
      else String c (title_from false rest)
  end.

Definition title (s : string) : string := title_from false s.

(** The metrics of one field in [main]: the body of the loop over
    [metric_fields]. *)
Definition metric_panel (S : mongo.store) (collection : list dict)
                        (pipeline : list dict) (field : string)
                        (metric_types : list string) : ui unit :=
  emit (st_subheader (title (replace field "_" " "))) ;;;
  try_except_Exception
    (group <- lift (build_metric_group field metric_types) ;;
     let metric_pipeline := pipeline ++ [[("$group", VDict group)]] in
     results <- lift (mongo.aggregate S metric_pipeline collection) ;;
     result <- lift (list_head results) ;;
     show_metrics result metric_types)
    (fun e => emit (st_error ("Metrics error: " ++ exn_str e))).

(** [projection] and [required_fields] of [main]: a field that is not
    chosen is the empty string. *)
Definition chosen (fields : list string) : list string :=
  filter (fun f => negb (String.eqb f "")) fields.

Definition projection (x_field y_field color_field size_field : string)
  : dict :=
  fold_left (fun p f => dict_set p f (VInt 1))
            (chosen [y_field; color_field; size_field])
            (dict_set [("_id", VInt 0)] x_field (VInt 1)).

Definition vis_pipeline (pipeline : list dict)
                        (x_field y_field color_field size_field : string)
  : list dict :=
  pipeline
    ++ [[("$project",
          VDict (projection x_field y_field color_field size_field))]]
    ++ [[("$limit", VInt 1000)]].

Definition required_fields (x_field y_field color_field size_field : string)
  : list string :=
  x_field :: chosen [y_field; color_field; size_field].

(** [{k: convert_value(v) for k, v in doc.items()}] *)
Fixpoint convert_items (items : list (string * value)) (converted : dict)
  : outcome dict :=
  match items with
  | [] => Ok converted
  | (k, v) :: rest =>
      v' <~ convert_value v ;;
      convert_items rest (dict_set converted k v')
  end.

Definition convert_doc (doc : dict) : outcome dict := convert_items doc [].

Fixpoint convert_docs (docs : list dict) : outcome (list dict) :=
  match docs with
  | [] => Ok []
  | doc :: rest =>
      doc' <~ convert_doc doc ;;
      rest' <~ convert_docs rest ;;
      Ok (doc' :: rest')
  end.

(** The visualization block of [main] up to the validation of the
    fields: the rows to plot, or [None] when the block returns early. *)
Definition visualization (S : mongo.store) (collection : list dict)
                         (pipeline : list dict)
                         (x_field y_field color_field size_field : string)
  : ui (option (list dict)) :=
  if String.eqb x_field "" then ret None
  else
    try_except_Exception
      (results <- lift (mongo.aggregate S
                          (vis_pipeline pipeline x_field y_field
                                        color_field size_field)
                          collection) ;;
       match results with
       | [] =>
           emit (st_warning "No data available for visualization") ;;;
           ret None
       | _ :: _ =>
           data <- lift (convert_docs results) ;;
           valid <- validate_fields data
                      (required_fields x_field y_field color_field
                                       size_field) ;;
           ret (if valid then Some data else None)
       end)
      (fun e =>
         emit (st_error ("Visualization error: " ++ exn_str e)) ;;;
         ret None).

(** The fields the flattened sample documents and the custom fields have,
    [sorted(fields)]. *)
Definition discovered_fields (sample : list dict) (custom_fields : dict)
  : list string :=
  sorted_set (flat_map (fun doc => keys (safe_flatten doc "" "_")) sample
                ++ keys custom_fields).

(** [get_available_fields]; [custom_fields] is the dict of the session
    state, empty when the session has none. *)
Definition get_available_fields (S : mongo.store) (collection : list dict)
                                (custom_fields : dict) : ui (list string) :=
  try_except_Exception
    (sample <- lift (sample_docs S collection) ;;
     ret (discovered_fields sample custom_fields))
    (fun e =>
       emit (st_error ("Field discovery error: " ++ exn_str e)) ;;;
       ret []).

(** [l.index(x)] when [x in l]. *)
Fixpoint index_of (l : list string) (x : string) : option nat :=
  match l with
  | [] => None
  | y :: rest =>
      if String.eqb x y then Some 0
      else match index_of rest x with
           | Some i => Some (S i)
           | None => None
           end
  end.

(** The preselected entry of a field selector:
    [available_fields.index(selected) if selected in available_fields
     else 0] *)
Definition default_index (available_fields : list string) (selected : string)
  : nat :=
  match index_of available_fields selected with
  | Some i => i
  | None => 0
  end.

(** The chart-building expressions of [fig_map], in the order of the dict
    display, each under its chart type.  The rows are given to Plotly as
    the table it makes of them. *)
Definition fig_map_calls (data : list dict)
                         (x_field y_field color_field size_field : string)
  : list (string * chart_call) :=
  let df := pandas.from_records data in
  [ ("scatter", mkChart "px.scatter" df
                  [("x", VStr x_field); ("y", VStr y_field);
                   ("color", VStr color_field); ("size", VStr size_field)]);
    ("bar", mkChart "px.bar" df
              [("x", VStr x_field); ("y", VStr y_field);
               ("color", VStr color_field)]);
    ("line", mkChart "px.line" df
               [("x", VStr x_field); ("y", VStr y_field);
                ("color", VStr color_field)]);
    ("histogram", mkChart "px.histogram" df
                    [("x", VStr x_field); ("color", VStr color_field)]);
    ("box", mkChart "px.box" df
              [("x", VStr x_field); ("y", VStr y_field);
               ("color", VStr color_field)]);
    ("pie", mkChart "px.pie" df
              [("names", VStr x_field); ("values", VStr y_field)]) ].

(** The evaluation of a dict display whose values are chart-building
    expressions: every expression is evaluated, in order. *)
Fixpoint draw_all (P : plotting) (calls : list (string * chart_call))
  : ui (list (string * figure)) :=
  match calls with
  | [] => ret []
  | (name, call) :: rest =>
      fig <- draw P call ;;
      figs <- draw_all P rest ;;
      ret ((name, fig) :: figs)
  end.

Fixpoint get_figure (figs : list (string * figure)) (name : string)
  : option figure :=
  match figs with
  | [] => None
  | (n, fig) :: rest =>
      if String.eqb name n then Some fig else get_figure rest name
  end.

(** [fig_map = {...}; fig = fig_map.get(chart_type)] *)
Definition chart_figure (P : plotting) (data : list dict)
                        (x_field y_field color_field size_field : string)
                        (chart_type : string) : ui (option figure) :=
  fig_map <- draw_all P (fig_map_calls data x_field y_field color_field
                                       size_field) ;;
  ret (get_figure fig_map chart_type).

End dynamic_dashboard_mongo.

(* ================================================================== *)
(** * Vocabulary of the properties *)
(* ================================================================== *)

Section OneLevel.
(** What the flattener does to a value it stores. *)
Variable conv : value -> value.

(** The assignments one entry of a document gives rise to when one level
    of nesting is merged: a dict contributes one assignment per immediate
    sub-key, under the parent key joined to the sub-key; any other value
    contributes one assignment under its own key. *)
Definition entry_writes (kv : string * value) : list (string * value) :=
  match snd kv with
  | VDict sub =>
      map (fun skv => ((fst kv ++ "_" ++ fst skv)%string, conv (snd skv))) sub
  | v => [(fst kv, conv v)]
  end.

(** The assignments of a document, in iteration order. *)
Definition one_level_writes (doc : dict) : list (string * value) :=
  flat_map entry_writes doc.
End OneLevel.

(** The compound keys a document gives rise to, in iteration order. *)
Definition compound_keys (doc : dict) : list string :=
  keys (one_level_writes (fun v => v) doc).

(** No value of the document is a dict. *)
Definition flat (doc : dict) : bool :=
  forallb (fun kv => negb (is_dict (snd kv))) doc.

(** The values of the document hold at most one level of dicts. *)
Definition one_level (doc : dict) : bool :=
  forallb (fun kv => match snd kv with
                     | VDict sub => flat sub
                     | _ => true
                     end) doc.

(** The assignments of a document when every level of nesting is merged:
    the leaves in depth-first order, each under the keys on its path
    joined by [sep]. *)
Fixpoint deep_writes (v : value) (parent_key sep : string)
  : list (string * value) :=
  match v with
  | VDict doc =>
      (fix go (entries : list (string * value)) : list (string * value) :=
         match entries with
         | [] => []
         | (k, v) :: rest =>
             let new_key :=
               match parent_key with
               | EmptyString => k
               | _ => (parent_key ++ sep ++ k)%string
               end in
             match v with
             | VDict _ => deep_writes v new_key sep ++ go rest
             | _ => (new_key, v) :: go rest
             end
         end) doc
  | _ => []
  end.

(** The values of a dict, converted. *)
Definition convert_values (conv : value -> value) (doc : dict) : dict :=
  map (fun kv => (fst kv, conv (snd kv))) doc.

(** How often a key occurs in a dict. *)
Definition occurrences (k : string) (d : dict) : nat :=
  List.length (filter (String.eqb k) (keys d)).

(** The rows a query returns; none when it raises. *)
Definition rows (A : Type) (o : outcome (list A)) : list A :=
  match o with
  | Ok l => l
  | Raise _ => []
  end.

(** The default of a target type of the coercion table. *)
Definition default_of (t : pandas.dtype) : value :=
  match t with
  | pandas.py_float => VFloat float_zero
  | pandas.py_int => VInt 0
  | pandas.py_bool => VBool false
  end.

(** A cell that [pd.to_numeric] cannot read as a number. *)
Definition unparseable (v : value) : Prop :=
  pandas.coerce_cell v = pandas.NaN.

(** The column [pd.to_numeric] and [fillna] make of the cells holds an
    infinity (NaN is filled, so nothing else is not finite). *)
Definition holds_infinity (cells : list value) : bool :=
  existsb pandas.non_finite
          (pandas.fillna airbnb_analytics.DEFAULT_NUMERIC
                         (pandas.to_numeric cells)).

(** The column a turn of the coercion loop assigns to its destination. *)
Definition coerced_column (df : DataFrame)
                          (entry : string * string * pandas.dtype)
  : outcome (list value) :=
  let '(src, dest, dtype) := entry in
  if pandas.has_column df src then
    cells <~ pandas.get_column df src ;;
    pandas.astype dtype
      (pandas.fillna airbnb_analytics.DEFAULT_NUMERIC (pandas.to_numeric cells))
  else
    v <~ pandas.call_dtype dtype airbnb_analytics.DEFAULT_NUMERIC ;;
    Ok (repeat v (index df)).

(** The metric kinds. *)
Definition metric_names : list string :=
  ["Count"; "Sum"; "Average"; "Max"; "Min"; "Unique Count"].

(** The accumulator of a metric kind over a field. *)
Definition accumulator_of (field metric : string) : string * value :=
  if String.eqb metric "Count" then ("$sum", VInt 1)
  else if String.eqb metric "Sum" then ("$sum", VStr ("$" ++ field))
  else if String.eqb metric "Average" then ("$avg", VStr ("$" ++ field))
  else if String.eqb metric "Max" then ("$max", VStr ("$" ++ field))
  else if String.eqb metric "Min" then ("$min", VStr ("$" ++ field))
  else ("$addToSet", VStr ("$" ++ field)).

(** The assignments to the group stage, one per chosen metric. *)
Definition metric_writes (field : string) (metrics : list string)
  : list (string * value) :=
  map (fun m => (lower m, VDict [accumulator_of field m])) metrics.

(** A field of a group specification, evaluated over the documents. *)
Definition eval_field (S : mongo.store) (docs : list dict)
                      (kv : string * value) : string * value :=
  (fst kv,
   match snd kv with
   | VDict [(op, arg)] => mongo.eval_accumulator S op arg docs
   | v => v
   end).

(** A value that is an accumulator object [{op: arg}]. *)
Definition is_accumulator (v : value) : Prop :=
  exists op arg, v = VDict [(op, arg)].



(** A plotting library whose every chart-building expression raises [e]. *)
Definition failing_plots (e : exn) : plotting :=
  mkPlotting (fun _ => Some e) (fun _ => None)
             (fun _ _ => Raise e).

(** A store that samples the first documents, returns [None] for the
    accumulators and passes documents through the stages that are not
    modelled. *)
Definition plain_store : mongo.store :=
  mongo.mkStore (fun _ docs => docs) (fun _ _ _ => VNone) (fun _ docs => Ok docs).

(** The source and the destination columns of a coercion table. *)
Definition sources (config : list (string * string * pandas.dtype))
  : list string :=
  map (fun e => fst (fst e)) config.

Definition destinations (config : list (string * string * pandas.dtype))
  : list string :=
  map (fun e => snd (fst e)) config.

(** No source column of the table that is coerced to [int] holds an
    infinity. *)
Definition no_infinite_int (data : list dict) : bool :=
  forallb
    (fun entry =>
       match entry with
       | (src, _, pandas.py_int) =>
           match pandas.lookup_column (columns (pandas.from_records data)) src with
           | Some cells => negb (holds_infinity cells)
           | None => true
           end
       | _ => true
       end)
    airbnb_analytics.numeric_config.

(** [k] begins with [p]. *)
Definition starts_with (p k : string) : Prop :=
  exists rest, k = (p ++ rest)%string.

(** The object is not a [Decimal128]. *)
Definition not_Decimal128 (v : value) : Prop :=
  forall d, v <> VDecimal128 d.

(** Every column of the table has one cell per row. *)
Definition rectangular (df : DataFrame) : Prop :=
  Forall (fun col => List.length (snd col) = index df) (columns df).

(** The object is of the target type of the coercion table. *)
Definition has_dtype (t : pandas.dtype) (v : value) : Prop :=
  match t with
  | pandas.py_float => exists f, v = VFloat f
  | pandas.py_int => exists n, v = VInt n
  | pandas.py_bool => exists b, v = VBool b
  end.

(** The columns [safe_dataframe] writes. *)
Definition written_columns : list string :=
  destinations airbnb_analytics.numeric_config ++ ["coordinates"; "lat"; "lon"].

(** What [safe_dataframe] shows when it fails with the error [text]. *)
Definition processing_error (text : string) : ui_event :=
  st_error ("Data processing error: " ++ text).

(** The text is ASCII. *)
Fixpoint is_ascii (s : string) : bool :=
  match s with
  | EmptyString => true
  | String c rest => andb (nat_of_ascii c <? 128)%nat (is_ascii rest)
  end.

(** The chart is built and shown without an exception. *)
Definition draws (P : plotting) (c : chart_call) : bool :=
  match draw_raises P c, show_raises P c with
  | None, None => true
  | _, _ => false
  end.

(** What a chart panel shows: its header, then the chart or else its
    warning. *)
Definition panel_events (P : plotting) (header : string) (c : chart_call)
                        (warning : string) : list ui_event :=
  [st_header header;
   if draws P c then st_plotly_chart c else st_warning warning].


(** [convert_value] turns the entry [kv] into the entry [kv']. *)
Definition converted_entry (kv kv' : string * value) : Prop :=
  fst kv' = fst kv
  /\ dynamic_dashboard_mongo.convert_value (snd kv) = Ok (snd kv').

(** [a < b] on strings. *)
Definition string_lt (a b : string) : Prop := String.compare a b = Lt.

(* ================================================================== *)
(** * Dicts *)
(* ================================================================== *)

Unset Implicit Arguments.

Lemma value_dict_ind (P : value -> Prop) :
  (forall v, is_dict v = false -> P v) ->
  (forall d, Forall (fun kv => P (snd kv)) d -> P (VDict d)) ->
  forall v, P v.
Proof.
  intros Hleaf Hdict. fix IH 1.
  intros [ | b | n | f | s | d | l | l | d]; try (apply Hleaf; reflexivity).
  apply Hdict. revert d. fix IHd 1.
  intros [| [k v] d]; constructor; [apply IH | apply IHd].
Qed.

Lemma dict_get_app (a b : dict) (k : string) :
  dict_get (a ++ b) k =
  match dict_get a k with Some v => Some v | None => dict_get b k end.
Proof.
  induction a as [| [k' v'] a IH]; simpl; [reflexivity |].
  destruct (String.eqb k k'); [reflexivity | exact IH].
Qed.

Lemma dict_get_set (d : dict) (k k' : string) (v : value) :
  dict_get (dict_set d k v) k' =
  if String.eqb k' k then Some v else dict_get d k'.
Proof.
  induction d as [| [k0 v0] d IH]; simpl.
  - reflexivity.
  - destruct (String.eqb k k0) eqn:E; simpl.
    + apply String.eqb_eq in E; subst k0.
      destruct (String.eqb k' k); reflexivity.
    + rewrite IH. destruct (String.eqb k' k0) eqn:E0; [| reflexivity].
      apply String.eqb_eq in E0; subst k0.
      rewrite String.eqb_sym, E. reflexivity.
Qed.

Lemma dict_update_app (d a b : dict) :
  dict_update d (a ++ b) = dict_update (dict_update d a) b.
Proof. unfold dict_update. apply fold_left_app. Qed.

Lemma dict_get_update (ws d : dict) (k : string) :
  dict_get (dict_update d ws) k =
  match last_write k ws with Some v => Some v | None => dict_get d k end.
Proof.
  unfold last_write. revert d.
  induction ws as [| [k0 v0] ws IH]; intros d; simpl; [reflexivity |].
  change (dict_get (dict_update (dict_set d k0 v0) ws) k = 
          match dict_get (rev ws ++ [(k0, v0)]) k with
          | Some v => Some v | None => dict_get d k end).
  rewrite IH, dict_get_app, dict_get_set. simpl.
  destruct (dict_get (rev ws) k); [reflexivity |].
  destruct (String.eqb k k0); reflexivity.
Qed.

Lemma dict_get_None (d : dict) (k : string) :
  dict_get d k = None <-> ~ In k (keys d).
Proof.
  induction d as [| [k0 v0] d IH]; simpl.
  - tauto.
  - destruct (String.eqb k k0) eqn:E.
    + apply String.eqb_eq in E. split; [discriminate | intros H; elim H; auto].
    + apply String.eqb_neq in E. rewrite IH. split.
      * intros H [H1 | H1]; [congruence | tauto].
      * tauto.
Qed.

Lemma dict_set_fresh (d : dict) (k : string) (v : value) :
  ~ In k (keys d) -> dict_set d k v = d ++ [(k, v)].
Proof.
  induction d as [| [k0 v0] d IH]; simpl; intros H; [reflexivity |].
  destruct (String.eqb k k0) eqn:E.
  - apply String.eqb_eq in E. elim H; auto.
  - rewrite IH by tauto. reflexivity.
Qed.

Lemma keys_dict_set (d : dict) (k : string) (v : value) :
  keys (dict_set d k v) = if dict_mem d k then keys d else keys d ++ [k].
Proof.
  unfold dict_mem. induction d as [| [k0 v0] d IH]; simpl; [reflexivity |].
  destruct (String.eqb k k0) eqn:E; simpl; [reflexivity |].
  rewrite IH. destruct (dict_get d k); reflexivity.
Qed.

Lemma NoDup_keys_set (d : dict) (k : string) (v : value) :
  NoDup (keys d) -> NoDup (keys (dict_set d k v)).
Proof.
  intros H. rewrite keys_dict_set. unfold dict_mem.
  destruct (dict_get d k) eqn:E; [exact H |].
  apply dict_get_None in E.
  apply NoDup_app; [exact H | constructor; [simpl; tauto | constructor] |].
  intros x Hx [Hk | []]. subst x. tauto.
Qed.

Lemma NoDup_keys_update (ws d : dict) :
  NoDup (keys d) -> NoDup (keys (dict_update d ws)).
Proof.
  revert d. induction ws as [| [k v] ws IH]; intros d H; [exact H |].
  apply (IH (dict_set d k v)). apply NoDup_keys_set, H.
Qed.

Lemma dict_update_fresh (ws d : dict) :
  NoDup (keys d ++ keys ws) -> dict_update d ws = d ++ ws.
Proof.
  revert d. induction ws as [| [k v] ws IH]; intros d H.
  - simpl. symmetry. apply app_nil_r.
  - change (dict_update (dict_set d k v) ws = d ++ (k, v) :: ws).
    simpl in H. assert (Hk : ~ In k (keys d)).
    { apply NoDup_remove_2 in H. intros Hin. apply H. apply in_or_app. auto. }
    rewrite dict_set_fresh by exact Hk.
    rewrite IH.
    + rewrite <- app_assoc. reflexivity.
    + unfold keys in *. rewrite map_app. simpl. rewrite <- app_assoc. exact H.
Qed.

Lemma dict_of_writes_NoDup (ws : dict) :
  NoDup (keys ws) -> dict_of_writes ws = ws.
Proof. intros H. unfold dict_of_writes. apply (dict_update_fresh ws []), H. Qed.

Lemma Forall_values_set (P : value -> Prop) (d : dict) (k : string) (v : value) :
  P v -> Forall (fun kv => P (snd kv)) d ->
  Forall (fun kv => P (snd kv)) (dict_set d k v).
Proof.
  intros Hv. induction d as [| [k0 v0] d IH]; simpl; intros H.
  - constructor; [exact Hv | constructor].
  - inversion H; subst. destruct (String.eqb k k0); constructor; auto.
Qed.

Lemma Forall_values_update (P : value -> Prop) (ws d : dict) :
  Forall (fun kv => P (snd kv)) ws -> Forall (fun kv => P (snd kv)) d ->
  Forall (fun kv => P (snd kv)) (dict_update d ws).
Proof.
  revert d. induction ws as [| [k v] ws IH]; intros d Hws Hd; [exact Hd |].
  inversion Hws; subst. apply (IH (dict_set d k v)); [assumption |].
  apply Forall_values_set; assumption.
Qed.

(* ================================================================== *)
(** * The flatteners as sequences of assignments *)
(* ================================================================== *)

Lemma last_write_app (k : string) (a b : list (string * value)) :
  last_write k (a ++ b) =
  match last_write k b with Some v => Some v | None => last_write k a end.
Proof. unfold last_write. rewrite rev_app_distr. apply dict_get_app. Qed.

Lemma last_write_cons (k k0 : string) (v0 : value) (ws : list (string * value)) :
  last_write k ((k0, v0) :: ws) =
  match last_write k ws with
  | Some v => Some v
  | None => if String.eqb k k0 then Some v0 else None
  end.
Proof. unfold last_write. simpl. apply dict_get_app. Qed.

Lemma last_write_NoDup (k : string) (d : dict) :
  NoDup (keys d) -> last_write k d = dict_get d k.
Proof.
  induction d as [| [k0 v0] d IH]; intros H; [reflexivity |].
  inversion H as [| ? ? Hnotin Hnd]; subst.
  rewrite last_write_cons, (IH Hnd). simpl.
  destruct (String.eqb k k0) eqn:E.
  - apply String.eqb_eq in E; subst k0.
    apply dict_get_None in Hnotin. rewrite Hnotin. reflexivity.
  - destruct (dict_get d k); reflexivity.
Qed.

Lemma fold_sub_writes (conv : value -> value) (key : string) (sub acc : dict) :
  fold_left
    (fun flat skv =>
       let '(sub_key, sub_value) := skv in
       dict_set flat (key ++ "_" ++ sub_key) (conv sub_value))
    sub acc
  = dict_update acc
      (map (fun skv => ((key ++ "_" ++ fst skv)%string, conv (snd skv))) sub).
Proof.
  revert acc. induction sub as [| [sk sv] sub IH]; intros acc; [reflexivity |].
  simpl. rewrite IH. reflexivity.
Qed.

Lemma fold_flatten_writes (conv : value -> value) (doc acc : dict) :
  fold_left
    (fun flat kv =>
       let '(key, value) := kv in
       match value with
       | VDict sub =>
           fold_left
             (fun flat skv =>
                let '(sub_key, sub_value) := skv in
                dict_set flat (key ++ "_" ++ sub_key) (conv sub_value))
             sub flat
       | _ => dict_set flat key (conv value)
       end)
    doc acc
  = dict_update acc (one_level_writes conv doc).
Proof.
  revert acc. induction doc as [| [k v] doc IH]; intros acc; [reflexivity |].
  unfold one_level_writes. simpl flat_map. rewrite dict_update_app.
  simpl fold_left. rewrite IH. f_equal.
  destruct v; try reflexivity.
  unfold entry_writes. simpl fst. simpl snd. apply fold_sub_writes.
Qed.

Lemma airbnb_flatten_writes (doc : dict) :
  airbnb_analytics.safe_flatten doc
  = dict_of_writes (one_level_writes airbnb_analytics.safe_convert doc).
Proof.
  exact (fold_flatten_writes airbnb_analytics.safe_convert doc []).
Qed.

Lemma df_flatten_writes (doc : dict) :
  dynamic_dashboard_df.safe_flatten doc
  = dict_of_writes (one_level_writes (fun v => v) doc).
Proof. exact (fold_flatten_writes (fun v => v) doc []). Qed.

Lemma keys_one_level_writes (conv : value -> value) (doc : dict) :
  keys (one_level_writes conv doc) = compound_keys doc.
Proof.
  unfold compound_keys, keys, one_level_writes.
  induction doc as [| [k v] doc IH]; [reflexivity |].
  simpl. rewrite !map_app, IH. f_equal.
  unfold entry_writes. simpl. destruct v; try reflexivity.
  rewrite !map_map. reflexivity.
Qed.

(** ** The recursive flattener *)

Lemma flatten_value_NoDup (v : value) (parent_key sep : string) :
  NoDup (keys (dynamic_dashboard_mongo.flatten_value v parent_key sep)).
Proof.
  destruct v as [ | | | | | | | | doc]; simpl; try constructor.
  assert (H : NoDup (keys [])) by constructor.
  revert H. generalize (@nil (string * value)) as items.
  induction doc as [| [k v] doc IH]; intros items H; [exact H |].
  destruct v; apply IH;
    try (apply NoDup_keys_set; exact H).
  apply NoDup_keys_update; exact H.
Qed.

Lemma flatten_value_leaves (v : value) :
  forall parent_key sep,
    Forall (fun kv => is_dict (snd kv) = false)
           (dynamic_dashboard_mongo.flatten_value v parent_key sep).
Proof.
  induction v as [v Hv | doc IHdoc] using value_dict_ind; intros parent_key sep.
  - destruct v; try discriminate; constructor.
  - simpl.
    assert (H : Forall (fun kv : string * value => is_dict (snd kv) = false) [])
      by constructor.
    revert H. generalize (@nil (string * value)) as items.
    induction IHdoc as [| [k v] doc Hv _ IH]; intros items H; [exact H |].
    simpl in Hv.
    destruct v; apply IH;
      try (apply (Forall_values_set (fun v => is_dict v = false));
           [reflexivity | exact H]).
    apply (Forall_values_update (fun v => is_dict v = false));
      [apply Hv | exact H].
Qed.

Ltac by_last_write :=
  repeat match goal with
         | |- context [last_write ?k ?ws] => destruct (last_write k ws)
         end;
  try match goal with
      | |- context [String.eqb ?a ?b] => destruct (String.eqb a b)
      end;
  reflexivity.

Lemma flatten_value_writes (v : value) :
  forall parent_key sep k,
    dict_get (dynamic_dashboard_mongo.flatten_value v parent_key sep) k
    = last_write k (deep_writes v parent_key sep).
Proof.
  induction v as [v Hv | doc IHdoc] using value_dict_ind;
    intros parent_key sep k.
  - destruct v; try discriminate; reflexivity.
  - simpl.
    match goal with
    | |- dict_get (?loop doc []) k = last_write k (?go doc) =>
        enough (H : forall items,
                   dict_get (loop doc items) k
                   = match last_write k (go doc) with
                     | Some x => Some x
                     | None => dict_get items k
                     end)
          by (rewrite H; simpl; destruct (last_write k (go doc)); reflexivity)
    end.
    induction IHdoc as [| [k0 v0] doc Hv0 _ IH]; intros items; [reflexivity |].
    simpl in Hv0.
    destruct v0;
      try (rewrite IH, last_write_cons, dict_get_set; by_last_write).
    rewrite IH, last_write_app, dict_get_update.
    rewrite (last_write_NoDup k (dynamic_dashboard_mongo.flatten_value _ _ _))
      by apply flatten_value_NoDup.
    rewrite Hv0. by_last_write.
Qed.

Lemma flatten_value_flat (doc : dict) (sep : string) :
  flat doc = true -> NoDup (keys doc) ->
  dynamic_dashboard_mongo.flatten_value (VDict doc) EmptyString sep = doc.
Proof.
  intros Hflat Hnd. simpl.
  rewrite <- (dict_update_fresh doc []) at 2 by exact Hnd.
  generalize (@nil (string * value)) as items.
  clear Hnd. induction doc as [| [k v] doc IH]; intros items; [reflexivity |].
  simpl in Hflat. apply andb_true_iff in Hflat. destruct Hflat as [Hv Hflat].
  destruct v; try discriminate; apply (IH Hflat).
Qed.

Lemma flat_Forall (doc : dict) :
  flat doc = true <-> Forall (fun kv => is_dict (snd kv) = false) doc.
Proof.
  unfold flat. rewrite forallb_forall, Forall_forall.
  split; intros H x Hx; specialize (H x Hx);
    destruct (is_dict (snd x)); simpl in *; congruence.
Qed.

Lemma dict_of_writes_values (P : value -> Prop) (ws : list (string * value)) :
  Forall (fun kv => P (snd kv)) ws ->
  Forall (fun kv => P (snd kv)) (dict_of_writes ws).
Proof. intros H. apply Forall_values_update; [exact H | constructor]. Qed.

Lemma dict_of_writes_keys_NoDup (ws : list (string * value)) :
  NoDup (keys (dict_of_writes ws)).
Proof. apply NoDup_keys_update. constructor. Qed.

Lemma keys_convert_values (conv : value -> value) (doc : dict) :
  keys (convert_values conv doc) = keys doc.
Proof. unfold keys, convert_values. rewrite map_map. reflexivity. Qed.

Lemma flat_writes (conv : value -> value) (doc : dict) :
  flat doc = true -> one_level_writes conv doc = convert_values conv doc.
Proof.
  unfold one_level_writes, convert_values.
  induction doc as [| [k v] doc IH]; intros H; [reflexivity |].
  simpl in H. apply andb_true_iff in H. destruct H as [Hv H].
  simpl. rewrite (IH H). destruct v; try discriminate; reflexivity.
Qed.

Lemma convert_values_fixed (conv : value -> value) (doc : dict) :
  Forall (fun kv => conv (snd kv) = snd kv) doc -> convert_values conv doc = doc.
Proof.
  unfold convert_values. induction 1 as [| [k v] doc Hv _ IH]; [reflexivity |].
  simpl in *. rewrite Hv, IH. reflexivity.
Qed.

Section Idempotence.
Variable conv : value -> value.
Hypothesis conv_leaf : forall v, is_dict v = false -> is_dict (conv v) = false.
Hypothesis conv_idem : forall v, conv (conv v) = conv v.

(** Every value written by a one-level merge of a one-level document is
    a converted leaf. *)
Lemma one_level_writes_leaves (doc : dict) :
  one_level doc = true ->
  Forall (fun kv => is_dict (snd kv) = false /\ conv (snd kv) = snd kv)
         (one_level_writes conv doc).
Proof.
  unfold one_level_writes.
  induction doc as [| [k v] doc IH]; intros H; [constructor |].
  simpl in H. apply andb_true_iff in H. destruct H as [Hv H].
  simpl. apply Forall_app. split; [| exact (IH H)].
  unfold entry_writes. simpl fst. simpl snd.
  destruct v;
    try (constructor;
         [split; [apply conv_leaf; reflexivity | apply conv_idem]
         | constructor]; fail).
  apply flat_Forall in Hv. clear - Hv conv_leaf conv_idem.
  induction Hv as [| [sk sv] sub Hsv _ IHsub]; [constructor |].
  simpl. constructor; [| exact IHsub].
  simpl. split; [apply conv_leaf, Hsv | apply conv_idem].
Qed.

Lemma one_level_merge_idempotent (doc : dict) :
  one_level doc = true ->
  dict_of_writes
    (one_level_writes conv (dict_of_writes (one_level_writes conv doc)))
  = dict_of_writes (one_level_writes conv doc).
Proof.
  intros H.
  pose proof (dict_of_writes_values
                (fun v => is_dict v = false /\ conv v = v) _
                (one_level_writes_leaves doc H)) as Hleaves.
  set (f := dict_of_writes (one_level_writes conv doc)) in *.
  assert (Hflat : flat f = true).
  { apply flat_Forall. eapply Forall_impl; [| exact Hleaves].
    intros kv [Hk _]. exact Hk. }
  rewrite (flat_writes conv f Hflat), convert_values_fixed.
  - apply dict_of_writes_NoDup, dict_of_writes_keys_NoDup.
  - eapply Forall_impl; [| exact Hleaves]. intros kv [_ Hk]. exact Hk.
Qed.

Lemma one_level_merge_flat (doc : dict) :
  flat doc = true -> NoDup (keys doc) ->
  dict_of_writes (one_level_writes conv doc) = convert_values conv doc.
Proof.
  intros Hflat Hnd. rewrite (flat_writes conv doc Hflat).
  apply dict_of_writes_NoDup. rewrite keys_convert_values. exact Hnd.
Qed.
End Idempotence.

Lemma safe_convert_leaf (v : value) :
  is_dict v = false -> is_dict (airbnb_analytics.safe_convert v) = false.
Proof.
  destruct v as [ | | | | | d | | | ]; try discriminate; try reflexivity.
  intros _. simpl. destruct (Decimal128_to_float d); reflexivity.
Qed.

Lemma safe_convert_idem (v : value) :
  airbnb_analytics.safe_convert (airbnb_analytics.safe_convert v)
  = airbnb_analytics.safe_convert v.
Proof.
  destruct v as [ | | | | | d | | | ]; try reflexivity.
  simpl. destruct (Decimal128_to_float d); reflexivity.
Qed.

Lemma convert_values_id (doc : dict) : convert_values (fun v => v) doc = doc.
Proof. apply convert_values_fixed, Forall_forall. reflexivity. Qed.

(** C2.  Flattening twice is flattening once, for each of the three
    flatteners, on every document whose values hold at most one level of
    dicts (the recursive flattener of [dynamic_dashboard_mongo] needs no
    such bound, the theorem states it for the same documents).  On an
    already flat document the flatteners return the document itself, up to
    the conversion [airbnb_analytics.safe_convert] applies to the values. *)
Theorem flatten_idempotent (d : dict) :
  one_level d = true ->
  airbnb_analytics.safe_flatten (airbnb_analytics.safe_flatten d)
    = airbnb_analytics.safe_flatten d
  /\ dynamic_dashboard_df.safe_flatten (dynamic_dashboard_df.safe_flatten d)
     = dynamic_dashboard_df.safe_flatten d
  /\ dynamic_dashboard_mongo.safe_flatten
       (dynamic_dashboard_mongo.safe_flatten d "" "_") "" "_"
     = dynamic_dashboard_mongo.safe_flatten d "" "_"
  /\ (flat d = true -> NoDup (keys d) ->
      airbnb_analytics.safe_flatten d
        = convert_values airbnb_analytics.safe_convert d
      /\ dynamic_dashboard_df.safe_flatten d = d
      /\ dynamic_dashboard_mongo.safe_flatten d "" "_" = d).
Proof.
  intros H. repeat split.
  - rewrite !airbnb_flatten_writes.
    apply one_level_merge_idempotent;
      [apply safe_convert_leaf | apply safe_convert_idem | exact H].
  - rewrite !df_flatten_writes.
    apply (one_level_merge_idempotent (fun v => v)); auto.
  - unfold dynamic_dashboard_mongo.safe_flatten.
    apply flatten_value_flat.
    + apply flat_Forall, flatten_value_leaves.
    + apply flatten_value_NoDup.
  - rewrite airbnb_flatten_writes. apply one_level_merge_flat; assumption.
  - rewrite df_flatten_writes, one_level_merge_flat by assumption.
    apply convert_values_id.
  - apply flatten_value_flat; assumption.
Qed.

(** A one-level document with a decimal wrapper, a nested dict, a plain
    value and a list: flattening it twice is flattening it once. *)
Lemma flatten_idempotent_witness :
  let d := [ ("price", VDecimal128 (D128_finite false 1005 (-1)));
             ("address", VDict [("country", VStr "Portugal");
                                ("fee", VDecimal128 D128_snan)]);
             ("amenities", VList [VStr "Wifi"; VDict [("k", VInt 1)]]);
             ("beds", VInt 2) ] in
  one_level d = true
  /\ airbnb_analytics.safe_flatten (airbnb_analytics.safe_flatten d)
     = airbnb_analytics.safe_flatten d.
Proof.
  intros d. split; [reflexivity |].
  exact (proj1 (flatten_idempotent d eq_refl)).
Defined.

Lemma dict_get_In (d : dict) (k : string) (v : value) :
  NoDup (keys d) -> In (k, v) d -> dict_get d k = Some v.
Proof.
  induction d as [| [k0 v0] d IH]; intros Hnd Hin; [contradiction |].
  inversion Hnd as [| ? ? Hnotin Hnd']; subst. simpl.
  destruct Hin as [Heq | Hin].
  - inversion Heq; subst. rewrite String.eqb_refl. reflexivity.
  - destruct (String.eqb k k0) eqn:E; [| exact (IH Hnd' Hin)].
    apply String.eqb_eq in E; subst k0. elim Hnotin.
    change k with (fst (k, v)). apply in_map, Hin.
Qed.

Lemma dict_get_Some_In (d : dict) (k : string) (v : value) :
  dict_get d k = Some v -> In k (keys d).
Proof.
  intros H. destruct (in_dec string_dec k (keys d)) as [Hin | Hnotin];
    [exact Hin |].
  apply dict_get_None in Hnotin. congruence.
Qed.

Lemma occurrences_NoDup (k : string) (d : dict) :
  NoDup (keys d) -> In k (keys d) -> occurrences k d = 1.
Proof.
  unfold occurrences. generalize (keys d) as l.
  induction l as [| k0 l IH]; intros Hnd Hin; [contradiction |].
  inversion Hnd as [| ? ? Hnotin Hnd']; subst. simpl.
  destruct (String.eqb k k0) eqn:E.
  - apply String.eqb_eq in E; subst k0. simpl. f_equal.
    clear - Hnotin. induction l as [| k1 l IHl]; [reflexivity |].
    simpl. destruct (String.eqb k k1) eqn:E1.
    + apply String.eqb_eq in E1. subst. elim Hnotin. left; reflexivity.
    + apply IHl. intros H. apply Hnotin. right; exact H.
  - apply String.eqb_neq in E. destruct Hin as [Heq | Hin]; [congruence |].
    exact (IH Hnd' Hin).
Qed.

Lemma last_write_later (k : string) (v1 v2 : value)
      (before between after : list (string * value)) :
  ~ In k (keys after) ->
  last_write k (before ++ (k, v1) :: between ++ (k, v2) :: after) = Some v2.
Proof.
  intros H. rewrite last_write_app, last_write_cons, last_write_app.
  rewrite last_write_cons.
  assert (Hafter : last_write k after = None).
  { unfold last_write. apply dict_get_None.
    unfold keys. rewrite map_rev. intros Hin. apply H.
    apply in_rev. exact Hin. }
  rewrite Hafter, String.eqb_refl. reflexivity.
Qed.

(** C9.  The flatteners of [airbnb_analytics] and [dynamic_dashboard_mongo]
    are not injective, and when two entries of a document produce the same
    compound key the flattened row holds that key once, with the value of
    the entry that comes later in iteration order; the flatteners are
    total functions and report nothing. *)
Theorem flatten_keeps_later_write :
  (exists d1 d2 : dict,
      d1 <> d2
      /\ airbnb_analytics.safe_flatten d1 = airbnb_analytics.safe_flatten d2
      /\ dynamic_dashboard_mongo.safe_flatten d1 "" "_"
         = dynamic_dashboard_mongo.safe_flatten d2 "" "_")
  /\ forall (doc : dict) (k : string) (v1 v2 : value)
            (before between after : list (string * value)),
      ~ In k (keys after) ->
      (one_level_writes airbnb_analytics.safe_convert doc
         = before ++ (k, v1) :: between ++ (k, v2) :: after ->
       dict_get (airbnb_analytics.safe_flatten doc) k = Some v2
       /\ occurrences k (airbnb_analytics.safe_flatten doc) = 1)
      /\ (deep_writes (VDict doc) "" "_"
            = before ++ (k, v1) :: between ++ (k, v2) :: after ->
          dict_get (dynamic_dashboard_mongo.safe_flatten doc "" "_") k = Some v2
          /\ occurrences k (dynamic_dashboard_mongo.safe_flatten doc "" "_") = 1).
Proof.
  split.
  - exists [("a_b", VInt 1); ("a", VDict [("b", VInt 2)])],
           [("a_b", VInt 2)].
    split; [discriminate | split; reflexivity].
  - intros doc k v1 v2 before between after Hafter. split; intros Hw.
    + assert (Hget : dict_get (airbnb_analytics.safe_flatten doc) k = Some v2).
      { rewrite airbnb_flatten_writes. unfold dict_of_writes.
        rewrite dict_get_update, Hw, last_write_later by exact Hafter.
        reflexivity. }
      split; [exact Hget |].
      apply occurrences_NoDup; [| exact (dict_get_Some_In _ _ _ Hget)].
      rewrite airbnb_flatten_writes. apply dict_of_writes_keys_NoDup.
    + assert (Hget : dict_get (dynamic_dashboard_mongo.safe_flatten doc "" "_") k
                     = Some v2).
      { unfold dynamic_dashboard_mongo.safe_flatten.
        rewrite flatten_value_writes, Hw.
        apply last_write_later, Hafter. }
      split; [exact Hget |].
      apply occurrences_NoDup; [| exact (dict_get_Some_In _ _ _ Hget)].
      apply flatten_value_NoDup.
Qed.

(** The document [{"a_b": 1, "a": {"b": 2}}]: both entries produce the key
    [a_b], and the flattened row holds the later value 2. *)
Lemma flatten_keeps_later_write_witness :
  let doc := [("a_b", VInt 1); ("a", VDict [("b", VInt 2)])] in
  ~ In "a_b" (keys [])
  /\ one_level_writes airbnb_analytics.safe_convert doc
     = [] ++ ("a_b", VInt 1) :: [] ++ ("a_b", VInt 2) :: []
  /\ dict_get (airbnb_analytics.safe_flatten doc) "a_b" = Some (VInt 2)
  /\ occurrences "a_b" (airbnb_analytics.safe_flatten doc) = 1.
Proof.
  intros doc.
  assert (Hafter : ~ In "a_b" (keys [])) by (simpl; tauto).
  split; [exact Hafter |]. split; [reflexivity |].
  exact (proj1 (proj2 flatten_keeps_later_write doc "a_b" (VInt 1) (VInt 2)
                      [] [] [] Hafter) eq_refl).
Defined.

(** C6, as the code has it.  The flatteners of [airbnb_analytics] and
    [dynamic_dashboard_df] merge exactly one level: the row they build is
    the one the assignments of a one-level merge build, where the
    immediate sub-keys of a dict are joined to the parent key, a dict
    inside that dict is stored as it is, and a value that is not a dict
    keeps its key; the flattener of [airbnb_analytics] converts the decimal
    wrappers among the values it stores and nothing else.  When no two
    entries produce the same compound key the row is that list of
    assignments itself.  The flattener of [dynamic_dashboard_mongo] merges
    every level: its result holds no dict, only the leaves of the document
    under the keys of their whole path. *)
Theorem flatten_one_level_or_every_level (doc : dict) :
  (airbnb_analytics.safe_flatten doc
     = dict_of_writes (one_level_writes airbnb_analytics.safe_convert doc)
   /\ dynamic_dashboard_df.safe_flatten doc
      = dict_of_writes (one_level_writes (fun v => v) doc)
   /\ (forall v, (forall d, v <> VDecimal128 d) ->
                 airbnb_analytics.safe_convert v = v))
  /\ (NoDup (compound_keys doc) ->
      airbnb_analytics.safe_flatten doc
        = one_level_writes airbnb_analytics.safe_convert doc
      /\ dynamic_dashboard_df.safe_flatten doc
         = one_level_writes (fun v => v) doc
      /\ (forall k sub sk deeper,
             In (k, VDict sub) doc -> In (sk, VDict deeper) sub ->
             dict_get (airbnb_analytics.safe_flatten doc) (k ++ "_" ++ sk)
             = Some (VDict deeper))
      /\ (forall k v,
             In (k, v) doc -> is_dict v = false ->
             dict_get (airbnb_analytics.safe_flatten doc) k
             = Some (airbnb_analytics.safe_convert v)))
  /\ (forall parent_key sep,
         Forall (fun kv => is_dict (snd kv) = false)
                (dynamic_dashboard_mongo.safe_flatten doc parent_key sep)
         /\ forall k,
             dict_get (dynamic_dashboard_mongo.safe_flatten doc parent_key sep) k
             = last_write k (deep_writes (VDict doc) parent_key sep)).
Proof.
  split; [| split].
  - split; [apply airbnb_flatten_writes |]. split; [apply df_flatten_writes |].
    intros v Hv. destruct v; try reflexivity. elim (Hv d). reflexivity.
  - intros Hnd.
    assert (HndA : NoDup (keys (one_level_writes airbnb_analytics.safe_convert
                                                 doc)))
      by (rewrite keys_one_level_writes; exact Hnd).
    assert (HA : airbnb_analytics.safe_flatten doc
                 = one_level_writes airbnb_analytics.safe_convert doc).
    { rewrite airbnb_flatten_writes. apply dict_of_writes_NoDup. exact HndA. }
    split; [exact HA |]. split; [| split].
    + rewrite df_flatten_writes. apply dict_of_writes_NoDup.
      rewrite keys_one_level_writes. exact Hnd.
    + intros k sub sk deeper Hin Hsub. rewrite HA.
      apply dict_get_In; [exact HndA |].
      unfold one_level_writes. apply in_flat_map.
      exists (k, VDict sub). split; [exact Hin |].
      unfold entry_writes. simpl fst. simpl snd.
      apply in_map_iff. exists (sk, VDict deeper).
      split; [reflexivity | exact Hsub].
    + intros k v Hin Hv. rewrite HA.
      apply dict_get_In; [exact HndA |].
      unfold one_level_writes. apply in_flat_map.
      exists (k, v). split; [exact Hin |].
      unfold entry_writes. simpl fst. simpl snd.
      destruct v; try discriminate; left; reflexivity.
  - intros parent_key sep. split; [apply flatten_value_leaves |].
    intros k. apply flatten_value_writes.
Qed.

(** A listing with a nested address: one level is merged by
    [airbnb_analytics.safe_flatten], the location stays a dict. *)
Lemma flatten_one_level_or_every_level_witness :
  let doc := [ ("name", VStr "Loft");
               ("address", VDict [("country", VStr "Portugal");
                                  ("location", VDict [("type", VStr "Point")])]) ] in
  NoDup (compound_keys doc)
  /\ airbnb_analytics.safe_flatten doc
     = [ ("name", VStr "Loft"); ("address_country", VStr "Portugal");
         ("address_location", VDict [("type", VStr "Point")]) ].
Proof.
  intros doc.
  assert (Hnd : NoDup (compound_keys doc)).
  { repeat constructor; simpl; intuition discriminate. }
  split; [exact Hnd |].
  exact (proj1 (proj1 (proj2 (flatten_one_level_or_every_level doc)) Hnd)).
Defined.

(** C6 fails as stated on [dynamic_dashboard_mongo.safe_flatten]: a dict
    inside a dict is merged as well, it is not stored under [a_b]. *)
Lemma flatten_one_level_counterexample :
  let doc := [("a", VDict [("b", VDict [("c", VInt 1)])])] in
  dynamic_dashboard_mongo.safe_flatten doc "" "_" = [("a_b_c", VInt 1)]
  /\ dict_get (dynamic_dashboard_mongo.safe_flatten doc "" "_") "a_b"
     <> Some (VDict [("c", VInt 1)])
  /\ dynamic_dashboard_mongo.safe_flatten doc "" "_"
     <> one_level_writes (fun v => v) doc.
Proof.
  intros doc. split; [reflexivity | split; discriminate].
Qed.

(* ================================================================== *)
(** * The tabular coercion *)
(* ================================================================== *)

Lemma lookup_assign (cols : list (string * list value)) (c c' : string)
      (cells : list value) :
  pandas.lookup_column (pandas.assign cols c cells) c' =
  if String.eqb c' c then Some cells else pandas.lookup_column cols c'.
Proof.
  induction cols as [| [c0 old] cols IH]; simpl.
  - reflexivity.
  - destruct (String.eqb c c0) eqn:E; simpl.
    + apply String.eqb_eq in E; subst c0.
      destruct (String.eqb c' c); reflexivity.
    + rewrite IH. destruct (String.eqb c' c0) eqn:E0; [| reflexivity].
      apply String.eqb_eq in E0; subst c0.
      rewrite String.eqb_sym, E. reflexivity.
Qed.

Lemma has_column_lookup (df : DataFrame) (c : string) :
  pandas.has_column df c =
  match pandas.lookup_column (columns df) c with
  | Some _ => true
  | None => false
  end.
Proof.
  unfold pandas.has_column. induction (columns df) as [| [c0 cells] cols IH];
    simpl; [reflexivity |].
  destruct (String.eqb c c0); [reflexivity | exact IH].
Qed.

Lemma add_label_In (acc : list string) (k c : string) :
  In c (pandas.add_label acc k) <-> In c acc \/ c = k.
Proof.
  unfold pandas.add_label. destruct (existsb (String.eqb k) acc) eqn:E.
  - apply existsb_exists in E. destruct E as [x [Hx Heq]].
    apply String.eqb_eq in Heq. subst x.
    split; [tauto | intros [H | ->]; assumption].
  - rewrite in_app_iff. simpl. split; intros [H | H]; auto.
    + destruct H as [H | []]. auto.
Qed.

Lemma add_label_NoDup (acc : list string) (k : string) :
  NoDup acc -> NoDup (pandas.add_label acc k).
Proof.
  intros H. unfold pandas.add_label.
  destruct (existsb (String.eqb k) acc) eqn:E; [exact H |].
  apply NoDup_app; [exact H | constructor; [simpl; tauto | constructor] |].
  intros x Hx [Heq | []]. subst x.
  assert (Ht : existsb (String.eqb k) acc = true).
  { apply existsb_exists. exists k. split; [exact Hx | apply String.eqb_refl]. }
  congruence.
Qed.

Lemma fold_add_label (ks acc : list string) :
  (NoDup acc -> NoDup (fold_left pandas.add_label ks acc))
  /\ forall c, In c (fold_left pandas.add_label ks acc) <-> In c acc \/ In c ks.
Proof.
  revert acc. induction ks as [| k ks IH]; intros acc.
  - simpl. split; [auto | intros c; tauto].
  - simpl. destruct (IH (pandas.add_label acc k)) as [Hnd Hin]. split.
    + intros H. apply Hnd, add_label_NoDup, H.
    + intros c. rewrite Hin, add_label_In.
      split; [intros [[H | H] | H]; auto | intros [H | [H | H]]; auto].
Qed.

(** The labels of a table: each key of a row, once. *)
Lemma labels_spec (data : list dict) :
  NoDup (pandas.labels data)
  /\ forall c, In c (pandas.labels data)
               <-> exists row, In row data /\ In c (keys row).
Proof.
  unfold pandas.labels.
  assert (H : forall acc,
             (NoDup acc ->
              NoDup (fold_left (fun acc row =>
                                  fold_left pandas.add_label (keys row) acc)
                               data acc))
             /\ forall c,
                 In c (fold_left (fun acc row =>
                                    fold_left pandas.add_label (keys row) acc)
                                 data acc)
                 <-> In c acc \/ exists row, In row data /\ In c (keys row)).
  { induction data as [| row data IH]; intros acc.
    - simpl. split; [auto |]. intros c. split; [auto |].
      intros [H | [row [[] _]]]. exact H.
    - simpl. destruct (IH (fold_left pandas.add_label (keys row) acc))
        as [Hnd Hin].
      destruct (fold_add_label (keys row) acc) as [Hnd1 Hin1]. split.
      + intros H. apply Hnd, Hnd1, H.
      + intros c. rewrite Hin, Hin1. split.
        * intros [[H | H] | [r [Hr Hc]]]; auto.
          -- right. exists row. auto.
          -- right. exists r. auto.
        * intros [H | [r [[<- | Hr] Hc]]]; auto.
          right. exists r. auto. }
  destruct (H []) as [Hnd Hin]. split; [apply Hnd; constructor |].
  intros c. rewrite Hin. simpl. tauto.
Qed.

Lemma lookup_column_map (f : string -> list value) (ls : list string)
      (c : string) :
  pandas.lookup_column (map (fun l => (l, f l)) ls) c
  = if existsb (String.eqb c) ls then Some (f c) else None.
Proof.
  induction ls as [| l ls IH]; simpl; [reflexivity |].
  destruct (String.eqb c l) eqn:E; simpl; [| exact IH].
  apply String.eqb_eq in E. subst l. reflexivity.
Qed.

Lemma existsb_eqb_In (c : string) (ls : list string) :
  existsb (String.eqb c) ls = true <-> In c ls.
Proof.
  rewrite existsb_exists. split.
  - intros [x [Hx Heq]]. apply String.eqb_eq in Heq. subst x. exact Hx.
  - intros H. exists c. split; [exact H | apply String.eqb_refl].
Qed.

(** The column of a label of [pd.DataFrame(data)]. *)
Lemma from_records_column (data : list dict) (c : string) :
  pandas.lookup_column (columns (pandas.from_records data)) c
  = if existsb (String.eqb c) (pandas.labels data)
    then Some (pandas.infer_column (pandas.raw_column data c))
    else None.
Proof.
  unfold pandas.from_records. cbn [columns].
  exact (lookup_column_map
           (fun c => pandas.infer_column (pandas.raw_column data c))
           (pandas.labels data) c).
Qed.


Lemma infer_column_length (cells : list value) :
  List.length (pandas.infer_column cells) = List.length cells.
Proof.
  unfold pandas.infer_column.
  repeat match goal with
         | |- context [if ?b then _ else _] => destruct b
         end; rewrite ?length_map; reflexivity.
Qed.

(** A column the coercion of an entry depends on only through the source
    column and the number of rows. *)
Lemma coerced_column_ext (df df' : DataFrame) (src dest : string)
      (t : pandas.dtype) :
  index df' = index df ->
  pandas.lookup_column (columns df') src = pandas.lookup_column (columns df) src ->
  coerced_column df' (src, dest, t) = coerced_column df (src, dest, t).
Proof.
  intros Hi Hl. unfold coerced_column, pandas.get_column.
  rewrite !has_column_lookup, Hl, Hi. reflexivity.
Qed.

Lemma coerce_coerced (df : DataFrame) (entry : string * string * pandas.dtype) :
  airbnb_analytics.coerce df entry =
  (col <~ coerced_column df entry ;;
   Ok (pandas.set_column df (snd (fst entry)) col)).
Proof.
  destruct entry as [[src dest] t]. unfold airbnb_analytics.coerce, coerced_column.
  destruct (pandas.has_column df src).
  - destruct (pandas.get_column df src); [| reflexivity]. simpl.
    destruct (pandas.astype _ _); reflexivity.
  - destruct (pandas.call_dtype _ _); reflexivity.
Qed.

(** For a coercion table whose destinations are distinct and are not
    sources, the loop succeeds when each turn does on the initial table,
    and each destination then holds the column of its turn. *)
Lemma coerce_all_columns (config : list (string * string * pandas.dtype)) :
  NoDup (destinations config) ->
  (forall s d, In s (sources config) -> In d (destinations config) -> s <> d) ->
  forall df,
    (forall entry, In entry config -> exists col, coerced_column df entry = Ok col) ->
    exists df',
      airbnb_analytics.coerce_all df config = Ok df'
      /\ index df' = index df
      /\ (forall c, ~ In c (destinations config) ->
                    pandas.lookup_column (columns df') c
                    = pandas.lookup_column (columns df) c)
      /\ (forall entry, In entry config ->
                        coerced_column df entry
                        = match pandas.lookup_column (columns df')
                                                     (snd (fst entry)) with
                          | Some col => Ok col
                          | None => Raise (KeyError (snd (fst entry)))
                          end).
Proof.
  induction config as [| [[src dest] t] config IH]; intros Hnd Hsd df Hok.
  - exists df. repeat split; auto. intros entry [].
  - inversion Hnd as [| ? ? Hnotin Hnd']; subst.
    destruct (Hok (src, dest, t) (or_introl eq_refl)) as [col Hcol].
    set (df1 := pandas.set_column df dest col).
    assert (Hext : forall entry, In entry config ->
                                 coerced_column df1 entry = coerced_column df entry).
    { intros [[s d] t'] Hin. apply coerced_column_ext; [reflexivity |].
      unfold df1. simpl. rewrite lookup_assign.
      destruct (String.eqb s dest) eqn:E; [| reflexivity].
      apply String.eqb_eq in E. exfalso.
      apply (Hsd s dest); [| left; reflexivity | exact E].
      right. change s with (fst (fst (s, d, t'))).
      apply (in_map (fun e => fst (fst e))), Hin. }
    destruct (IH Hnd') with (df := df1) as [df' [Hall [Hidx [Hother Hdest]]]].
    + intros s d Hs Hd. apply Hsd; right; assumption.
    + intros entry Hin. rewrite (Hext entry Hin). apply Hok. right; exact Hin.
    + exists df'. split; [| split; [| split]].
      * change (airbnb_analytics.coerce_all df ((src, dest, t) :: config))
          with (d <~ airbnb_analytics.coerce df (src, dest, t) ;;
                airbnb_analytics.coerce_all d config).
        rewrite coerce_coerced, Hcol. exact Hall.
      * rewrite Hidx. reflexivity.
      * intros c Hc. rewrite Hother by (intros H; apply Hc; right; exact H).
        unfold df1. simpl. rewrite lookup_assign.
        destruct (String.eqb c dest) eqn:E; [| reflexivity].
        apply String.eqb_eq in E. elim Hc. left. symmetry. exact E.
      * intros entry [Heq | Hin].
        -- subst entry. simpl snd. rewrite (Hother dest Hnotin).
           unfold df1. simpl. rewrite lookup_assign, String.eqb_refl.
           exact Hcol.
        -- rewrite <- (Hext entry Hin). apply Hdest, Hin.
Qed.
Lemma unparseable_float_cell (v : value) :
  unparseable v -> pandas.float_cell v = float_nan.
Proof.
  unfold unparseable, pandas.NaN.
  destruct v as [| b | n | f | s | d | l | l | d]; simpl;
    try reflexivity; try discriminate.
  - intros H. injection H as ->. reflexivity.
  - unfold pandas.read_float.
    destruct (pandas.read_number s) as [[z | f | b] |]; simpl;
      try discriminate; [| reflexivity].
    intros H. injection H as ->. reflexivity.
Qed.

Lemma to_numeric_unparseable (cells : list value) (i : nat) (v : value) :
  nth_error cells i = Some v -> unparseable v ->
  nth_error (pandas.to_numeric cells) i = Some pandas.NaN.
Proof.
  intros Hi Hv. unfold pandas.to_numeric.
  pose proof (map_nth_error pandas.coerce_cell _ _ Hi) as Hn.
  rewrite Hv in Hn. apply nth_error_In in Hn.
  destruct (forallb pandas.is_NBool (map pandas.coerce_cell cells)) eqn:E1.
  { rewrite forallb_forall in E1. specialize (E1 _ Hn). discriminate. }
  destruct (forallb pandas.is_integral (map pandas.coerce_cell cells)) eqn:E2.
  { rewrite forallb_forall in E2. specialize (E2 _ Hn). discriminate. }
  cbn [andb].
  rewrite (map_nth_error (fun v => pandas.NFloat (pandas.float_cell v)) _ _ Hi),
    (unparseable_float_cell v Hv).
  reflexivity.
Qed.

(** An unparseable cell of a coerced column holds the default of the
    target type. *)
Lemma coerced_cell_default (t : pandas.dtype) (cells col : list value)
      (i : nat) (v : value) :
  pandas.astype t (pandas.fillna airbnb_analytics.DEFAULT_NUMERIC
                                 (pandas.to_numeric cells)) = Ok col ->
  nth_error cells i = Some v -> unparseable v ->
  nth_error col i = Some (default_of t).
Proof.
  intros Hcol Hi Hv.
  pose proof (to_numeric_unparseable _ _ _ Hi Hv) as Hn.
  unfold pandas.fillna in Hcol.
  apply (map_nth_error
           (fun n => match n with
                     | pandas.NFloat f =>
                         if is_nan f
                         then pandas.NFloat airbnb_analytics.DEFAULT_NUMERIC
                         else n
                     | _ => n
                     end)) in Hn.
  cbn [pandas.NaN is_nan float_nan] in Hn.
  revert Hcol Hn.
  generalize (map (fun n => match n with
                            | pandas.NFloat f =>
                                if is_nan f
                                then pandas.NFloat
                                       airbnb_analytics.DEFAULT_NUMERIC
                                else n
                            | _ => n
                            end) (pandas.to_numeric cells)) as s.
  intros s Hcol Hn. destruct t; simpl in Hcol.
  - inversion Hcol; subst. exact (map_nth_error _ _ _ Hn).
  - destruct (existsb pandas.non_finite s); [discriminate |].
    inversion Hcol; subst. exact (map_nth_error _ _ _ Hn).
  - inversion Hcol; subst. exact (map_nth_error _ _ _ Hn).
Qed.

Lemma nth_error_repeat (A : Type) (a : A) (n i : nat) :
  i < n -> nth_error (repeat a n) i = Some a.
Proof.
  revert i. induction n as [| n IH]; intros i H; [lia |].
  destruct i as [| i]; [reflexivity |]. simpl. apply IH. lia.
Qed.

(** The turns of the coercion loop succeed on a table that holds no
    infinity in a column coerced to int. *)
Lemma coerced_column_ok (data : list dict)
      (entry : string * string * pandas.dtype) :
  no_infinite_int data = true ->
  In entry airbnb_analytics.numeric_config ->
  exists col, coerced_column (pandas.from_records data) entry = Ok col.
Proof.
  intros H Hin. unfold no_infinite_int in H. rewrite forallb_forall in H.
  specialize (H entry Hin). destruct entry as [[src dest] t].
  unfold coerced_column, pandas.get_column. rewrite has_column_lookup.
  destruct (pandas.lookup_column _ src) as [cells |] eqn:E.
  - destruct t; simpl; try (eexists; reflexivity).
    unfold holds_infinity in H. apply negb_true_iff in H. rewrite H.
    eexists; reflexivity.
  - destruct t; simpl; eexists; reflexivity.
Qed.

Lemma add_coordinates_columns (df : DataFrame) :
  exists df',
    airbnb_analytics.add_coordinates df = Ok df'
    /\ index df' = index df
    /\ forall c, ~ In c ["coordinates"; "lat"; "lon"] ->
                 pandas.lookup_column (columns df') c
                 = pandas.lookup_column (columns df) c.
Proof.
  unfold airbnb_analytics.add_coordinates, pandas.get_column.
  rewrite has_column_lookup.
  destruct (pandas.lookup_column (columns df) "address_location_coordinates")
    as [cells |]; [| exists df; auto].
  cbn [obind]. unfold pandas.set_column. cbn [columns index].
  rewrite lookup_assign, String.eqb_refl. cbn [obind].
  eexists. split; [reflexivity |]. split; [reflexivity |].
  intros c Hc. cbn [columns]. rewrite !lookup_assign.
  destruct (String.eqb c "lon") eqn:E1;
    [apply String.eqb_eq in E1; elim Hc; simpl; auto |].
  destruct (String.eqb c "lat") eqn:E2;
    [apply String.eqb_eq in E2; elim Hc; simpl; auto |].
  destruct (String.eqb c "coordinates") eqn:E3;
    [apply String.eqb_eq in E3; elim Hc; simpl; auto |].
  reflexivity.
Qed.

Lemma numeric_config_shape :
  NoDup (destinations airbnb_analytics.numeric_config)
  /\ (forall s d, In s (sources airbnb_analytics.numeric_config) ->
                  In d (destinations airbnb_analytics.numeric_config) -> s <> d)
  /\ (forall d, In d (destinations airbnb_analytics.numeric_config) ->
                ~ In d ["coordinates"; "lat"; "lon"]).
Proof.
  split; [| split].
  - repeat constructor; simpl; intuition discriminate.
  - simpl. intros s d Hs Hd. intuition (subst; discriminate).
  - simpl. intros d Hd. intuition (subst; discriminate).
Qed.

(** The table [build_dataframe] returns, column by column. *)
Lemma build_dataframe_columns (data : list dict) :
  no_infinite_int data = true ->
  exists df,
    airbnb_analytics.build_dataframe data = Ok df
    /\ index df = List.length data
    /\ forall entry, In entry airbnb_analytics.numeric_config ->
         coerced_column (pandas.from_records data) entry
         = match pandas.lookup_column (columns df) (snd (fst entry)) with
           | Some col => Ok col
           | None => Raise (KeyError (snd (fst entry)))
           end.
Proof.
  intros H. destruct numeric_config_shape as [Hnd [Hsd Hcoord]].
  destruct (coerce_all_columns _ Hnd Hsd (pandas.from_records data))
    as [df1 [Hall [Hidx [_ Hdest]]]].
  { intros entry Hin. apply coerced_column_ok; assumption. }
  destruct (add_coordinates_columns df1) as [df [Hadd [Hidx' Hkeep]]].
  exists df. split; [| split].
  - unfold airbnb_analytics.build_dataframe. rewrite Hall. exact Hadd.
  - rewrite Hidx', Hidx. reflexivity.
  - intros entry Hin. rewrite Hkeep; [apply Hdest, Hin |].
    apply Hcoord. apply (in_map (fun e => snd (fst e))), Hin.
Qed.

Lemma as_float_unparseable (v : value) :
  unparseable v -> unparseable (pandas.as_float v).
Proof.
  destruct v; try (intros H; exact H); discriminate.
Qed.

Lemma as_str_unparseable (v : value) :
  unparseable v -> unparseable (pandas.as_str v).
Proof.
  destruct v; intros H; exact H.
Qed.

(** Storing a column leaves what cannot be read as a number
    unreadable. *)
Lemma infer_unparseable (cells : list value) (i : nat) (v : value) :
  nth_error cells i = Some v -> unparseable v ->
  exists v', nth_error (pandas.infer_column cells) i = Some v'
             /\ unparseable v'.
Proof.
  intros Hi Hv. unfold pandas.infer_column.
  repeat match goal with
         | |- context [if ?b then _ else _] => destruct b
         end;
    try (exists v; split; [exact Hi | exact Hv]).
  - exists (pandas.as_str v).
    split; [exact (map_nth_error _ _ _ Hi) | exact (as_str_unparseable v Hv)].
  - exists (pandas.as_float v).
    split; [exact (map_nth_error _ _ _ Hi)
           | exact (as_float_unparseable v Hv)].
Qed.

(** C3, as the code has it.  On a table in which no column coerced to
    [int] holds an infinity, [safe_dataframe] returns a table with one row
    per input row, and for every entry of the coercion table: when the
    source column is absent every row of the destination column holds the
    default of the target type, and when it is present every row whose
    source cell cannot be read as a number does (0.0 for [float], 0 for
    [int], [False] for [bool]).  In terms of the rows: a row that does
    not have the source key, or has it with a value that cannot be read as
    a number, has the default in the destination column. *)
Theorem safe_dataframe_defaults (data : list dict) (src dest : string)
        (t : pandas.dtype) :
  no_infinite_int data = true ->
  In (src, dest, t) airbnb_analytics.numeric_config ->
  exists df,
    (forall log, airbnb_analytics.safe_dataframe data log = (Ok df, log))
    /\ index df = List.length data
    /\ (pandas.has_column (pandas.from_records data) src = false ->
        forall i, i < List.length data ->
                  pandas.cell df dest i = Some (default_of t))
    /\ (forall i v,
           pandas.cell (pandas.from_records data) src i = Some v ->
           unparseable v ->
           pandas.cell df dest i = Some (default_of t))
    /\ (forall i row v,
           nth_error data i = Some row ->
           dict_get row src = Some v ->
           unparseable v ->
           pandas.cell df dest i = Some (default_of t))
    /\ (forall i row,
           nth_error data i = Some row ->
           dict_get row src = None ->
           pandas.cell df dest i = Some (default_of t)).
Proof.
  intros H Hin.
  destruct (build_dataframe_columns data H) as [df [Hbuild [Hidx Hcols]]].
  specialize (Hcols _ Hin). simpl snd in Hcols.
  assert (Habsent : pandas.has_column (pandas.from_records data) src = false ->
                    forall i, i < List.length data ->
                              pandas.cell df dest i = Some (default_of t)).
  { intros Habsent i Hi. unfold pandas.cell.
    unfold coerced_column in Hcols. rewrite Habsent in Hcols.
    destruct (pandas.lookup_column (columns df) dest) as [col |];
      [| destruct t; discriminate].
    destruct t; simpl in Hcols; inversion Hcols; subst;
      apply nth_error_repeat; exact Hi. }
  assert (Hcell : forall i v,
             pandas.cell (pandas.from_records data) src i = Some v ->
             unparseable v ->
             pandas.cell df dest i = Some (default_of t)).
  { intros i v Hcell Hv. unfold pandas.cell in *.
    unfold coerced_column, pandas.get_column in Hcols.
    rewrite has_column_lookup in Hcols.
    destruct (pandas.lookup_column (columns (pandas.from_records data)) src)
      as [cells |]; [| discriminate].
    cbn [obind] in Hcols.
    destruct (pandas.lookup_column (columns df) dest) as [col |].
    + eapply coerced_cell_default; eassumption.
    + destruct t; simpl in Hcols;
        try discriminate.
      destruct (existsb pandas.non_finite _); discriminate. }
  assert (Hraw : forall i row v,
             nth_error data i = Some row ->
             existsb (String.eqb src) (pandas.labels data) = true ->
             match dict_get row src with Some x => x | None => pandas.nan end
             = v ->
             unparseable v ->
             pandas.cell df dest i = Some (default_of t)).
  { intros i row v Hrow Hlabel Hget Hv.
    assert (Hi : nth_error (pandas.raw_column data src) i = Some v).
    { unfold pandas.raw_column. rewrite (map_nth_error _ _ _ Hrow), Hget.
      reflexivity. }
    destruct (infer_unparseable _ _ _ Hi Hv) as [v' [Hi' Hv']].
    apply (Hcell i v'); [| exact Hv'].
    unfold pandas.cell. rewrite from_records_column, Hlabel. exact Hi'. }
  exists df. split; [| split; [exact Hidx |]].
  { intros log.
    unfold airbnb_analytics.safe_dataframe, try_except_Exception, lift.
    rewrite Hbuild. reflexivity. }
  split; [exact Habsent |]. split; [exact Hcell |]. split.
  - intros i row v Hrow Hget Hv.
    apply (Hraw i row v Hrow); [| rewrite Hget; reflexivity | exact Hv].
    apply existsb_eqb_In. apply (proj2 (labels_spec data)).
    exists row. split; [exact (nth_error_In _ _ Hrow) |].
    exact (dict_get_Some_In _ _ _ Hget).
  - intros i row Hrow Hget.
    destruct (existsb (String.eqb src) (pandas.labels data)) eqn:Hlabel.
    + apply (Hraw i row pandas.nan Hrow eq_refl);
        [rewrite Hget; reflexivity | reflexivity].
    + apply Habsent.
      * rewrite has_column_lookup, from_records_column, Hlabel. reflexivity.
      * apply nth_error_Some. rewrite Hrow. discriminate.
Qed.

(** Four rows: a capacity that is no number (the name of the infinity
    with a space before it), an unreadable one, a readable one and none.
    The first, the second and the last row hold the default. *)
Lemma safe_dataframe_defaults_witness :
  let data :=
    map airbnb_analytics.safe_flatten
        [ [("accommodates", VDict [("$numberInt", VStr " inf")])];
          [("accommodates", VDict [("$numberInt", VStr "two")])];
          [("accommodates", VDict [("$numberInt", VStr "3")])];
          [("name", VStr "Loft")] ] in
  no_infinite_int data = true
  /\ In ("accommodates_$numberInt", "accommodates", pandas.py_int)
        airbnb_analytics.numeric_config
  /\ exists df,
      (forall log, airbnb_analytics.safe_dataframe data log = (Ok df, log))
      /\ pandas.cell df "accommodates" 0 = Some (VInt 0)
      /\ pandas.cell df "accommodates" 1 = Some (VInt 0)
      /\ pandas.cell df "accommodates" 3 = Some (VInt 0).
Proof.
  intros data.
  assert (H : no_infinite_int data = true) by reflexivity.
  assert (Hin : In ("accommodates_$numberInt", "accommodates", pandas.py_int)
                   airbnb_analytics.numeric_config)
    by (simpl; auto 8).
  split; [exact H |]. split; [exact Hin |].
  destruct (safe_dataframe_defaults data _ _ _ H Hin)
    as [df [Hrun [_ [_ [_ [Hrow Hmissing]]]]]].
  exists df. split; [exact Hrun |]. split; [| split].
  - apply (Hrow 0 [("accommodates_$numberInt", VStr " inf")] (VStr " inf"));
      reflexivity.
  - apply (Hrow 1 [("accommodates_$numberInt", VStr "two")] (VStr "two"));
      reflexivity.
  - apply (Hmissing 3 [("name", VStr "Loft")]); reflexivity.
Defined.

(** C3 fails as stated: with an infinity in a column coerced to [int] the
    cast raises, [safe_dataframe] reports the error and returns an empty
    table, and the row with the unreadable capacity has no destination
    column at all. *)
Lemma safe_dataframe_defaults_counterexample :
  let data :=
    map airbnb_analytics.safe_flatten
        [ [("accommodates", VDict [("$numberInt", VStr "two")])];
          [("accommodates",
            VDict [("$numberInt", VFloat (S754_infinity false))])] ] in
  pandas.cell (pandas.from_records data) "accommodates_$numberInt" 0
    = Some (VStr "two")
  /\ unparseable (VStr "two")
  /\ pandas.has_column (pandas.from_records data) "price_$numberDecimal" = false
  /\ (exists text,
         airbnb_analytics.safe_dataframe data []
         = (Ok pandas.empty, [processing_error text]))
  /\ pandas.cell pandas.empty "accommodates" 0 <> Some (VInt 0)
  /\ pandas.cell pandas.empty "price" 0 <> Some (VFloat float_zero).
Proof.
  intros data. repeat (split; [reflexivity |]).
  split; [eexists; reflexivity |].
  split; discriminate.
Qed.

(** ** The price example *)

(** [float_100_5] is the binary64 number written 100.5. *)
Lemma float_100_5_literal : float_100_5 = Prim2SF 100.5%float.
Proof. reflexivity. Qed.

(** It is what reading the decimal 1005 * 10^-1 gives. *)
Lemma float_100_5_decimal : float_100_5 = float_of_decimal false 1005 (-1).
Proof. reflexivity. Qed.

(** C1 fails as stated: flattening leaves the string ["100.5"] a string,
    the flattened row does not hold the float 100.5. *)
Lemma price_example_counterexample :
  airbnb_analytics.safe_flatten [("price", VDict [("$numberDecimal", VStr "100.5")])]
  <> [("price_$numberDecimal", VFloat float_100_5)].
Proof. discriminate. Qed.

(** C1, as the code has it.  The document
    [{"price": {"$numberDecimal": "100.5"}}] flattens to
    [{"price_$numberDecimal": "100.5"}], the value still the string: only
    a [Decimal128] object is converted at this point, as the second
    document shows.  [safe_dataframe] then reads the string as a number,
    and the row has [price] equal to the float 100.5. *)
Theorem price_example :
  let doc := [("price", VDict [("$numberDecimal", VStr "100.5")])] in
  airbnb_analytics.safe_flatten doc = [("price_$numberDecimal", VStr "100.5")]
  /\ airbnb_analytics.safe_flatten
       [("price", VDict [("$numberDecimal",
                          VDecimal128 (D128_finite false 1005 (-1)))])]
     = [("price_$numberDecimal", VFloat float_100_5)]
  /\ exists df,
      (forall log,
          airbnb_analytics.safe_dataframe [airbnb_analytics.safe_flatten doc] log
          = (Ok df, log))
      /\ index df = 1
      /\ pandas.cell df "price_$numberDecimal" 0 = Some (VStr "100.5")
      /\ pandas.cell df "price" 0 = Some (VFloat float_100_5).
Proof.
  intros doc. split; [reflexivity |]. split; [reflexivity |].
  eexists. split; [intros log; reflexivity |].
  split; [reflexivity |]. split; reflexivity.
Qed.

(* ================================================================== *)
(** * Field validation *)
(* ================================================================== *)

Lemma missing_fields_first (first : dict) (others : list dict)
      (required_fields : list string) :
  dynamic_dashboard_mongo.missing_fields (first :: others) required_fields
  = Ok (filter (fun f => negb (dict_mem first f)) required_fields).
Proof.
  induction required_fields as [| f fs IH]; [reflexivity |].
  simpl. rewrite IH. simpl. destruct (dict_mem first f); reflexivity.
Qed.

Lemma filter_nil_forallb (A : Type) (p : A -> bool) (l : list A) :
  filter (fun x => negb (p x)) l = [] <-> forallb p l = true.
Proof.
  induction l as [| x l IH]; simpl; [tauto |].
  destruct (p x); simpl; [exact IH | split; discriminate].
Qed.

(** C10, as the code has it.  On a result list that is not empty
    [validate_fields] looks at the first document only: it returns [True]
    exactly when every required field is a key of that document, whatever
    the other documents hold, and otherwise reports the missing fields and
    returns [False].  On an empty result list it raises [IndexError] when
    there is a required field, and returns [True] when there is none. *)
Theorem validate_fields_first_document (required_fields : list string)
        (log : list ui_event) :
  (forall first others,
      exists shown,
        dynamic_dashboard_mongo.validate_fields (first :: others)
                                                required_fields log
        = (Ok (forallb (dict_mem first) required_fields), log ++ shown)
        /\ (forallb (dict_mem first) required_fields = true -> shown = [])
        /\ (forallb (dict_mem first) required_fields = false ->
            shown = [st_error
                       ("Missing fields: "
                          ++ join ", "
                               (filter (fun f => negb (dict_mem first f))
                                       required_fields))]))
  /\ (forall field others,
         required_fields = field :: others ->
         dynamic_dashboard_mongo.validate_fields [] required_fields log
         = (Raise (IndexError "list index out of range"), log))
  /\ (required_fields = [] ->
      dynamic_dashboard_mongo.validate_fields [] required_fields log
      = (Ok true, log)).
Proof.
  split; [| split].
  - intros first others.
    unfold dynamic_dashboard_mongo.validate_fields, bind, lift.
    rewrite missing_fields_first.
    destruct (filter (fun f => negb (dict_mem first f)) required_fields)
      as [| m ms] eqn:E.
    + apply filter_nil_forallb in E. rewrite E.
      exists []. rewrite app_nil_r. unfold ret.
      split; [reflexivity | split; [reflexivity | discriminate]].
    + assert (Hf : forallb (dict_mem first) required_fields = false).
      { destruct (forallb (dict_mem first) required_fields) eqn:F;
          [| reflexivity].
        apply filter_nil_forallb in F. congruence. }
      rewrite Hf. eexists. unfold emit, ret.
      split; [reflexivity | split; [discriminate | reflexivity]].
  - intros field others ->. reflexivity.
  - intros ->. reflexivity.
Qed.

(** C10 fails as stated: with no required field the first document is
    never looked at, and on an empty result list [validate_fields] returns
    [True] instead of raising. *)
Lemma validate_fields_counterexample :
  dynamic_dashboard_mongo.validate_fields [] [] [] = (Ok true, []).
Proof. reflexivity. Qed.

(* ================================================================== *)
(** * The size of query results *)
(* ================================================================== *)

Lemma aggregate_app (S : mongo.store) (p q : list dict) (docs : list dict) :
  mongo.aggregate S (p ++ q) docs
  = (docs' <~ mongo.aggregate S p docs ;; mongo.aggregate S q docs').
Proof.
  revert docs. induction p as [| stage p IH]; intros docs; [reflexivity |].
  simpl. destruct (mongo.run_stage S stage docs); [apply IH | reflexivity].
Qed.

Lemma limit_stage (S : mongo.store) (n : Z) (docs : list dict) :
  (0 < n)%Z ->
  mongo.run_stage S [("$limit", VInt n)] docs = Ok (firstn (Z.to_nat n) docs).
Proof.
  intros H. apply Z.ltb_lt in H. unfold mongo.run_stage. simpl.
  rewrite H. reflexivity.
Qed.

Lemma aggregate_limit_last (S : mongo.store) (p : list dict) (n : Z)
      (docs : list dict) :
  (0 < n)%Z ->
  List.length (rows (mongo.aggregate S (p ++ [[("$limit", VInt n)]]) docs))
  <= Z.to_nat n.
Proof.
  intros H. rewrite aggregate_app.
  destruct (mongo.aggregate S p docs) as [docs' | e]; [| simpl; lia].
  cbn [obind mongo.aggregate].
  rewrite (limit_stage S n docs' H). simpl. apply firstn_le_length.
Qed.

Lemma convert_all_length (docs : list dict) :
  List.length (rows (dynamic_dashboard_df.convert_all docs)) <= List.length docs.
Proof.
  induction docs as [| doc docs IH]; simpl; [lia |].
  destruct (dynamic_dashboard_df.convert_all docs) as [rs | e];
    simpl in *; lia.
Qed.

Lemma group_null_length (S : mongo.store) (spec : dict) (docs : list dict) :
  List.length (rows (mongo.group_null S spec docs)) <= 1.
Proof.
  unfold mongo.group_null. destruct docs; simpl; [lia |].
  destruct (mongo.group_fields S spec (d :: docs)); simpl; lia.
Qed.

(* ================================================================== *)
(** * Metrics *)
(* ================================================================== *)

Lemma string_app_nil_r (s : string) : (s ++ "")%string = s.
Proof. induction s as [| c s IH]; simpl; [reflexivity | rewrite IH; reflexivity]. Qed.

(** The template ["$value"] with the field substituted. *)
Lemma replace_value (field : string) :
  replace "$value" "$value" ("$" ++ field) = ("$" ++ field)%string.
Proof. unfold replace. simpl. rewrite string_app_nil_r. reflexivity. Qed.

Lemma add_metric_known (field : string) (group_stage : dict) (m : string) :
  In m metric_names ->
  dynamic_dashboard_mongo.add_metric field group_stage m
  = Ok (dict_set group_stage (lower m) (VDict [accumulator_of field m])).
Proof.
  intros Hin. simpl in Hin.
  destruct Hin as [<- | [<- | [<- | [<- | [<- | [<- | []]]]]]];
    unfold dynamic_dashboard_mongo.add_metric;
    cbn -[replace dict_set append]; rewrite ?replace_value; reflexivity.
Qed.

Lemma add_metrics_known (field : string) (metrics : list string) :
  (forall m, In m metrics -> In m metric_names) ->
  forall group_stage,
    dynamic_dashboard_mongo.add_metrics field group_stage metrics
    = Ok (dict_update group_stage (metric_writes field metrics)).
Proof.
  induction metrics as [| m metrics IH]; intros Hknown group_stage;
    [reflexivity |].
  cbn [dynamic_dashboard_mongo.add_metrics].
  rewrite add_metric_known by (apply Hknown; left; reflexivity).
  cbn [obind]. rewrite IH by (intros m' H; apply Hknown; right; exact H).
  reflexivity.
Qed.

Lemma dict_update_head (ws d : dict) (k0 : string) (v0 : value) :
  ~ In k0 (keys ws) ->
  dict_update ((k0, v0) :: d) ws = (k0, v0) :: dict_update d ws.
Proof.
  revert d. induction ws as [| [k v] ws IH]; intros d H; [reflexivity |].
  change (dict_update (dict_set ((k0, v0) :: d) k v) ws
          = (k0, v0) :: dict_update (dict_set d k v) ws).
  simpl in H. simpl dict_set.
  destruct (String.eqb k k0) eqn:E.
  - apply String.eqb_eq in E. elim H. left; exact E.
  - apply IH. tauto.
Qed.

Lemma metric_key_not_id (m : string) : In m metric_names -> lower m <> "_id".
Proof.
  simpl. intros [<- | [<- | [<- | [<- | [<- | [<- | []]]]]]]; discriminate.
Qed.

(** The group stage of known metrics: [_id] first, then one accumulator
    per metric key. *)
Lemma build_metric_group_known (field : string) (metrics : list string) :
  (forall m, In m metrics -> In m metric_names) ->
  dynamic_dashboard_mongo.build_metric_group field metrics
  = Ok (("_id", VNone) :: dict_of_writes (metric_writes field metrics)).
Proof.
  intros Hknown. unfold dynamic_dashboard_mongo.build_metric_group.
  rewrite add_metrics_known by exact Hknown. f_equal.
  apply dict_update_head. unfold metric_writes, keys. rewrite map_map. simpl.
  intros Hin. apply in_map_iff in Hin. destruct Hin as [m [Hm Hin]].
  exact (metric_key_not_id m (Hknown m Hin) Hm).
Qed.

Lemma dict_get_agree (d : dict) (k : string) (v : value) :
  In (k, v) d -> (forall v', In (k, v') d -> v' = v) -> dict_get d k = Some v.
Proof.
  induction d as [| [k0 v0] d IH]; intros Hin Hall; [contradiction |].
  simpl. destruct (String.eqb k k0) eqn:E.
  - apply String.eqb_eq in E; subst k0. f_equal. apply Hall. left; reflexivity.
  - apply String.eqb_neq in E. destruct Hin as [Heq | Hin]; [congruence |].
    apply IH; [exact Hin |]. intros v' Hv'. apply Hall. right; exact Hv'.
Qed.

Lemma dict_of_writes_agree (ws : list (string * value)) (k : string) (v : value) :
  In (k, v) ws -> (forall v', In (k, v') ws -> v' = v) ->
  dict_get (dict_of_writes ws) k = Some v.
Proof.
  intros Hin Hall. unfold dict_of_writes. rewrite dict_get_update.
  unfold last_write. rewrite (dict_get_agree (rev ws) k v).
  - reflexivity.
  - apply in_rev in Hin. exact Hin.
  - intros v' Hv'. apply Hall. apply in_rev. exact Hv'.
Qed.

(** The accumulator stored under the key of a chosen metric. *)
Lemma metric_writes_key (field : string) (metrics : list string) (m : string) :
  (forall m', In m' metrics -> In m' metric_names) ->
  In m metrics ->
  dict_get (dict_of_writes (metric_writes field metrics)) (lower m)
  = Some (VDict [accumulator_of field m]).
Proof.
  intros Hknown Hin. apply dict_of_writes_agree.
  - unfold metric_writes. apply in_map_iff. exists m. split; [reflexivity | exact Hin].
  - intros v' Hv'. unfold metric_writes in Hv'. apply in_map_iff in Hv'.
    destruct Hv' as [m' [Heq Hin']]. inversion Heq as [[Hlow Hv]].
    assert (Hsame : m' = m).
    { pose proof (Hknown m Hin) as Hm. pose proof (Hknown m' Hin') as Hm'.
      simpl in Hm, Hm'.
      destruct Hm as [<- | [<- | [<- | [<- | [<- | [<- | []]]]]]];
        destruct Hm' as [<- | [<- | [<- | [<- | [<- | [<- | []]]]]]];
        try reflexivity; discriminate. }
    rewrite Hsame. reflexivity.
Qed.

Lemma metric_writes_accumulators (field : string) (metrics : list string) :
  Forall (fun kv => is_accumulator (snd kv))
         (dict_of_writes (metric_writes field metrics)).
Proof.
  apply (dict_of_writes_values is_accumulator).
  unfold metric_writes. apply Forall_forall. intros kv Hin.
  apply in_map_iff in Hin. destruct Hin as [m [<- _]]. simpl.
  destruct (accumulator_of field m) as [op arg]. exists op, arg. reflexivity.
Qed.

Lemma group_fields_eval (S : mongo.store) (spec : dict) (docs : list dict) :
  Forall (fun kv => is_accumulator (snd kv)) spec ->
  mongo.group_fields S spec docs = Ok (map (eval_field S docs) spec).
Proof.
  induction 1 as [| [name v] spec [op [arg Hv]] _ IH]; [reflexivity |].
  simpl in Hv. subst v. simpl. rewrite IH. reflexivity.
Qed.

Lemma dict_get_eval (S : mongo.store) (docs : list dict) (spec : dict)
      (k : string) :
  dict_get (map (eval_field S docs) spec) k
  = match dict_get spec k with
    | Some v => Some (snd (eval_field S docs (k, v)))
    | None => None
    end.
Proof.
  induction spec as [| [k0 v0] spec IH]; [reflexivity |].
  simpl. destruct (String.eqb k k0); [reflexivity | exact IH].
Qed.

Lemma group_stage_run (S : mongo.store) (spec : dict) (docs : list dict) :
  mongo.run_stage S [("$group", VDict (("_id", VNone) :: spec))] docs
  = mongo.group_null S spec docs.
Proof. reflexivity. Qed.

(** The result of the metric pipeline on the documents that reach the
    group stage, when there is one at least. *)
Lemma metric_pipeline_result (S : mongo.store) (collection pipeline : list dict)
      (doc : dict) (docs : list dict) (field : string) (metrics : list string) :
  mongo.aggregate S pipeline collection = Ok (doc :: docs) ->
  mongo.aggregate S
    (pipeline ++ [[("$group",
                    VDict (("_id", VNone)
                             :: dict_of_writes (metric_writes field metrics)))]])
    collection
  = Ok [("_id", VNone)
          :: map (eval_field S (doc :: docs))
                 (dict_of_writes (metric_writes field metrics))].
Proof.
  intros Hdocs. rewrite aggregate_app, Hdocs. cbn [obind mongo.aggregate].
  rewrite group_stage_run. unfold mongo.group_null.
  rewrite group_fields_eval by apply metric_writes_accumulators.
  reflexivity.
Qed.

Lemma show_metrics_shown (result : dict) (metrics : list string) :
  (In "Unique Count" metrics ->
   exists l, dict_get result "unique count" = Some (VList l)) ->
  forall log,
  exists evs,
    dynamic_dashboard_mongo.show_metrics result metrics log = (Ok tt, log ++ evs)
    /\ (In "Count" metrics ->
        In (st_metric "Count"
              (dynamic_dashboard_mongo.shown
                 (dynamic_dashboard_mongo.get_default result "count" (VInt 0))))
           evs)
    /\ (In "Unique Count" metrics ->
        forall l, dict_get result "unique count" = Some (VList l) ->
                  In (st_metric "Unique Count" (VInt (Z.of_nat (List.length l))))
                     evs).
Proof.
  induction metrics as [| m metrics IH]; intros Hset log.
  - exists []. rewrite app_nil_r. split; [reflexivity |].
    split; intros [].
  - assert (Hstep : exists ev,
               dynamic_dashboard_mongo.show_metric result m log
               = (Ok tt, log ++ [ev])
               /\ (m = "Count" ->
                   ev = st_metric "Count"
                          (dynamic_dashboard_mongo.shown
                             (dynamic_dashboard_mongo.get_default
                                result "count" (VInt 0))))
               /\ (m = "Unique Count" ->
                   forall l, dict_get result "unique count" = Some (VList l) ->
                             ev = st_metric "Unique Count"
                                    (VInt (Z.of_nat (List.length l))))).
    { unfold dynamic_dashboard_mongo.show_metric.
      destruct (String.eqb m "Count") eqn:E1.
      - apply String.eqb_eq in E1; subst m. eexists.
        split; [reflexivity |]. split; [reflexivity | discriminate].
      - destruct (String.eqb m "Unique Count") eqn:E2.
        + apply String.eqb_eq in E2; subst m.
          destruct Hset as [l Hl]; [left; reflexivity |].
          unfold dynamic_dashboard_mongo.get_default.
          change (lower "Unique Count") with "unique count". rewrite Hl.
          eexists. split; [reflexivity |]. split; [discriminate |].
          intros _ l' Hl'. inversion Hl'; subst l'. reflexivity.
        + apply String.eqb_neq in E1. apply String.eqb_neq in E2.
          eexists. split; [reflexivity |]. split; intros; congruence. }
    destruct Hstep as [ev [Hrun [Hcount Hunique]]].
    destruct (IH (fun H => Hset (or_intror H)) (log ++ [ev]))
      as [evs [Hrest [Hc Hu]]].
    exists (ev :: evs). split; [| split].
    + cbn [dynamic_dashboard_mongo.show_metrics]. unfold bind at 1.
      rewrite Hrun, Hrest, <- app_assoc. reflexivity.
    + intros [Heq | Hin]; [left; apply Hcount; exact Heq
                          | right; apply Hc; exact Hin].
    + intros [Heq | Hin] l Hl;
        [left; apply Hunique; [exact Heq | exact Hl]
        | right; apply Hu; [exact Hin | exact Hl]].
Qed.

Lemma value_eqb_eq (a b : value) : value_eqb a b = true <-> a = b.
Proof.
  unfold value_eqb. destruct (value_eq_dec a b); split; congruence.
Qed.

Lemma existsb_value_eqb (v : value) (set : list value) :
  existsb (value_eqb v) set = true <-> In v set.
Proof.
  rewrite existsb_exists. split.
  - intros [x [Hin Heq]]. apply value_eqb_eq in Heq. subst x. exact Hin.
  - intros Hin. exists v. split; [exact Hin | apply value_eqb_eq; reflexivity].
Qed.

(** [$addToSet] keeps each value once. *)
Lemma add_to_set_distinct (vals set : list value) :
  NoDup set ->
  NoDup (mongo.add_to_set vals set)
  /\ forall v, In v (mongo.add_to_set vals set) <-> In v set \/ In v vals.
Proof.
  revert set. induction vals as [| x vals IH]; intros set Hnd.
  - simpl. split; [exact Hnd | intros v; tauto].
  - simpl. destruct (existsb (value_eqb x) set) eqn:E.
    + apply existsb_value_eqb in E. destruct (IH set Hnd) as [H1 H2].
      split; [exact H1 |]. intros v. rewrite H2.
      split; [tauto |]. intros [H | [H | H]]; subst; tauto.
    + assert (Hx : ~ In x set).
      { intros H. apply existsb_value_eqb in H. congruence. }
      destruct (IH (set ++ [x])) as [H1 H2].
      { apply NoDup_app; [exact Hnd | constructor; [simpl; tauto | constructor] |].
        intros y Hy [Heq | []]. subst y. tauto. }
      split; [exact H1 |]. intros v. rewrite H2, in_app_iff. simpl. tauto.
Qed.

Lemma field_values_In (field : string) (docs : list dict) (v : value) :
  In v (mongo.field_values field docs)
  <-> exists d, In d docs /\ mongo.field_value field d = Some v.
Proof.
  induction docs as [| d docs IH]; simpl.
  - split; [intros [] | intros [d [[] _]]].
  - destruct (mongo.field_value field d) as [x |] eqn:E; simpl; rewrite IH.
    + split.
      * intros [<- | [d' [Hin Hd']]]; [exists d; auto | exists d'; auto].
      * intros [d' [[<- | Hin] Hd']]; [left; congruence | right; exists d'; auto].
    + split.
      * intros [d' [Hin Hd']]. exists d'; auto.
      * intros [d' [[<- | Hin] Hd']]; [congruence | exists d'; auto].
Qed.

(** The metric panel on a collection whose pipeline lets one document at
    least reach the group stage: the query, its result and what is shown. *)
Lemma metric_panel_run (S : mongo.store) (collection pipeline : list dict)
      (doc : dict) (docs : list dict) (field : string)
      (metric_types : list string) (log : list ui_event) :
  mongo.aggregate S pipeline collection = Ok (doc :: docs) ->
  (forall m, In m metric_types -> In m metric_names) ->
  exists spec result evs,
    dynamic_dashboard_mongo.build_metric_group field metric_types
      = Ok (("_id", VNone) :: spec)
    /\ mongo.aggregate S
         (pipeline ++ [[("$group", VDict (("_id", VNone) :: spec))]]) collection
       = Ok [("_id", VNone) :: result]
    /\ (forall m, In m metric_types ->
          dict_get spec (lower m) = Some (VDict [accumulator_of field m])
          /\ dict_get result (lower m)
             = Some (mongo.eval_accumulator S (fst (accumulator_of field m))
                                            (snd (accumulator_of field m))
                                            (doc :: docs)))
    /\ dynamic_dashboard_mongo.metric_panel S collection pipeline field
                                            metric_types log
       = (Ok tt, log ++ evs)
    /\ (In "Count" metric_types ->
        In (st_metric "Count" (VInt (Z.of_nat (List.length (doc :: docs))))) evs)
    /\ (In "Unique Count" metric_types ->
        In (st_metric "Unique Count"
              (VInt (Z.of_nat
                       (List.length
                          (mongo.add_to_set
                             (mongo.field_values field (doc :: docs)) [])))))
           evs).
Proof.
  intros Hdocs Hknown.
  set (spec := dict_of_writes (metric_writes field metric_types)).
  set (result := map (eval_field S (doc :: docs)) spec).
  assert (Hkeys : forall m, In m metric_types ->
            dict_get spec (lower m) = Some (VDict [accumulator_of field m])
            /\ dict_get result (lower m)
               = Some (mongo.eval_accumulator S (fst (accumulator_of field m))
                                              (snd (accumulator_of field m))
                                              (doc :: docs))).
  { intros m Hm. pose proof (metric_writes_key field metric_types m Hknown Hm) as Hk.
    fold spec in Hk. split; [exact Hk |].
    unfold result. rewrite dict_get_eval, Hk. unfold eval_field. simpl.
    destruct (accumulator_of field m); reflexivity. }
  assert (Hcount : In "Count" metric_types ->
            dynamic_dashboard_mongo.get_default (("_id", VNone) :: result)
                                                "count" (VInt 0)
            = VInt (Z.of_nat (List.length (doc :: docs)))).
  { intros Hm. destruct (Hkeys _ Hm) as [_ Hr].
    unfold dynamic_dashboard_mongo.get_default.
    change (dict_get (("_id", VNone) :: result) "count")
      with (dict_get result (lower "Count")).
    rewrite Hr. unfold accumulator_of, mongo.eval_accumulator. simpl fst.
    simpl snd. cbn [String.eqb Ascii.eqb Bool.eqb].
    rewrite Z.mul_1_l. reflexivity. }
  assert (Hunique : In "Unique Count" metric_types ->
            dict_get (("_id", VNone) :: result) "unique count"
            = Some (VList (mongo.add_to_set
                             (mongo.field_values field (doc :: docs)) []))).
  { intros Hm. destruct (Hkeys _ Hm) as [_ Hr].
    change (dict_get (("_id", VNone) :: result) "unique count")
      with (dict_get result (lower "Unique Count")).
    rewrite Hr. reflexivity. }
  destruct (show_metrics_shown (("_id", VNone) :: result) metric_types
              (fun H => ex_intro _ _ (Hunique H))
              (log ++ [st_subheader
                         (dynamic_dashboard_mongo.title (replace field "_" " "))]))
    as [evs [Hshow [Hc Hu]]].
  exists spec, result,
    (st_subheader (dynamic_dashboard_mongo.title (replace field "_" " ")) :: evs).
  split; [apply build_metric_group_known; exact Hknown |].
  split; [apply metric_pipeline_result; exact Hdocs |].
  split; [exact Hkeys |]. split; [| split].
  - unfold dynamic_dashboard_mongo.metric_panel, bind, emit,
      try_except_Exception, lift.
    rewrite build_metric_group_known by exact Hknown. cbv beta iota.
    rewrite (metric_pipeline_result S collection pipeline doc docs
               field metric_types Hdocs).
    fold spec. fold result. cbn [list_head]. cbv beta iota.
    rewrite Hshow, <- app_assoc. reflexivity.
  - intros Hm. right. rewrite <- (Hcount Hm).
    pose proof (Hc Hm) as Hin. rewrite (Hcount Hm) in *. exact Hin.
  - intros Hm. right. exact (Hu Hm _ (Hunique Hm)).
Qed.

(** C4, as the code has it.  When at least one document reaches the group
    stage, the metric kind "Count" shows the number of those documents,
    whatever the field: [build_metric_group] emits the accumulator
    [{"$sum": 1}] under the key [count], the result of the aggregation
    holds the number of documents under that key, and the panel shows
    it. *)
Theorem count_metric (S : mongo.store) (collection pipeline : list dict)
        (doc : dict) (docs : list dict) (field : string)
        (metric_types : list string) (log : list ui_event) :
  mongo.aggregate S pipeline collection = Ok (doc :: docs) ->
  (forall m, In m metric_types -> In m metric_names) ->
  In "Count" metric_types ->
  exists group result evs,
    dynamic_dashboard_mongo.build_metric_group field metric_types = Ok group
    /\ dict_get group "count" = Some (VDict [("$sum", VInt 1)])
    /\ mongo.aggregate S (pipeline ++ [[("$group", VDict group)]]) collection
       = Ok [result]
    /\ dict_get result "count"
       = Some (VInt (Z.of_nat (List.length (doc :: docs))))
    /\ dynamic_dashboard_mongo.metric_panel S collection pipeline field
                                            metric_types log
       = (Ok tt, log ++ evs)
    /\ In (st_metric "Count" (VInt (Z.of_nat (List.length (doc :: docs))))) evs.
Proof.
  intros Hdocs Hknown Hcount.
  destruct (metric_panel_run S collection pipeline doc docs field metric_types
                             log Hdocs Hknown)
    as [spec [result [evs [Hgroup [Hagg [Hkeys [Hrun [Hshown _]]]]]]]].
  destruct (Hkeys "Count" Hcount) as [Hspec Hresult].
  exists (("_id", VNone) :: spec), (("_id", VNone) :: result), evs.
  split; [exact Hgroup |]. split; [exact Hspec |]. split; [exact Hagg |].
  split; [| split; [exact Hrun | exact (Hshown Hcount)]].
  change (dict_get (("_id", VNone) :: result) "count")
    with (dict_get result (lower "Count")).
  rewrite Hresult. unfold accumulator_of, mongo.eval_accumulator.
  simpl fst. simpl snd. cbn [String.eqb Ascii.eqb Bool.eqb].
  rewrite Z.mul_1_l. reflexivity.
Qed.

(** Four listings, counted under two different fields. *)
Lemma count_metric_witness :
  let collection := [ [("room_type", VStr "Entire home")];
                      [("room_type", VStr "Private room")];
                      [("room_type", VStr "Entire home")];
                      [("beds", VInt 2)] ] in
  mongo.aggregate plain_store [] collection = Ok collection
  /\ In "Count" ["Count"; "Max"]
  /\ exists evs,
      dynamic_dashboard_mongo.metric_panel plain_store collection []
                                           "room_type" ["Count"; "Max"] []
      = (Ok tt, [] ++ evs)
      /\ In (st_metric "Count" (VInt 4)) evs.
Proof.
  intros collection.
  assert (Hdocs : mongo.aggregate plain_store [] collection = Ok collection)
    by reflexivity.
  assert (Hknown : forall m, In m ["Count"; "Max"] -> In m metric_names)
    by (simpl; intuition auto 8).
  assert (Hcount : In "Count" ["Count"; "Max"]) by (left; reflexivity).
  split; [exact Hdocs |]. split; [exact Hcount |].
  destruct (count_metric plain_store collection [] _ _ "room_type"
                         ["Count"; "Max"] [] Hdocs Hknown Hcount)
    as [group [result [evs [_ [_ [_ [_ [Hrun Hin]]]]]]]].
  exists evs. split; [exact Hrun | exact Hin].
Defined.

(** C4 fails as stated on an empty collection: the group stage yields no
    document, indexing the result raises, and the panel shows an error
    where the count 0 would be. *)
Lemma count_metric_counterexample :
  mongo.aggregate plain_store
    [[("$group", VDict [("_id", VNone); ("count", VDict [("$sum", VInt 1)])])]]
    [] = Ok []
  /\ dynamic_dashboard_mongo.metric_panel plain_store [] [] "price" ["Count"] []
     = (Ok tt, [st_subheader "Price";
                st_error "Metrics error: list index out of range"])
  /\ ~ In (st_metric "Count" (VInt 0))
          (snd (dynamic_dashboard_mongo.metric_panel plain_store [] [] "price"
                                                     ["Count"] [])).
Proof.
  split; [reflexivity |]. split; [reflexivity |].
  simpl. intros [H | [H | []]]; discriminate.
Qed.

(** C5, as the code has it.  When at least one document reaches the group
    stage, the metric kind "Unique Count" shows the number of distinct
    values the field takes in those documents: [build_metric_group] emits
    [{"$addToSet": "$<field>"}] under the key [unique count], the result
    holds under that key each value of the field once, and the panel shows
    the length of that list. *)
Theorem unique_count_metric (S : mongo.store) (collection pipeline : list dict)
        (doc : dict) (docs : list dict) (field : string)
        (metric_types : list string) (log : list ui_event) :
  mongo.aggregate S pipeline collection = Ok (doc :: docs) ->
  (forall m, In m metric_types -> In m metric_names) ->
  In "Unique Count" metric_types ->
  exists group result set evs,
    dynamic_dashboard_mongo.build_metric_group field metric_types = Ok group
    /\ dict_get group "unique count"
       = Some (VDict [("$addToSet", VStr ("$" ++ field))])
    /\ mongo.aggregate S (pipeline ++ [[("$group", VDict group)]]) collection
       = Ok [result]
    /\ dict_get result "unique count" = Some (VList set)
    /\ NoDup set
    /\ (forall v, In v set <->
                  exists d, In d (doc :: docs)
                            /\ mongo.field_value field d = Some v)
    /\ dynamic_dashboard_mongo.metric_panel S collection pipeline field
                                            metric_types log
       = (Ok tt, log ++ evs)
    /\ In (st_metric "Unique Count" (VInt (Z.of_nat (List.length set)))) evs.
Proof.
  intros Hdocs Hknown Hunique.
  destruct (metric_panel_run S collection pipeline doc docs field metric_types
                             log Hdocs Hknown)
    as [spec [result [evs [Hgroup [Hagg [Hkeys [Hrun [_ Hshown]]]]]]]].
  destruct (Hkeys "Unique Count" Hunique) as [Hspec Hresult].
  destruct (add_to_set_distinct (mongo.field_values field (doc :: docs)) [])
    as [Hnd Hin]; [constructor |].
  exists (("_id", VNone) :: spec), (("_id", VNone) :: result),
         (mongo.add_to_set (mongo.field_values field (doc :: docs)) []), evs.
  split; [exact Hgroup |]. split; [exact Hspec |]. split; [exact Hagg |].
  split; [exact Hresult |]. split; [exact Hnd |].
  split; [| split; [exact Hrun | exact (Hshown Hunique)]].
  intros v. rewrite Hin, field_values_In. simpl. tauto.
Qed.

(** Four listings with two room types, one listing without the field. *)
Lemma unique_count_metric_witness :
  let collection := [ [("room_type", VStr "Entire home")];
                      [("room_type", VStr "Private room")];
                      [("room_type", VStr "Entire home")];
                      [("beds", VInt 2)] ] in
  mongo.aggregate plain_store [] collection = Ok collection
  /\ In "Unique Count" ["Count"; "Unique Count"]
  /\ exists set evs,
      NoDup set
      /\ (forall v, In v set <->
                    exists d, In d collection
                              /\ mongo.field_value "room_type" d = Some v)
      /\ dynamic_dashboard_mongo.metric_panel plain_store collection []
           "room_type" ["Count"; "Unique Count"] []
         = (Ok tt, [] ++ evs)
      /\ In (st_metric "Unique Count" (VInt (Z.of_nat (List.length set)))) evs.
Proof.
  intros collection.
  assert (Hdocs : mongo.aggregate plain_store [] collection = Ok collection)
    by reflexivity.
  assert (Hknown : forall m, In m ["Count"; "Unique Count"] -> In m metric_names)
    by (simpl; intuition auto 8).
  assert (Hunique : In "Unique Count" ["Count"; "Unique Count"])
    by (right; left; reflexivity).
  split; [exact Hdocs |]. split; [exact Hunique |].
  destruct (unique_count_metric plain_store collection [] _ _ "room_type"
                                ["Count"; "Unique Count"] [] Hdocs Hknown Hunique)
    as [group [result [set [evs [_ [_ [_ [_ [Hnd [Hset [Hrun Hin]]]]]]]]]]].
  exists set, evs. repeat split; try assumption; apply Hset.
Defined.

(** C5 fails as stated on an empty collection: no value of the field, and
    the panel shows an error where 0 would be. *)
Lemma unique_count_metric_counterexample :
  mongo.field_values "price" [] = []
  /\ dynamic_dashboard_mongo.metric_panel plain_store [] [] "price"
                                          ["Unique Count"] []
     = (Ok tt, [st_subheader "Price";
                st_error "Metrics error: list index out of range"])
  /\ ~ In (st_metric "Unique Count" (VInt 0))
          (snd (dynamic_dashboard_mongo.metric_panel plain_store [] [] "price"
                                                     ["Unique Count"] [])).
Proof.
  split; [reflexivity |]. split; [reflexivity |].
  simpl. intros [H | [H | []]]; discriminate.
Qed.

(** A group stage is built for known metrics only. *)
Lemma add_metric_ok_known (field : string) (g g' : dict) (m : string) :
  dynamic_dashboard_mongo.add_metric field g m = Ok g' -> In m metric_names.
Proof.
  intros Hok. destruct (in_dec string_dec m metric_names) as [H | H];
    [exact H | exfalso].
  assert (Hnone : dict_get dynamic_dashboard_mongo.METRIC_OPERATIONS m = None)
    by (apply dict_get_None; exact H).
  unfold dynamic_dashboard_mongo.add_metric, dynamic_dashboard_mongo.getitem
    in Hok.
  rewrite Hnone in Hok. discriminate.
Qed.

Lemma add_metrics_ok_known (field : string) (metrics : list string) :
  forall g g',
    dynamic_dashboard_mongo.add_metrics field g metrics = Ok g' ->
    forall m, In m metrics -> In m metric_names.
Proof.
  induction metrics as [| m0 metrics IH]; intros g g' Hok m Hin;
    [contradiction |].
  cbn [dynamic_dashboard_mongo.add_metrics] in Hok.
  destruct (dynamic_dashboard_mongo.add_metric field g m0) as [g1 |] eqn:E;
    [| discriminate].
  destruct Hin as [<- | Hin]; [exact (add_metric_ok_known _ _ _ _ E) |].
  exact (IH _ _ Hok m Hin).
Qed.

(** C8.  Every query the scripts issue returns at most 1000 documents:
    the two [find] queries carry a limit of 1000 ([MAX_SAMPLE_SIZE] in
    [airbnb_analytics]), the visualization pipeline ends with [$limit]
    1000; the sampling pipeline of the field discovery ends with [$limit]
    10 and the metric pipeline groups everything into one document. *)
Theorem queries_return_at_most_1000 (S : mongo.store)
        (collection pipeline : list dict)
        (x_field y_field color_field size_field field : string)
        (metric_types : list string) :
  airbnb_analytics.MAX_SAMPLE_SIZE = 1000%Z
  /\ airbnb_analytics.load collection
     = mongo.find_limit airbnb_analytics.MAX_SAMPLE_SIZE collection
  /\ List.length (airbnb_analytics.load collection) <= 1000
  /\ List.length (rows (dynamic_dashboard_df.load collection)) <= 1000
  /\ last (dynamic_dashboard_mongo.vis_pipeline pipeline x_field y_field
                                                color_field size_field) []
     = [("$limit", VInt 1000)]
  /\ List.length
       (rows (mongo.aggregate S
                (dynamic_dashboard_mongo.vis_pipeline pipeline x_field y_field
                                                      color_field size_field)
                collection)) <= 1000
  /\ List.length (rows (dynamic_dashboard_mongo.sample_docs S collection)) <= 10
  /\ List.length
       (rows (group <~ dynamic_dashboard_mongo.build_metric_group
                         field metric_types ;;
              mongo.aggregate S (pipeline ++ [[("$group", VDict group)]])
                              collection)) <= 1.
Proof.
  assert (Hfind : forall l : list dict,
             List.length (mongo.find_limit 1000 l) <= 1000).
  { intros l. unfold mongo.find_limit. simpl Z.eqb. cbv iota.
    change (Z.to_nat (Z.abs 1000)) with 1000. apply firstn_le_length. }
  split; [reflexivity |]. split; [reflexivity |].
  split; [apply Hfind |]. split; [| split; [| split; [| split]]].
  - unfold dynamic_dashboard_df.load.
    eapply Nat.le_trans; [apply convert_all_length | apply Hfind].
  - unfold dynamic_dashboard_mongo.vis_pipeline.
    rewrite app_assoc. apply last_last.
  - unfold dynamic_dashboard_mongo.vis_pipeline. rewrite app_assoc.
    change 1000 with (Z.to_nat 1000). apply aggregate_limit_last. lia.
  - unfold dynamic_dashboard_mongo.sample_docs,
      dynamic_dashboard_mongo.sample_pipeline.
    change 10 with (Z.to_nat 10).
    apply (aggregate_limit_last S [[("$sample", VDict [("size", VInt 10)])]]).
    lia.
  - destruct (dynamic_dashboard_mongo.build_metric_group field metric_types)
      as [group |] eqn:E; [| simpl; lia].
    cbn [obind].
    pose proof (add_metrics_ok_known _ _ _ _ E) as Hknown.
    rewrite (build_metric_group_known field metric_types Hknown) in E.
    inversion E; subst group.
    rewrite aggregate_app.
    destruct (mongo.aggregate S pipeline collection) as [docs |];
      [| simpl; lia].
    cbn [obind mongo.aggregate]. rewrite group_stage_run.
    pose proof (group_null_length S
                  (dict_of_writes (metric_writes field metric_types)) docs) as H.
    destruct (mongo.group_null S _ docs); exact H.
Qed.

(** A non-empty result validated against its first document, and an empty
    one. *)
Lemma validate_fields_first_document_witness :
  dynamic_dashboard_mongo.validate_fields
    [[("price", VInt 80); ("beds", VInt 2)]; [("beds", VInt 1)]]
    ["price"; "beds"] []
  = (Ok true, [])
  /\ dynamic_dashboard_mongo.validate_fields [] ["price"; "beds"] []
     = (Raise (IndexError "list index out of range"), []).
Proof.
  destruct (validate_fields_first_document ["price"; "beds"] [])
    as [Hfirst [Hempty _]].
  split.
  - destruct (Hfirst [("price", VInt 80); ("beds", VInt 2)] [[("beds", VInt 1)]])
      as [shown [Hrun [Hnone _]]].
    rewrite (Hnone eq_refl) in Hrun. exact Hrun.
  - exact (Hempty "price" ["beds"] eq_refl).
Defined.

(* ================================================================== *)
(** * Rendering *)
(* ================================================================== *)

(** A [try] whose handler shows a warning returns normally. *)
Lemma try_except_returns (body : ui unit) (ev : ui_event) (log : list ui_event) :
  fst (try_except body (fun _ => emit ev) log) = Ok tt.
Proof.
  unfold try_except, emit. destruct (body log) as [[[] | e] log']; reflexivity.
Qed.






(* ================================================================== *)
(** * Further properties of the flatteners *)
(* ================================================================== *)

Lemma keys_dict_of_writes (ws : list (string * value)) (k : string) :
  In k (keys (dict_of_writes ws)) <-> In k (keys ws).
Proof.
  assert (H : dict_get (dict_of_writes ws) k = last_write k ws).
  { unfold dict_of_writes. rewrite dict_get_update.
    destruct (last_write k ws); reflexivity. }
  assert (Hrev : In k (keys (rev ws)) <-> In k (keys ws)).
  { unfold keys. rewrite map_rev. symmetry. apply in_rev. }
  split; intros Hin.
  - apply Hrev. destruct (in_dec string_dec k (keys (rev ws))) as [Hk | Hk];
      [exact Hk | exfalso].
    apply dict_get_None in Hk. unfold last_write in H. rewrite Hk in H.
    apply dict_get_None in H. exact (H Hin).
  - destruct (in_dec string_dec k (keys (dict_of_writes ws))) as [Hk | Hk];
      [exact Hk | exfalso].
    apply dict_get_None in Hk. rewrite H in Hk. unfold last_write in Hk.
    apply dict_get_None in Hk. apply Hk, Hrev, Hin.
Qed.

Lemma dict_get_keys (d : dict) (k : string) :
  In k (keys d) <-> exists v, dict_get d k = Some v.
Proof.
  split.
  - intros Hin. destruct (dict_get d k) as [v |] eqn:E; [exists v; reflexivity |].
    apply dict_get_None in E. contradiction.
  - intros [v Hv]. exact (dict_get_Some_In d k v Hv).
Qed.

(** The recursive flattener as a loop over the entries. *)
Lemma flatten_value_fold (doc : dict) (parent_key sep : string) :
  dynamic_dashboard_mongo.flatten_value (VDict doc) parent_key sep
  = fold_left
      (fun items kv =>
         let new_key := match parent_key with
                        | EmptyString => fst kv
                        | _ => (parent_key ++ sep ++ fst kv)%string
                        end in
         match snd kv with
         | VDict _ =>
             dict_update items
               (dynamic_dashboard_mongo.flatten_value (snd kv) new_key sep)
         | _ => dict_set items new_key (snd kv)
         end)
      doc [].
Proof.
  simpl. generalize (@nil (string * value)) as items.
  induction doc as [| [k v] doc IH]; intros items; [reflexivity |].
  simpl fold_left. destruct v; apply IH.
Qed.

(** X1.  An entry whose value is an empty dict leaves no trace: each of
    the three flatteners returns what it returns without the entry. *)
Theorem flatten_drops_empty_dict (before after : dict) (k : string)
        (parent_key sep : string) :
  airbnb_analytics.safe_flatten (before ++ (k, VDict []) :: after)
    = airbnb_analytics.safe_flatten (before ++ after)
  /\ dynamic_dashboard_df.safe_flatten (before ++ (k, VDict []) :: after)
     = dynamic_dashboard_df.safe_flatten (before ++ after)
  /\ dynamic_dashboard_mongo.safe_flatten (before ++ (k, VDict []) :: after)
                                          parent_key sep
     = dynamic_dashboard_mongo.safe_flatten (before ++ after) parent_key sep.
Proof.
  assert (Hw : forall conv,
             one_level_writes conv (before ++ (k, VDict []) :: after)
             = one_level_writes conv (before ++ after)).
  { intros conv. unfold one_level_writes. rewrite !flat_map_app. reflexivity. }
  split; [| split].
  - rewrite !airbnb_flatten_writes, Hw. reflexivity.
  - rewrite !df_flatten_writes, Hw. reflexivity.
  - unfold dynamic_dashboard_mongo.safe_flatten.
    rewrite !flatten_value_fold, !fold_left_app. reflexivity.
Qed.

(** X2.  A flattened row is a well-formed dict whose keys are exactly the
    compound keys of the document: no key occurs twice, none is lost and
    none is invented.  For the recursive flattener the keys are those of
    the leaves. *)
Theorem flatten_keys (doc : dict) (parent_key sep : string) :
  (NoDup (keys (airbnb_analytics.safe_flatten doc))
   /\ forall k, In k (keys (airbnb_analytics.safe_flatten doc))
                <-> In k (compound_keys doc))
  /\ (NoDup (keys (dynamic_dashboard_df.safe_flatten doc))
      /\ forall k, In k (keys (dynamic_dashboard_df.safe_flatten doc))
                   <-> In k (compound_keys doc))
  /\ (NoDup (keys (dynamic_dashboard_mongo.safe_flatten doc parent_key sep))
      /\ forall k,
          In k (keys (dynamic_dashboard_mongo.safe_flatten doc parent_key sep))
          <-> In k (keys (deep_writes (VDict doc) parent_key sep))).
Proof.
  split; [| split].
  - rewrite airbnb_flatten_writes.
    split; [apply dict_of_writes_keys_NoDup |].
    intros k. rewrite keys_dict_of_writes, keys_one_level_writes. tauto.
  - rewrite df_flatten_writes.
    split; [apply dict_of_writes_keys_NoDup |].
    intros k. rewrite keys_dict_of_writes, keys_one_level_writes. tauto.
  - unfold dynamic_dashboard_mongo.safe_flatten.
    split; [apply flatten_value_NoDup |].
    intros k. rewrite dict_get_keys.
    assert (Hrev : In k (keys (rev (deep_writes (VDict doc) parent_key sep)))
                   <-> In k (keys (deep_writes (VDict doc) parent_key sep))).
    { unfold keys. rewrite map_rev. symmetry. apply in_rev. }
    rewrite <- Hrev, dict_get_keys.
    split; intros [v Hv]; exists v.
    + rewrite flatten_value_writes in Hv. exact Hv.
    + rewrite flatten_value_writes. exact Hv.
Qed.

Lemma dict_set_convert (conv : value -> value) (d : dict) (k : string)
      (v : value) :
  dict_set (convert_values conv d) k (conv v)
  = convert_values conv (dict_set d k v).
Proof.
  unfold convert_values. induction d as [| [k0 v0] d IH]; simpl; [reflexivity |].
  destruct (String.eqb k k0); simpl; [reflexivity | rewrite IH; reflexivity].
Qed.

Lemma dict_update_convert (conv : value -> value) (ws d : dict) :
  dict_update (convert_values conv d) (convert_values conv ws)
  = convert_values conv (dict_update d ws).
Proof.
  revert d. induction ws as [| [k v] ws IH]; intros d; [reflexivity |].
  change (dict_update (dict_set (convert_values conv d) k (conv v))
                      (convert_values conv ws)
          = convert_values conv (dict_update (dict_set d k v) ws)).
  rewrite dict_set_convert. apply IH.
Qed.

Lemma one_level_writes_convert (conv : value -> value) (doc : dict) :
  (forall d, conv (VDict d) = VDict d) ->
  one_level_writes conv doc
  = convert_values conv (one_level_writes (fun v => v) doc).
Proof.
  intros Hdict. unfold one_level_writes, convert_values.
  induction doc as [| [k v] doc IH]; [reflexivity |].
  simpl. rewrite map_app, IH. f_equal.
  unfold entry_writes. simpl. destruct v; try reflexivity.
  rewrite map_map. reflexivity.
Qed.

Lemma airbnb_flatten_convert_values (doc : dict) :
  airbnb_analytics.safe_flatten doc
  = convert_values airbnb_analytics.safe_convert
                   (dynamic_dashboard_df.safe_flatten doc).
Proof.
  rewrite airbnb_flatten_writes, df_flatten_writes.
  rewrite (one_level_writes_convert airbnb_analytics.safe_convert)
    by reflexivity.
  unfold dict_of_writes.
  exact (dict_update_convert airbnb_analytics.safe_convert _ []).
Qed.

(** X3.  The flattener of [airbnb_analytics] is the flattener of
    [dynamic_dashboard_df] followed by [safe_convert] on every value of
    the row: the conversion changes no key, no order and no collision. *)
Theorem airbnb_flatten_converts_df_flatten (doc : dict) :
  airbnb_analytics.safe_flatten doc
  = convert_values airbnb_analytics.safe_convert
                   (dynamic_dashboard_df.safe_flatten doc)
  /\ keys (airbnb_analytics.safe_flatten doc)
     = keys (dynamic_dashboard_df.safe_flatten doc).
Proof.
  split; [apply airbnb_flatten_convert_values |].
  rewrite airbnb_flatten_convert_values. apply keys_convert_values.
Qed.

(** X4.  No value of a row flattened by [airbnb_analytics] is a
    [Decimal128]: every decimal wrapper that is a value of the document or
    of one of its sub-documents has become a float. *)
Theorem airbnb_flatten_no_decimal (doc : dict) :
  Forall (fun kv => not_Decimal128 (snd kv))
         (airbnb_analytics.safe_flatten doc).
Proof.
  rewrite airbnb_flatten_convert_values. unfold convert_values.
  apply Forall_forall. intros kv Hin. apply in_map_iff in Hin.
  destruct Hin as [[k v] [<- _]]. simpl. intros d.
  destruct v as [ | | | | | d0 | | | ]; try discriminate.
  simpl. destruct (Decimal128_to_float d0); discriminate.
Qed.

Lemma string_app_assoc (a b c : string) :
  ((a ++ b) ++ c)%string = (a ++ b ++ c)%string.
Proof. induction a as [| x a IH]; simpl; [reflexivity | rewrite IH; reflexivity]. Qed.

Lemma deep_writes_prefix (v : value) :
  forall parent_key sep k,
    parent_key <> EmptyString ->
    In k (keys (deep_writes v parent_key sep)) ->
    starts_with (parent_key ++ sep) k.
Proof.
  induction v as [v Hv | doc IHdoc] using value_dict_ind;
    intros parent_key sep k Hpk Hin.
  - destruct v; try discriminate; contradiction.
  - destruct parent_key as [| c p]; [congruence |].
    simpl in Hin. revert Hin.
    induction IHdoc as [| [k0 v0] doc Hv0 _ IH]; intros Hin; [contradiction |].
    simpl in Hv0.
    assert (Hleaf : forall x, In k (keys ((String c p ++ sep ++ k0, x)%string
                                            :: nil)) ->
                              starts_with (String c p ++ sep) k).
    { intros x [Heq | []]. simpl in Heq. subst k. exists k0.
      rewrite string_app_assoc. reflexivity. }
    destruct v0;
      try (destruct Hin as [Heq | Hin];
           [apply (Hleaf VNone); left; exact Heq | exact (IH Hin)]).
    unfold keys in Hin. rewrite map_app in Hin. apply in_app_or in Hin.
    destruct Hin as [Hin | Hin]; [| exact (IH Hin)].
    destruct (Hv0 (String c p ++ sep ++ k0)%string sep k) as [rest Hrest];
      [discriminate | exact Hin |].
    exists (k0 ++ sep ++ rest)%string. rewrite Hrest.
    rewrite !string_app_assoc. reflexivity.
Qed.

(** X5.  Called with a parent key that is not empty, the recursive
    flattener returns only keys that begin with the parent key and the
    separator. *)
Theorem flatten_keys_begin_with_parent (doc : dict) (parent_key sep k : string) :
  parent_key <> EmptyString ->
  In k (keys (dynamic_dashboard_mongo.safe_flatten doc parent_key sep)) ->
  starts_with (parent_key ++ sep) k.
Proof.
  intros Hpk Hin. apply (deep_writes_prefix (VDict doc)); [exact Hpk |].
  apply dict_get_keys in Hin. destruct Hin as [v Hv].
  unfold dynamic_dashboard_mongo.safe_flatten in Hv.
  rewrite flatten_value_writes in Hv. unfold last_write in Hv.
  apply dict_get_Some_In in Hv. unfold keys in *. rewrite map_rev in Hv.
  apply in_rev. exact Hv.
Qed.

(** The address of a listing flattened under the parent key [address]. *)
Lemma flatten_keys_begin_with_parent_witness :
  let doc := [("country", VStr "Portugal");
              ("location", VDict [("type", VStr "Point")])] in
  "address" <> EmptyString
  /\ In "address.location.type"
        (keys (dynamic_dashboard_mongo.safe_flatten doc "address" "."))
  /\ starts_with ("address" ++ ".") "address.location.type".
Proof.
  intros doc.
  assert (Hpk : "address" <> EmptyString) by discriminate.
  assert (Hin : In "address.location.type"
                   (keys (dynamic_dashboard_mongo.safe_flatten doc "address" ".")))
    by (right; left; reflexivity).
  split; [exact Hpk |]. split; [exact Hin |].
  exact (flatten_keys_begin_with_parent doc "address" "."
                                        "address.location.type" Hpk Hin).
Defined.

(** X6.  The three converters agree on every object but a signalling-NaN
    [Decimal128]: there [safe_convert] of [airbnb_analytics] returns
    [DEFAULT_NUMERIC], while [convert_value] of [dynamic_dashboard_mongo]
    and [convert_decimals] of [dynamic_dashboard_df] raise [ValueError]. *)
Theorem converters_agree_but_on_snan (v : value) :
  (v <> VDecimal128 D128_snan ->
   dynamic_dashboard_mongo.convert_value v
     = Ok (airbnb_analytics.safe_convert v)
   /\ dynamic_dashboard_df.convert_decimals v
      = Ok (airbnb_analytics.safe_convert v))
  /\ (v = VDecimal128 D128_snan ->
      airbnb_analytics.safe_convert v
        = VFloat airbnb_analytics.DEFAULT_NUMERIC
      /\ (exists e, dynamic_dashboard_mongo.convert_value v = Raise e
                    /\ exn_class e = "ValueError")
      /\ (exists e, dynamic_dashboard_df.convert_decimals v = Raise e
                    /\ exn_class e = "ValueError")).
Proof.
  split.
  - intros Hv. destruct v as [ | | | | | d | | | ]; try (split; reflexivity).
    destruct d; try (split; reflexivity). congruence.
  - intros ->. split; [reflexivity |].
    split; eexists; split; reflexivity.
Qed.

(** A finite decimal and the signalling NaN. *)
Lemma converters_agree_but_on_snan_witness :
  VDecimal128 (D128_finite false 1005 (-1)) <> VDecimal128 D128_snan
  /\ dynamic_dashboard_mongo.convert_value
       (VDecimal128 (D128_finite false 1005 (-1)))
     = Ok (VFloat float_100_5)
  /\ airbnb_analytics.safe_convert (VDecimal128 D128_snan)
     = VFloat airbnb_analytics.DEFAULT_NUMERIC.
Proof.
  assert (H : VDecimal128 (D128_finite false 1005 (-1))
              <> VDecimal128 D128_snan) by discriminate.
  split; [exact H |]. split.
  - exact (proj1 (proj1 (converters_agree_but_on_snan _) H)).
  - exact (proj1 (proj2 (converters_agree_but_on_snan _) eq_refl)).
Defined.

(* ================================================================== *)
(** * Further properties of the tables *)
(* ================================================================== *)

Lemma coerced_column_after_set (df : DataFrame) (dest : string)
      (col : list value) (s d : string) (t : pandas.dtype) :
  s <> dest ->
  coerced_column (pandas.set_column df dest col) (s, d, t)
  = coerced_column df (s, d, t).
Proof.
  intros Hs. apply coerced_column_ext; [reflexivity |].
  simpl. rewrite lookup_assign.
  destruct (String.eqb s dest) eqn:E; [| reflexivity].
  apply String.eqb_eq in E. contradiction.
Qed.

(** The loop over a coercion table either succeeds, every turn succeeding
    on the initial table, or raises what the first failing turn raises. *)
Lemma coerce_all_result (config : list (string * string * pandas.dtype)) :
  (forall s d, In s (sources config) -> In d (destinations config) -> s <> d) ->
  forall df,
    (forall entry, In entry config ->
                   exists col, coerced_column df entry = Ok col)
    \/ (exists e entry,
           In entry config
           /\ coerced_column df entry = Raise e
           /\ airbnb_analytics.coerce_all df config = Raise e).
Proof.
  induction config as [| [[src dest] t] config IH]; intros Hsd df.
  - left. intros entry [].
  - change (airbnb_analytics.coerce_all df ((src, dest, t) :: config))
      with (d <~ airbnb_analytics.coerce df (src, dest, t) ;;
            airbnb_analytics.coerce_all d config).
    rewrite coerce_coerced.
    destruct (coerced_column df (src, dest, t)) as [col | e] eqn:Hcol.
    + cbn [obind fst snd].
      assert (Hext : forall entry, In entry config ->
                 coerced_column (pandas.set_column df dest col) entry
                 = coerced_column df entry).
      { intros [[s d] t'] Hin. apply coerced_column_after_set.
        apply Hsd; [right | left; reflexivity].
        change s with (fst (fst (s, d, t'))).
        apply (in_map (fun e => fst (fst e))), Hin. }
      destruct (IH (fun s d Hs Hd => Hsd s d (or_intror Hs) (or_intror Hd))
                   (pandas.set_column df dest col))
        as [Hall | [e [entry [Hin [Hraise Hrun]]]]].
      * left. intros entry [<- | Hin]; [exists col; exact Hcol |].
        rewrite <- (Hext entry Hin). apply Hall, Hin.
      * right. exists e, entry. split; [right; exact Hin |].
        split; [rewrite <- (Hext entry Hin); exact Hraise | exact Hrun].
    + right. exists e, (src, dest, t).
      split; [left; reflexivity |]. split; [exact Hcol | reflexivity].
Qed.

(** A turn of the coercion loop raises only the error of the cast to int,
    on a source column that holds an infinity. *)
Lemma coerced_column_raise (df : DataFrame) (src dest : string)
      (t : pandas.dtype) (e : exn) :
  coerced_column df (src, dest, t) = Raise e ->
  e = ValueError "Cannot convert non-finite values (NA or inf) to integer"
  /\ t = pandas.py_int
  /\ exists cells, pandas.lookup_column (columns df) src = Some cells
                   /\ holds_infinity cells = true.
Proof.
  unfold coerced_column, pandas.get_column. rewrite has_column_lookup.
  destruct (pandas.lookup_column (columns df) src) as [cells |].
  - cbn [obind]. destruct t; simpl; try discriminate.
    destruct (existsb pandas.non_finite _) eqn:E; [| discriminate].
    intros H. inversion H. split; [reflexivity |]. split; [reflexivity |].
    exists cells. split; [reflexivity | exact E].
  - destruct t; simpl; discriminate.
Qed.

Lemma coerced_column_int_ok (df : DataFrame) (src dest : string)
      (col cells : list value) :
  coerced_column df (src, dest, pandas.py_int) = Ok col ->
  pandas.lookup_column (columns df) src = Some cells ->
  holds_infinity cells = false.
Proof.
  unfold coerced_column, pandas.get_column. rewrite has_column_lookup.
  intros H Hl. rewrite Hl in H. cbn [obind] in H. simpl in H.
  unfold holds_infinity.
  destruct (existsb pandas.non_finite _); [discriminate | reflexivity].
Qed.

Lemma add_coordinates_ok (df : DataFrame) :
  exists df', airbnb_analytics.add_coordinates df = Ok df'.
Proof.
  destruct (add_coordinates_columns df) as [df' [H _]]. exists df'. exact H.
Qed.

(** [build_dataframe] raises exactly when a column coerced to int holds
    an infinity, and then it raises the error of the cast. *)
Lemma build_dataframe_raises (data : list dict) :
  no_infinite_int data = false ->
  airbnb_analytics.build_dataframe data
  = Raise (ValueError
             "Cannot convert non-finite values (NA or inf) to integer").
Proof.
  intros Hinf. destruct numeric_config_shape as [_ [Hsd _]].
  unfold airbnb_analytics.build_dataframe.
  destruct (coerce_all_result _ Hsd (pandas.from_records data))
    as [Hall | [e [[[src dest] t] [Hin [Hraise Hrun]]]]].
  - exfalso. assert (Ht : no_infinite_int data = true); [| congruence].
    unfold no_infinite_int. apply forallb_forall.
    intros [[src dest] t] Hin. destruct t; try reflexivity.
    destruct (pandas.lookup_column _ src) as [cells |] eqn:E; [| reflexivity].
    destruct (Hall _ Hin) as [col Hcol].
    rewrite (coerced_column_int_ok _ _ _ _ _ Hcol E). reflexivity.
  - rewrite Hrun. destruct (coerced_column_raise _ _ _ _ _ Hraise) as [-> _].
    reflexivity.
Qed.

(** X8.  [safe_dataframe] never raises.  It returns the table it built,
    with one row per input row and nothing shown, unless a source column
    coerced to int holds an infinity; then, and only then, it shows one
    "Data processing error" with the text of the error of the cast and
    returns the empty table. *)
Theorem safe_dataframe_fails_on_infinity_only (data : list dict)
        (log : list ui_event) :
  (no_infinite_int data = true ->
   exists df, airbnb_analytics.safe_dataframe data log = (Ok df, log)
              /\ index df = List.length data)
  /\ (no_infinite_int data = false ->
      exists text,
        airbnb_analytics.safe_dataframe data log
        = (Ok pandas.empty, log ++ [processing_error text])).
Proof.
  split; intros H.
  - destruct (build_dataframe_columns data H) as [df [Hbuild [Hidx _]]].
    exists df. split; [| exact Hidx].
    unfold airbnb_analytics.safe_dataframe, try_except_Exception, lift.
    rewrite Hbuild. reflexivity.
  - eexists.
    unfold airbnb_analytics.safe_dataframe, try_except_Exception, lift.
    rewrite (build_dataframe_raises data H). reflexivity.
Qed.

(** A table with an infinite number of bedrooms, and one without: the
    text [" inf"], with a space, is no number and counts as missing. *)
Lemma safe_dataframe_fails_on_infinity_only_witness :
  let bad := [ [("bedrooms_$numberInt", VStr "inf")] ] in
  let good := [ [("bedrooms_$numberInt", VStr " inf")];
                [("bedrooms_$numberInt", VStr "2")] ] in
  no_infinite_int bad = false
  /\ (exists text,
         airbnb_analytics.safe_dataframe bad []
         = (Ok pandas.empty, [] ++ [processing_error text]))
  /\ no_infinite_int good = true
  /\ exists df, airbnb_analytics.safe_dataframe good [] = (Ok df, [])
                /\ index df = 2.
Proof.
  intros bad good.
  split; [reflexivity |].
  split; [exact (proj2 (safe_dataframe_fails_on_infinity_only bad []) eq_refl) |].
  split; [reflexivity |].
  exact (proj1 (safe_dataframe_fails_on_infinity_only good []) eq_refl).
Defined.

Lemma rectangular_lookup (df : DataFrame) (c : string) (cells : list value) :
  rectangular df ->
  pandas.lookup_column (columns df) c = Some cells ->
  List.length cells = index df.
Proof.
  unfold rectangular. generalize (index df) as n.
  induction (columns df) as [| [c0 cs] cols IH]; intros n H Hl; [discriminate |].
  inversion H as [| ? ? Hhd Htl]. simpl in Hhd, Hl.
  destruct (String.eqb c c0); [| exact (IH n Htl Hl)].
  inversion Hl. subst cells. exact Hhd.
Qed.

Lemma Forall_assign (n : nat) (cols : list (string * list value)) (c : string)
      (cells : list value) :
  Forall (fun col => List.length (snd col) = n) cols ->
  List.length cells = n ->
  Forall (fun col => List.length (snd col) = n) (pandas.assign cols c cells).
Proof.
  intros H Hlen. induction cols as [| [c0 cs] cols IH]; simpl.
  - constructor; [exact Hlen | constructor].
  - inversion H as [| ? ? Hhd Htl].
    destruct (String.eqb c c0); constructor; auto.
Qed.

Lemma rectangular_set_column (df : DataFrame) (c : string) (cells : list value) :
  rectangular df -> List.length cells = index df ->
  rectangular (pandas.set_column df c cells).
Proof.
  unfold rectangular, pandas.set_column. cbn [columns index].
  apply Forall_assign.
Qed.

Lemma to_numeric_length (cells : list value) :
  List.length (pandas.to_numeric cells) = List.length cells.
Proof.
  unfold pandas.to_numeric.
  destruct (forallb pandas.is_NBool (map pandas.coerce_cell cells));
    [apply length_map |].
  destruct (andb _ _); rewrite ?length_map; reflexivity.
Qed.

Lemma astype_length (t : pandas.dtype) (s : list pandas.num) (col : list value) :
  pandas.astype t s = Ok col -> List.length col = List.length s.
Proof.
  destruct t; simpl.
  - intros H; inversion H. apply length_map.
  - destruct (existsb pandas.non_finite s); [discriminate |].
    intros H; inversion H. apply length_map.
  - intros H; inversion H. apply length_map.
Qed.

Lemma astype_typed (t : pandas.dtype) (s : list pandas.num) (col : list value) :
  pandas.astype t s = Ok col -> Forall (has_dtype t) col.
Proof.
  destruct t; simpl.
  - intros H; inversion H. apply Forall_forall. intros v Hv.
    apply in_map_iff in Hv. destruct Hv as [n [<- _]]. eexists; reflexivity.
  - destruct (existsb pandas.non_finite s); [discriminate |].
    intros H; inversion H. apply Forall_forall. intros v Hv.
    apply in_map_iff in Hv. destruct Hv as [n [<- _]].
    destruct n; eexists; reflexivity.
  - intros H; inversion H. apply Forall_forall. intros v Hv.
    apply in_map_iff in Hv. destruct Hv as [n [<- _]].
    destruct n; eexists; reflexivity.
Qed.

(** The column a turn assigns has a cell of the target type in every
    row. *)
Lemma coerced_column_shape (df : DataFrame) (src dest : string)
      (t : pandas.dtype) (col : list value) :
  rectangular df ->
  coerced_column df (src, dest, t) = Ok col ->
  List.length col = index df /\ Forall (has_dtype t) col.
Proof.
  intros Hrect. unfold coerced_column, pandas.get_column.
  rewrite has_column_lookup.
  destruct (pandas.lookup_column (columns df) src) as [cells |] eqn:E.
  - cbn [obind]. intros H. split; [| exact (astype_typed _ _ _ H)].
    rewrite (astype_length _ _ _ H). unfold pandas.fillna.
    rewrite length_map, to_numeric_length.
    exact (rectangular_lookup df src cells Hrect E).
  - destruct t; simpl; intros H; inversion H;
      (split; [apply repeat_length |]);
      apply Forall_forall; intros v Hv; apply repeat_spec in Hv; subst v;
      eexists; reflexivity.
Qed.

(** The columns of the table [add_coordinates] returns when the source
    column is present. *)
Lemma add_coordinates_present (df : DataFrame) (cells : list value) :
  pandas.lookup_column (columns df) "address_location_coordinates" = Some cells ->
  exists df',
    airbnb_analytics.add_coordinates df = Ok df'
    /\ pandas.lookup_column (columns df') "coordinates"
       = Some (map airbnb_analytics.swap_coordinates cells)
    /\ pandas.lookup_column (columns df') "lat"
       = Some (pandas.infer_column
                 (map (airbnb_analytics.component 0)
                      (map airbnb_analytics.swap_coordinates cells)))
    /\ pandas.lookup_column (columns df') "lon"
       = Some (pandas.infer_column
                 (map (airbnb_analytics.component 1)
                      (map airbnb_analytics.swap_coordinates cells))).
Proof.
  intros Hsrc. unfold airbnb_analytics.add_coordinates, pandas.get_column.
  rewrite has_column_lookup, Hsrc. cbn [obind].
  unfold pandas.set_column. cbn [columns index].
  rewrite lookup_assign, String.eqb_refl. cbn [obind].
  eexists. split; [reflexivity |]. cbn [columns].
  rewrite !lookup_assign. repeat split; reflexivity.
Qed.

Lemma add_coordinates_rectangular (df df' : DataFrame) :
  rectangular df ->
  airbnb_analytics.add_coordinates df = Ok df' ->
  rectangular df'.
Proof.
  intros Hrect. unfold airbnb_analytics.add_coordinates, pandas.get_column.
  rewrite has_column_lookup.
  destruct (pandas.lookup_column (columns df) "address_location_coordinates")
    as [cells |] eqn:E; [| intros H; inversion H; subst; exact Hrect].
  cbn [obind]. unfold pandas.set_column. cbn [columns index].
  rewrite lookup_assign, String.eqb_refl. cbn [obind].
  intros H. inversion H. clear H.
  pose proof (rectangular_lookup df _ cells Hrect E) as Hlen.
  unfold rectangular. cbn [columns index].
  repeat apply Forall_assign; try exact Hrect;
    rewrite ?infer_column_length, ?length_map; exact Hlen.
Qed.

Lemma coerce_all_rectangular (config : list (string * string * pandas.dtype)) :
  forall df df',
    rectangular df ->
    airbnb_analytics.coerce_all df config = Ok df' ->
    rectangular df'.
Proof.
  induction config as [| [[src dest] t] config IH]; intros df df' Hrect Hrun.
  - inversion Hrun; subst. exact Hrect.
  - change (airbnb_analytics.coerce_all df ((src, dest, t) :: config))
      with (d <~ airbnb_analytics.coerce df (src, dest, t) ;;
            airbnb_analytics.coerce_all d config) in Hrun.
    rewrite coerce_coerced in Hrun.
    destruct (coerced_column df (src, dest, t)) as [col |] eqn:Hcol;
      [| discriminate].
    cbn [obind fst snd] in Hrun.
    apply (IH _ _ (rectangular_set_column df dest col Hrect
                     (proj1 (coerced_column_shape _ _ _ _ _ Hrect Hcol)))
              Hrun).
Qed.

Lemma from_records_rectangular (data : list dict) :
  rectangular (pandas.from_records data).
Proof.
  unfold rectangular, pandas.from_records. cbn [columns index].
  apply Forall_forall. intros col Hin. apply in_map_iff in Hin.
  destruct Hin as [l [<- _]]. simpl. rewrite infer_column_length.
  apply length_map.
Qed.

(** The table [build_dataframe] returns when no column coerced to int
    holds an infinity. *)
Lemma build_dataframe_frame (data : list dict) :
  no_infinite_int data = true ->
  exists df,
    airbnb_analytics.build_dataframe data = Ok df
    /\ index df = List.length data
    /\ rectangular df
    /\ (forall c, ~ In c written_columns ->
                  pandas.lookup_column (columns df) c
                  = pandas.lookup_column (columns (pandas.from_records data)) c)
    /\ (forall src dest t,
           In (src, dest, t) airbnb_analytics.numeric_config ->
           exists col, pandas.lookup_column (columns df) dest = Some col
                       /\ List.length col = List.length data
                       /\ Forall (has_dtype t) col)
    /\ (forall cells,
           pandas.lookup_column (columns (pandas.from_records data))
                                "address_location_coordinates" = Some cells ->
           pandas.lookup_column (columns df) "coordinates"
             = Some (map airbnb_analytics.swap_coordinates cells)
           /\ pandas.lookup_column (columns df) "lat"
              = Some (pandas.infer_column
                        (map (airbnb_analytics.component 0)
                             (map airbnb_analytics.swap_coordinates cells)))
           /\ pandas.lookup_column (columns df) "lon"
              = Some (pandas.infer_column
                        (map (airbnb_analytics.component 1)
                             (map airbnb_analytics.swap_coordinates cells)))).
Proof.
  intros H. destruct numeric_config_shape as [Hnd [Hsd Hcoord]].
  destruct (coerce_all_columns _ Hnd Hsd (pandas.from_records data))
    as [df1 [Hall [Hidx [Hother Hdest]]]].
  { intros entry Hin. apply coerced_column_ok; assumption. }
  pose proof (coerce_all_rectangular _ _ _ (from_records_rectangular data) Hall)
    as Hrect1.
  destruct (add_coordinates_columns df1) as [df [Hadd [Hidx' Hkeep]]].
  exists df. split; [| split; [| split; [| split; [| split]]]].
  - unfold airbnb_analytics.build_dataframe. rewrite Hall. exact Hadd.
  - rewrite Hidx', Hidx. reflexivity.
  - exact (add_coordinates_rectangular df1 df Hrect1 Hadd).
  - intros c Hc. unfold written_columns in Hc.
    rewrite Hkeep by (intros Hin; apply Hc, in_or_app; right; exact Hin).
    apply Hother. intros Hin. apply Hc, in_or_app. left; exact Hin.
  - intros src dest t Hin.
    pose proof (Hdest _ Hin) as Hcol. simpl snd in Hcol.
    rewrite Hkeep
      by (apply Hcoord; apply (in_map (fun e => snd (fst e)) _ _ Hin)).
    destruct (pandas.lookup_column (columns df1) dest) as [col |] eqn:E.
    + exists col. split; [reflexivity |].
      destruct (coerced_column_shape _ _ _ _ _ (from_records_rectangular data)
                                     Hcol) as [Hlen Htyped].
      split; [exact Hlen | exact Htyped].
    + exfalso. destruct (coerced_column_ok data (src, dest, t) H Hin)
        as [col Hok]. congruence.
  - intros cells Hcells.
    assert (Hsrc : pandas.lookup_column (columns df1)
                                        "address_location_coordinates"
                   = Some cells).
    { rewrite Hother; [exact Hcells |]. simpl. intuition discriminate. }
    destruct (add_coordinates_present df1 cells Hsrc)
      as [df2 [Hadd2 Hcols]].
    rewrite Hadd in Hadd2. inversion Hadd2; subst df2. exact Hcols.
Qed.

Lemma safe_dataframe_run (data : list dict) (df : DataFrame) :
  airbnb_analytics.build_dataframe data = Ok df ->
  forall log, airbnb_analytics.safe_dataframe data log = (Ok df, log).
Proof.
  intros H log.
  unfold airbnb_analytics.safe_dataframe, try_except_Exception, lift.
  rewrite H. reflexivity.
Qed.

(** X9.  On success [safe_dataframe] only adds or overwrites the seven
    derived columns and [coordinates], [lat], [lon]: every other column of
    the input table is returned as it was, and the table stays
    rectangular, every column holding one cell per input row. *)
Theorem safe_dataframe_keeps_other_columns (data : list dict) :
  no_infinite_int data = true ->
  exists df,
    (forall log, airbnb_analytics.safe_dataframe data log = (Ok df, log))
    /\ index df = List.length data
    /\ rectangular df
    /\ forall c, ~ In c written_columns ->
                 pandas.lookup_column (columns df) c
                 = pandas.lookup_column (columns (pandas.from_records data)) c.
Proof.
  intros H.
  destruct (build_dataframe_frame data H)
    as [df [Hbuild [Hidx [Hrect [Hother _]]]]].
  exists df. split; [exact (safe_dataframe_run data df Hbuild) |].
  split; [exact Hidx |]. split; [exact Hrect | exact Hother].
Qed.

(** A listing with a name: the name column is returned as it was. *)
Lemma safe_dataframe_keeps_other_columns_witness :
  let data := [ [("name", VStr "Loft"); ("bedrooms_$numberInt", VStr "2")] ] in
  no_infinite_int data = true
  /\ exists df,
      (forall log, airbnb_analytics.safe_dataframe data log = (Ok df, log))
      /\ pandas.lookup_column (columns df) "name" = Some [VStr "Loft"].
Proof.
  intros data.
  assert (H : no_infinite_int data = true) by reflexivity.
  split; [exact H |].
  destruct (safe_dataframe_keeps_other_columns data H)
    as [df [Hrun [_ [_ Hother]]]].
  exists df. split; [exact Hrun |].
  rewrite Hother; [reflexivity |].
  unfold written_columns. simpl. intuition discriminate.
Defined.

(** X10.  On success every derived column is fully populated with
    objects of its target type: a float in every row of a float column, an
    int in every row of an int column, a bool in every row of the bool
    column; no row is left without a value. *)
Theorem derived_columns_typed (data : list dict) (src dest : string)
        (t : pandas.dtype) :
  no_infinite_int data = true ->
  In (src, dest, t) airbnb_analytics.numeric_config ->
  exists df,
    (forall log, airbnb_analytics.safe_dataframe data log = (Ok df, log))
    /\ forall i, i < List.length data ->
                 exists v, pandas.cell df dest i = Some v /\ has_dtype t v.
Proof.
  intros H Hin.
  destruct (build_dataframe_frame data H)
    as [df [Hbuild [_ [_ [_ [Hdest _]]]]]].
  exists df. split; [exact (safe_dataframe_run data df Hbuild) |].
  intros i Hi. destruct (Hdest _ _ _ Hin) as [col [Hcol [Hlen Htyped]]].
  unfold pandas.cell. rewrite Hcol.
  destruct (nth_error col i) as [v |] eqn:E.
  - exists v. split; [reflexivity |].
    rewrite Forall_forall in Htyped. exact (Htyped v (nth_error_In _ _ E)).
  - apply nth_error_None in E. lia.
Qed.

(** A listing whose superhost flag is the text ["t"]: the derived flag is
    a bool all the same. *)
Lemma derived_columns_typed_witness :
  let data := [ [("host_host_is_superhost", VStr "t")] ] in
  no_infinite_int data = true
  /\ In ("host_host_is_superhost", "host_is_superhost", pandas.py_bool)
        airbnb_analytics.numeric_config
  /\ exists df,
      (forall log, airbnb_analytics.safe_dataframe data log = (Ok df, log))
      /\ exists v, pandas.cell df "host_is_superhost" 0 = Some v
                   /\ has_dtype pandas.py_bool v.
Proof.
  intros data.
  assert (H : no_infinite_int data = true) by reflexivity.
  assert (Hin : In ("host_host_is_superhost", "host_is_superhost",
                    pandas.py_bool) airbnb_analytics.numeric_config)
    by (simpl; auto 10).
  split; [exact H |]. split; [exact Hin |].
  destruct (derived_columns_typed data _ _ _ H Hin) as [df [Hrun Hcells]].
  exists df. split; [exact Hrun |]. apply (Hcells 0). simpl. lia.
Defined.

(** A column of floats and [None], with a float at least, is stored as
    floats: [None] reads NaN. *)
Lemma infer_floats (cells : list value) :
  Forall (fun v => v = VNone \/ exists f, v = VFloat f) cells ->
  (exists f, In (VFloat f) cells) ->
  pandas.infer_column cells = map pandas.as_float cells.
Proof.
  intros Hall [f Hf]. unfold pandas.infer_column.
  assert (Hobj : existsb pandas.is_object cells = false).
  { clear Hf. induction Hall as [| v cells [-> | [g ->]] _ IH];
      [reflexivity | exact IH | exact IH]. }
  assert (Hbool : existsb pandas.is_bool cells = false).
  { clear Hf Hobj. induction Hall as [| v cells [-> | [g ->]] _ IH];
      [reflexivity | exact IH | exact IH]. }
  assert (Hints : pandas.checked_ints cells = []).
  { clear Hf Hobj Hbool. induction Hall as [| v cells [-> | [g ->]] _ IH];
      [reflexivity | reflexivity | exact IH]. }
  assert (Hnone : forallb pandas.is_None cells = false).
  { clear Hall Hobj Hbool Hints. induction cells as [| v cells IH];
      [contradiction |].
    destruct Hf as [-> | Hf]; [reflexivity |].
    simpl. rewrite (IH Hf). apply andb_false_r. }
  assert (Hint : forallb pandas.is_int cells = false).
  { clear Hall Hobj Hbool Hints Hnone. induction cells as [| v cells IH];
      [contradiction |].
    destruct Hf as [-> | Hf]; [reflexivity |].
    simpl. rewrite (IH Hf). apply andb_false_r. }
  rewrite Hobj, Hbool, Hints, Hnone, Hint. reflexivity.
Qed.

Lemma swap_other (v : value) :
  (forall lon lat, v <> VList [lon; lat]) ->
  airbnb_analytics.swap_coordinates v = VTuple [VNone; VNone].
Proof.
  intros Hne. destruct v as [ | | | | | | l | | ]; try reflexivity.
  destruct l as [| a [| b [| c l]]]; try reflexivity.
  elim (Hne a b). reflexivity.
Qed.

(** The components of the pairs of a column of two-float lists. *)
Lemma float_components (cells : list value) (k : nat) :
  (forall lon lat, In (VList [lon; lat]) cells ->
                   (exists f, lon = VFloat f) /\ (exists f, lat = VFloat f)) ->
  (exists lon lat, In (VList [lon; lat]) cells) ->
  k < 2 ->
  pandas.infer_column
    (map (airbnb_analytics.component k)
         (map airbnb_analytics.swap_coordinates cells))
  = map pandas.as_float
        (map (airbnb_analytics.component k)
             (map airbnb_analytics.swap_coordinates cells)).
Proof.
  intros Hfloats [lon [lat Hin]] Hk.
  assert (Hcomp : forall v,
             airbnb_analytics.component k (airbnb_analytics.swap_coordinates v)
             = match v with
               | VList [a; b] => match k with 0 => b | _ => a end
               | _ => VNone
               end).
  { intros v. destruct k as [| [| k]]; [| | lia];
      destruct v as [ | | | | | | l | | ]; try reflexivity;
      destruct l as [| a [| b [| c l]]]; reflexivity. }
  apply infer_floats.
  - apply Forall_forall. intros c Hc.
    apply in_map_iff in Hc. destruct Hc as [t [<- Ht]].
    apply in_map_iff in Ht. destruct Ht as [v [<- Hv]].
    rewrite Hcomp.
    destruct v as [ | | | | | | l | | ]; try (left; reflexivity).
    destruct l as [| a [| b [| c l]]]; try (left; reflexivity).
    destruct (Hfloats a b Hv) as [[f ->] [g ->]].
    right. destruct k; [exists g | exists f]; reflexivity.
  - destruct (Hfloats lon lat Hin) as [[f ->] [g ->]].
    exists (match k with 0 => g | _ => f end).
    apply in_map_iff.
    exists (VTuple [VFloat g; VFloat f]). split.
    + destruct k as [| [| k]]; [reflexivity | reflexivity | lia].
    + apply in_map_iff. exists (VList [VFloat f; VFloat g]).
      split; [reflexivity | exact Hin].
Qed.

(** X11.  On success, when the table has the column
    [address_location_coordinates]: a cell that is a list of two
    components [[lon, lat]] gives [coordinates] the pair [(lat, lon)], any
    other cell the pair [(None, None)]; [lat] and [lon] are the columns
    [pd.DataFrame] stores for the first and the second components of the
    pairs.  When the lists hold floats and there is one at least, [lat]
    holds the second component and [lon] the first of each list, as they
    are, and NaN in the rows without such a list. *)
Theorem coordinates_swapped (data : list dict) :
  no_infinite_int data = true ->
  exists df,
    (forall log, airbnb_analytics.safe_dataframe data log = (Ok df, log))
    /\ forall cells,
        pandas.lookup_column (columns (pandas.from_records data))
                             "address_location_coordinates" = Some cells ->
        (forall i v,
            nth_error cells i = Some v ->
            (forall lon lat,
                v = VList [lon; lat] ->
                pandas.cell df "coordinates" i = Some (VTuple [lat; lon]))
            /\ ((forall lon lat, v <> VList [lon; lat]) ->
                pandas.cell df "coordinates" i
                = Some (VTuple [VNone; VNone])))
        /\ pandas.lookup_column (columns df) "lat"
           = Some (pandas.infer_column
                     (map (airbnb_analytics.component 0)
                          (map airbnb_analytics.swap_coordinates cells)))
        /\ pandas.lookup_column (columns df) "lon"
           = Some (pandas.infer_column
                     (map (airbnb_analytics.component 1)
                          (map airbnb_analytics.swap_coordinates cells)))
        /\ ((forall lon lat,
                In (VList [lon; lat]) cells ->
                (exists f, lon = VFloat f) /\ (exists f, lat = VFloat f)) ->
            (exists lon lat, In (VList [lon; lat]) cells) ->
            forall i v,
              nth_error cells i = Some v ->
              (forall lon lat,
                  v = VList [lon; lat] ->
                  pandas.cell df "lat" i = Some lat
                  /\ pandas.cell df "lon" i = Some lon)
              /\ ((forall lon lat, v <> VList [lon; lat]) ->
                  pandas.cell df "lat" i = Some pandas.nan
                  /\ pandas.cell df "lon" i = Some pandas.nan)).
Proof.
  intros H.
  destruct (build_dataframe_frame data H)
    as [df [Hbuild [_ [_ [_ [_ Hcoord]]]]]].
  exists df. split; [exact (safe_dataframe_run data df Hbuild) |].
  intros cells Hcells.
  destruct (Hcoord cells Hcells) as [Hc [Hlat Hlon]].
  split; [| split; [exact Hlat | split; [exact Hlon |]]].
  - intros i v Hcell. unfold pandas.cell. rewrite Hc.
    rewrite (map_nth_error airbnb_analytics.swap_coordinates _ _ Hcell).
    split.
    + intros lon lat ->. reflexivity.
    + intros Hne. rewrite (swap_other v Hne). reflexivity.
  - intros Hfloats Hsome i v Hcell. unfold pandas.cell.
    rewrite Hlat, Hlon.
    rewrite (float_components cells 0 Hfloats Hsome) by lia.
    rewrite (float_components cells 1 Hfloats Hsome) by lia.
    pose proof (map_nth_error airbnb_analytics.swap_coordinates _ _ Hcell)
      as Hs.
    rewrite (map_nth_error pandas.as_float _ _
               (map_nth_error (airbnb_analytics.component 0) _ _ Hs)),
      (map_nth_error pandas.as_float _ _
         (map_nth_error (airbnb_analytics.component 1) _ _ Hs)).
    split.
    + intros lon lat ->.
      destruct (Hfloats lon lat (nth_error_In _ _ Hcell)) as [[f ->] [g ->]].
      split; reflexivity.
    + intros Hne. rewrite (swap_other v Hne). split; reflexivity.
Qed.

(** A listing located at longitude -9 and latitude 38, and one whose
    coordinates are missing: the integers are stored as floats beside the
    missing entries. *)
Lemma coordinates_swapped_witness :
  let data := [ [("address_location_coordinates", VList [VInt (-9); VInt 38])];
                [("name", VStr "Loft")] ] in
  no_infinite_int data = true
  /\ exists df,
      (forall log, airbnb_analytics.safe_dataframe data log = (Ok df, log))
      /\ pandas.cell df "coordinates" 0 = Some (VTuple [VInt 38; VInt (-9)])
      /\ pandas.lookup_column (columns df) "lat"
         = Some [VFloat (float_of_Z 38); pandas.nan]
      /\ pandas.lookup_column (columns df) "lon"
         = Some [VFloat (float_of_Z (-9)); pandas.nan].
Proof.
  intros data.
  assert (H : no_infinite_int data = true) by reflexivity.
  split; [exact H |].
  destruct (coordinates_swapped data H) as [df [Hrun Hcells]].
  exists df. split; [exact Hrun |].
  destruct (Hcells [VList [VInt (-9); VInt 38]; pandas.nan] eq_refl)
    as [Hpairs [Hlat [Hlon _]]].
  split; [| split; [exact Hlat | exact Hlon]].
  exact (proj1 (Hpairs 0 _ eq_refl) _ _ eq_refl).
Defined.

(* ================================================================== *)
(** * Further properties of the panels and of [main] *)
(* ================================================================== *)

Lemma draw_panel (P : plotting) (header : string) (c : chart_call)
      (warning : string) (log : list ui_event) :
  try_except (emit (st_header header) ;;; fig <- draw P c ;; plotly_chart P fig)
             (fun _ => emit (st_warning warning)) log
  = (Ok tt, log ++ panel_events P header c warning).
Proof.
  unfold try_except, bind, emit, draw, plotly_chart, lift, panel_events, draws.
  destruct (draw_raises P c); cbv beta iota;
    [rewrite <- app_assoc; reflexivity |].
  destruct (show_raises P c); unfold emit; cbv beta iota;
    rewrite <- app_assoc; reflexivity.
Qed.

(** X12.  A chart panel of [airbnb_analytics] shows nothing when the
    columns it needs are missing; otherwise it shows its header followed
    by the chart, or by its warning when drawing raises -- never both,
    never an error, and it always returns normally. *)
Theorem chart_panels_show_chart_or_warning (P : plotting) (df : DataFrame)
        (log : list ui_event) :
  airbnb_analytics.render_price_analysis P df log
    = (Ok tt, log ++ panel_events P "💰 Pricing Insights"
                                  (airbnb_analytics.price_chart df)
                                  "Price analysis unavailable")
  /\ airbnb_analytics.render_review_analysis P df log
     = (Ok tt,
        match airbnb_analytics.review_cols df with
        | [] => log
        | _ :: _ => log ++ panel_events P "⭐ Review Breakdown"
                                        (airbnb_analytics.review_chart df)
                                        "Review analysis unavailable"
        end)
  /\ airbnb_analytics.render_amenities P df log
     = (Ok tt,
        if pandas.has_column df "amenities"
        then log ++ panel_events P "🏆 Top Amenities"
                                 (airbnb_analytics.amenities_chart df)
                                 "Amenities analysis unavailable"
        else log)
  /\ airbnb_analytics.render_geo P df log
     = (Ok tt,
        if andb (pandas.has_column df "lat") (pandas.has_column df "lon")
        then log ++ panel_events P "📍 Geographic Distribution"
                                 (airbnb_analytics.geo_chart df)
                                 "Map unavailable"
        else log).
Proof.
  split; [apply draw_panel |]. split; [| split].
  - unfold airbnb_analytics.render_review_analysis.
    destruct (airbnb_analytics.review_cols df); [reflexivity | apply draw_panel].
  - unfold airbnb_analytics.render_amenities.
    destruct (pandas.has_column df "amenities");
      [apply draw_panel | reflexivity].
  - unfold airbnb_analytics.render_geo.
    destruct (andb (pandas.has_column df "lat") (pandas.has_column df "lon"));
      [apply draw_panel | reflexivity].
Qed.



Lemma safe_dataframe_returns (data : list dict) (log : list ui_event) :
  exists df log', airbnb_analytics.safe_dataframe data log = (Ok df, log').
Proof.
  destruct (no_infinite_int data) eqn:E.
  - destruct (build_dataframe_columns data E) as [df [Hbuild _]].
    exists df, log. exact (safe_dataframe_run data df Hbuild log).
  - eexists pandas.empty, _.
    unfold airbnb_analytics.safe_dataframe, try_except_Exception, lift.
    rewrite (build_dataframe_raises data E). reflexivity.
Qed.

Lemma bind_returns (c k : ui unit) (log : list ui_event) :
  (forall l, fst (c l) = Ok tt) -> (forall l, fst (k l) = Ok tt) ->
  fst ((c ;;; k) log) = Ok tt.
Proof.
  intros Hc Hk. unfold bind. specialize (Hc log).
  destruct (c log) as [[[] | e] log']; simpl in Hc; [apply Hk | discriminate].
Qed.

(** X14.  [main] of [airbnb_analytics] returns normally whenever the
    collection is read.  When reading raises an exception that derives
    from [Exception] it shows the title and "Data load failed" with the
    text of the error, and renders no panel; an exception of another
    class propagates.  When the coercion of the table fails it shows one
    "Data processing error" with the text of the error and still renders
    on the empty table: the key metrics are unavailable, the price panel
    shows its chart or its warning, and the review, amenities and map
    panels are skipped. *)
Theorem main_outcomes (P : plotting) (log : list ui_event) :
  (forall docs, fst (airbnb_analytics.main P (Ok docs) log) = Ok tt)
  /\ (forall e,
         exn_is_Exception e = true ->
         airbnb_analytics.main P (Raise e) log
         = (Ok tt, log ++ [st_title "🏠 Airbnb Analytics Dashboard";
                           st_error ("Data load failed: " ++ exn_str e)]))
  /\ (forall e,
         exn_is_Exception e = false ->
         airbnb_analytics.main P (Raise e) log
         = (Raise e, log ++ [st_title "🏠 Airbnb Analytics Dashboard"]))
  /\ (forall docs,
         no_infinite_int (map airbnb_analytics.safe_flatten
                              (airbnb_analytics.load docs)) = false ->
         exists text,
           airbnb_analytics.main P (Ok docs) log
           = (Ok tt,
              log ++ [st_title "🏠 Airbnb Analytics Dashboard";
                      processing_error text;
                      st_header "📊 Key Metrics"; st_columns 5;
                      st_warning "Metrics unavailable"]
                  ++ panel_events P "💰 Pricing Insights"
                                  (airbnb_analytics.price_chart pandas.empty)
                                  "Price analysis unavailable")).
Proof.
  split; [| split; [| split]].
  - intros docs. unfold airbnb_analytics.main, try_except_Exception.
    unfold bind at 1 2. unfold emit at 1. cbv beta iota.
    unfold try_except_Exception, bind at 1 2, lift. cbv beta iota.
    destruct (safe_dataframe_returns
                (map airbnb_analytics.safe_flatten (airbnb_analytics.load docs))
                (log ++ [st_title "🏠 Airbnb Analytics Dashboard"]))
      as [df [log' ->]].
    unfold ret. cbv beta iota.
    assert (Hpanels :
              fst ((airbnb_analytics.render_metrics P df ;;;
                    airbnb_analytics.render_price_analysis P df ;;;
                    airbnb_analytics.render_review_analysis P df ;;;
                    airbnb_analytics.render_amenities P df ;;;
                    airbnb_analytics.render_geo P df) log') = Ok tt).
    { repeat (apply bind_returns;
              [intros ?l; apply try_except_returns | intros ?l]).
      apply try_except_returns. }
    destruct ((airbnb_analytics.render_metrics P df ;;;
               airbnb_analytics.render_price_analysis P df ;;;
               airbnb_analytics.render_review_analysis P df ;;;
               airbnb_analytics.render_amenities P df ;;;
               airbnb_analytics.render_geo P df) log') as [[[] | e] l];
      simpl in Hpanels; [reflexivity | discriminate].
  - intros e He. unfold airbnb_analytics.main, try_except_Exception, bind,
      emit, lift, ret. cbv beta iota. rewrite He. cbv beta iota.
    rewrite <- app_assoc. reflexivity.
  - intros e He. unfold airbnb_analytics.main, try_except_Exception, bind,
      emit, lift, ret. cbv beta iota. rewrite He. cbv beta iota.
    rewrite He. reflexivity.
  - intros docs Hinf.
    exists "Cannot convert non-finite values (NA or inf) to integer".
    unfold airbnb_analytics.main, try_except_Exception.
    unfold bind at 1 2. unfold emit at 1. cbv beta iota.
    unfold try_except_Exception, bind at 1 2, lift. cbv beta iota.
    unfold airbnb_analytics.safe_dataframe, try_except_Exception, lift.
    rewrite (build_dataframe_raises _ Hinf). cbv beta iota.
    change (exn_is_Exception
              (ValueError
                 "Cannot convert non-finite values (NA or inf) to integer"))
      with true. cbv beta iota.
    unfold bind at 1, emit at 1, ret. cbv beta iota.
    unfold bind at 1.
    change (airbnb_analytics.render_metrics P pandas.empty
              ((log ++ [st_title "🏠 Airbnb Analytics Dashboard"])
                 ++ [st_error
                       ("Data processing error: "
                          ++ exn_str
                               (ValueError
                                  "Cannot convert non-finite values (NA or inf) to integer"))]))
      with (Ok tt,
            ((((log ++ [st_title "🏠 Airbnb Analytics Dashboard"])
                 ++ [processing_error
                       "Cannot convert non-finite values (NA or inf) to integer"])
                ++ [st_header "📊 Key Metrics"]) ++ [st_columns 5])
              ++ [st_warning "Metrics unavailable"]).
    cbv beta iota. unfold bind at 1.
    unfold airbnb_analytics.render_price_analysis. rewrite draw_panel.
    cbv beta iota. rewrite <- !app_assoc. reflexivity.
Qed.

(** A collection that cannot be read. *)
Lemma main_outcomes_witness :
  let e := mkExn "ServerSelectionTimeoutError" true "no servers found" in
  exn_is_Exception e = true
  /\ airbnb_analytics.main (failing_plots e) (Raise e) []
     = (Ok tt, [st_title "🏠 Airbnb Analytics Dashboard";
                st_error "Data load failed: no servers found"]).
Proof.
  intros e. split; [reflexivity |].
  exact (proj1 (proj2 (main_outcomes (failing_plots e) [])) e eq_refl).
Defined.

(* ================================================================== *)
(** * Further properties of the metric and visualization blocks *)
(* ================================================================== *)

Lemma add_metric_unknown (field : string) (g : dict) (m : string) :
  ~ In m metric_names ->
  dynamic_dashboard_mongo.add_metric field g m = Raise (KeyError m).
Proof.
  intros H.
  assert (Hnone : dict_get dynamic_dashboard_mongo.METRIC_OPERATIONS m = None)
    by (apply dict_get_None; exact H).
  unfold dynamic_dashboard_mongo.add_metric, dynamic_dashboard_mongo.getitem.
  rewrite Hnone. reflexivity.
Qed.

(** The loop of [build_metric_group] stops at the first metric that is no
    key of [METRIC_OPERATIONS]. *)
Lemma add_metrics_first_unknown (field : string) (before after : list string)
      (m : string) :
  (forall k, In k before -> In k metric_names) ->
  ~ In m metric_names ->
  forall g,
    dynamic_dashboard_mongo.add_metrics field g (before ++ m :: after)
    = Raise (KeyError m).
Proof.
  intros Hbefore Hm. induction before as [| k before IH]; intros g.
  - cbn [app dynamic_dashboard_mongo.add_metrics].
    rewrite (add_metric_unknown field g m Hm). reflexivity.
  - cbn [app dynamic_dashboard_mongo.add_metrics].
    rewrite (add_metric_known field g k (Hbefore k (or_introl eq_refl))).
    cbn [obind]. apply IH. intros k' Hk'. apply Hbefore. right. exact Hk'.
Qed.

(** X15.  [build_metric_group] succeeds exactly on metrics that are keys
    of [METRIC_OPERATIONS].  The stage then starts with [_id: None] and
    holds, under the lower-cased name of each chosen metric and under no
    other key, the accumulator of the metric over the field; a metric
    chosen twice is held once.  Otherwise it raises [KeyError] for the
    first metric that is no key and builds nothing; the text of the error
    is the [repr] of that metric (stated for names in ASCII). *)
Theorem build_metric_group_known_only (field : string) (metrics : list string) :
  ((forall m, In m metrics -> In m metric_names) ->
   exists spec,
     dynamic_dashboard_mongo.build_metric_group field metrics
       = Ok (("_id", VNone) :: spec)
     /\ NoDup (keys spec)
     /\ (forall k, In k (keys spec) <-> exists m, In m metrics /\ k = lower m)
     /\ (forall m, In m metrics ->
                   dict_get spec (lower m)
                   = Some (VDict [accumulator_of field m])))
  /\ (forall before m after,
         metrics = before ++ m :: after ->
         (forall k, In k before -> In k metric_names) ->
         ~ In m metric_names ->
         exists e,
           dynamic_dashboard_mongo.build_metric_group field metrics = Raise e
           /\ exn_class e = "KeyError"
           /\ exn_is_Exception e = true
           /\ (is_ascii m = true -> exn_str e = py_repr m)).
Proof.
  split.
  - intros Hknown. exists (dict_of_writes (metric_writes field metrics)).
    split; [apply build_metric_group_known; exact Hknown |].
    split; [apply dict_of_writes_keys_NoDup |]. split.
    + intros k. rewrite keys_dict_of_writes. unfold metric_writes, keys.
      rewrite map_map. simpl. rewrite in_map_iff.
      split; intros [m [H1 H2]]; exists m; auto.
    + intros m Hm. apply metric_writes_key; assumption.
  - intros before m after -> Hbefore Hm. exists (KeyError m).
    split; [| repeat split].
    unfold dynamic_dashboard_mongo.build_metric_group.
    apply add_metrics_first_unknown; assumption.
Qed.

(** The average and the count of a field, the count chosen twice; and
    two metrics that do not exist, of which the first is reported. *)
Lemma build_metric_group_known_only_witness :
  (forall m, In m ["Count"; "Average"; "Count"] -> In m metric_names)
  /\ dynamic_dashboard_mongo.build_metric_group "price"
       ["Count"; "Average"; "Count"]
     = Ok [("_id", VNone); ("count", VDict [("$sum", VInt 1)]);
           ("average", VDict [("$avg", VStr "$price")])]
  /\ exists e,
      dynamic_dashboard_mongo.build_metric_group "price"
        ["Count"; "Median"; "Mode"] = Raise e
      /\ exn_class e = "KeyError"
      /\ exn_str e = "'Median'".
Proof.
  assert (Hknown : forall m, In m ["Count"; "Average"; "Count"]
                             -> In m metric_names)
    by (simpl; intuition auto 8).
  split; [exact Hknown |]. split; [reflexivity |].
  destruct (proj2 (build_metric_group_known_only
                     "price" ["Count"; "Median"; "Mode"])
                  ["Count"] "Median" ["Mode"] eq_refl)
    as [e [Hrun [Hclass [_ Hstr]]]].
  - intros k [<- | []]. left. reflexivity.
  - simpl. intuition discriminate.
  - exists e. split; [exact Hrun |]. split; [exact Hclass |].
    exact (Hstr eq_refl).
Defined.

Lemma dict_of_writes_get (ws : list (string * value)) (k : string) :
  dict_get (dict_update [("_id", VInt 0)] ws) k
  = match last_write k ws with
    | Some v => Some v
    | None => if String.eqb k "_id" then Some (VInt 0) else None
    end.
Proof. rewrite dict_get_update. reflexivity. Qed.

Lemma projection_writes (x_field y_field color_field size_field : string) :
  dynamic_dashboard_mongo.projection x_field y_field color_field size_field
  = dict_update [("_id", VInt 0)]
      (map (fun f => (f, VInt 1))
           (dynamic_dashboard_mongo.required_fields x_field y_field color_field
                                                    size_field)).
Proof.
  unfold dynamic_dashboard_mongo.projection,
    dynamic_dashboard_mongo.required_fields, dict_update.
  set (fs := dynamic_dashboard_mongo.chosen [y_field; color_field; size_field]).
  cbn [map fold_left fst snd].
  generalize (dict_set [("_id", VInt 0)] x_field (VInt 1)) as start.
  induction fs as [| f fs IH]; intros start; cbn [map fold_left fst snd];
    [reflexivity | apply IH].
Qed.

(** X16.  The projection of the visualization query asks for exactly the
    fields the validation requires: each required field is projected with
    1, [_id] is excluded with 0 unless it is itself a chosen field, no
    other key is projected and no key occurs twice. *)
Theorem projection_matches_required_fields
        (x_field y_field color_field size_field : string) :
  let p := dynamic_dashboard_mongo.projection x_field y_field color_field
                                              size_field in
  let required := dynamic_dashboard_mongo.required_fields
                    x_field y_field color_field size_field in
  NoDup (keys p)
  /\ (forall f, In f required -> dict_get p f = Some (VInt 1))
  /\ (~ In "_id" required -> dict_get p "_id" = Some (VInt 0))
  /\ (forall k, In k (keys p) <-> k = "_id" \/ In k required).
Proof.
  intros p required. unfold p, required. clear p required.
  rewrite projection_writes.
  generalize (dynamic_dashboard_mongo.required_fields
                x_field y_field color_field size_field) as fields.
  intros fields.
  set (ws := map (fun f => (f, VInt 1)) fields).
  assert (Hkeys : keys ws = fields).
  { unfold ws, keys. rewrite map_map. exact (map_id fields). }
  assert (Hlast : forall k, In k fields -> last_write k ws = Some (VInt 1)).
  { intros k Hk. unfold last_write. apply dict_get_agree.
    - apply in_rev. rewrite rev_involutive. unfold ws. apply in_map_iff.
      exists k. split; [reflexivity | exact Hk].
    - intros v' Hv'. apply in_rev in Hv'. unfold ws in Hv'.
      apply in_map_iff in Hv'. destruct Hv' as [f [Heq _]]. congruence. }
  assert (Hnone : forall k, ~ In k fields -> last_write k ws = None).
  { intros k Hk. unfold last_write. apply dict_get_None.
    unfold keys. rewrite map_rev. intros Hin. apply in_rev in Hin.
    fold (keys ws) in Hin. rewrite Hkeys in Hin. contradiction. }
  split; [| split; [| split]].
  - apply NoDup_keys_update. repeat constructor. simpl. tauto.
  - intros f Hf. rewrite dict_of_writes_get, (Hlast f Hf). reflexivity.
  - intros Hid. rewrite dict_of_writes_get, (Hnone _ Hid). reflexivity.
  - intros k. rewrite dict_get_keys, dict_of_writes_get.
    destruct (in_dec string_dec k fields) as [Hk | Hk].
    + rewrite (Hlast k Hk). split; [auto | intros _; eexists; reflexivity].
    + rewrite (Hnone k Hk). destruct (String.eqb k "_id") eqn:E.
      * apply String.eqb_eq in E. split; [auto | intros _; eexists; reflexivity].
      * apply String.eqb_neq in E. split; [intros [v Hv]; discriminate |].
        intros [H | H]; contradiction.
Qed.

Lemma index_of_nth (l : list string) (x : string) :
  (In x l -> exists i, dynamic_dashboard_mongo.index_of l x = Some i
                       /\ nth_error l i = Some x
                       /\ forall j, j < i -> nth_error l j <> Some x)
  /\ (~ In x l -> dynamic_dashboard_mongo.index_of l x = None).
Proof.
  induction l as [| y l [IHin IHout]]; split.
  - intros [].
  - reflexivity.
  - intros Hin. simpl. destruct (String.eqb x y) eqn:E.
    + apply String.eqb_eq in E. subst y. exists 0.
      split; [reflexivity |]. split; [reflexivity |]. intros j Hj. lia.
    + apply String.eqb_neq in E. destruct Hin as [Heq | Hin]; [congruence |].
      destruct (IHin Hin) as [i [Hi [Hnth Hfirst]]]. rewrite Hi.
      exists (S i). split; [reflexivity |]. split; [exact Hnth |].
      intros [| j] Hj; simpl; [congruence | apply Hfirst; lia].
  - intros Hout. simpl. destruct (String.eqb x y) eqn:E.
    + apply String.eqb_eq in E. subst y. elim Hout. left; reflexivity.
    + rewrite IHout; [reflexivity |]. intros H. apply Hout. right; exact H.
Qed.

(** X17.  The preselected entry of a field selector is the remembered
    field when it is among the available fields, at its first position,
    and the first entry otherwise; on a list that is not empty the index
    is always within the list. *)
Theorem default_index_selects (available_fields : list string)
        (selected : string) :
  (In selected available_fields ->
   nth_error available_fields
             (dynamic_dashboard_mongo.default_index available_fields selected)
   = Some selected
   /\ forall j,
       j < dynamic_dashboard_mongo.default_index available_fields selected ->
       nth_error available_fields j <> Some selected)
  /\ (~ In selected available_fields ->
      dynamic_dashboard_mongo.default_index available_fields selected = 0)
  /\ (available_fields <> [] ->
      dynamic_dashboard_mongo.default_index available_fields selected
      < List.length available_fields).
Proof.
  unfold dynamic_dashboard_mongo.default_index.
  destruct (index_of_nth available_fields selected) as [Hin Hout].
  split; [| split].
  - intros H. destruct (Hin H) as [i [-> [Hnth Hfirst]]]. split; assumption.
  - intros H. rewrite (Hout H). reflexivity.
  - intros Hne. destruct (in_dec string_dec selected available_fields)
      as [H | H].
    + destruct (Hin H) as [i [-> [Hnth _]]].
      apply nth_error_Some. congruence.
    + rewrite (Hout H). destruct available_fields; [congruence | simpl; lia].
Qed.

(** The remembered field [price] among three fields. *)
Lemma default_index_selects_witness :
  In "price" ["beds"; "price"; "room_type"]
  /\ dynamic_dashboard_mongo.default_index ["beds"; "price"; "room_type"]
                                           "price" = 1
  /\ nth_error ["beds"; "price"; "room_type"]
               (dynamic_dashboard_mongo.default_index
                  ["beds"; "price"; "room_type"] "price")
     = Some "price".
Proof.
  assert (H : In "price" ["beds"; "price"; "room_type"])
    by (right; left; reflexivity).
  split; [exact H |]. split; [reflexivity |].
  exact (proj1 (proj1 (default_index_selects _ _) H)).
Defined.

(** The price on the x axis, no y axis, coloured by room type. *)
Lemma projection_matches_required_fields_witness :
  In "room_type"
     (dynamic_dashboard_mongo.required_fields "price" "" "room_type" "")
  /\ dict_get (dynamic_dashboard_mongo.projection "price" "" "room_type" "")
              "room_type" = Some (VInt 1)
  /\ dict_get (dynamic_dashboard_mongo.projection "_id" "" "" "") "_id"
     = Some (VInt 1).
Proof.
  assert (H : In "room_type"
                 (dynamic_dashboard_mongo.required_fields "price" ""
                                                          "room_type" ""))
    by (right; left; reflexivity).
  split; [exact H |]. split.
  - exact (proj1 (proj2 (projection_matches_required_fields
                           "price" "" "room_type" "")) "room_type" H).
  - apply (proj1 (proj2 (projection_matches_required_fields "_id" "" "" ""))).
    left; reflexivity.
Defined.

Lemma show_metrics_all (result : dict) (metrics : list string) :
  (In "Unique Count" metrics ->
   exists l, dict_get result "unique count" = Some (VList l)) ->
  forall log,
  exists evs,
    dynamic_dashboard_mongo.show_metrics result metrics log = (Ok tt, log ++ evs)
    /\ Forall2 (fun m ev => exists v, ev = st_metric m v) metrics evs.
Proof.
  induction metrics as [| m metrics IH]; intros Hset log.
  - exists []. rewrite app_nil_r. split; [reflexivity | constructor].
  - assert (Hstep : exists v,
               dynamic_dashboard_mongo.show_metric result m log
               = (Ok tt, log ++ [st_metric m v])).
    { unfold dynamic_dashboard_mongo.show_metric.
      destruct (String.eqb m "Count") eqn:E1; [eexists; reflexivity |].
      destruct (String.eqb m "Unique Count") eqn:E2; [| eexists; reflexivity].
      apply String.eqb_eq in E2; subst m.
      destruct Hset as [l Hl]; [left; reflexivity |].
      unfold dynamic_dashboard_mongo.get_default.
      change (lower "Unique Count") with "unique count". rewrite Hl.
      eexists. reflexivity. }
    destruct Hstep as [v Hrun].
    destruct (IH (fun H => Hset (or_intror H)) (log ++ [st_metric m v]))
      as [evs [Hrest Hall]].
    exists (st_metric m v :: evs). split.
    + cbn [dynamic_dashboard_mongo.show_metrics]. unfold bind at 1.
      rewrite Hrun, Hrest, <- app_assoc. reflexivity.
    + constructor; [exists v; reflexivity | exact Hall].
Qed.

(** X18.  A metric panel, for a field name in ASCII.  It shows its
    subheader and then either one metric for each chosen metric kind, in
    order, or a single error and no metric: "Metrics error: " followed by
    the [repr] of the first metric kind that is no key of
    [METRIC_OPERATIONS] (stated for a kind in ASCII), by the text of the
    [Exception] the query raised, or by "list index out of range" when no
    document reaches the group stage.  It returns normally unless the
    query raises an exception that does not derive from [Exception]. *)
Theorem metric_panel_all_or_error (S : mongo.store)
        (collection pipeline : list dict) (field : string)
        (metric_types : list string) (log : list ui_event) :
  is_ascii field = true ->
  let subheader :=
    st_subheader (dynamic_dashboard_mongo.title (replace field "_" " ")) in
  let run := dynamic_dashboard_mongo.metric_panel S collection pipeline field
                                                  metric_types log in
  let failed text :=
    run = (Ok tt, log ++ [subheader; st_error ("Metrics error: " ++ text)]) in
  ((forall m, In m metric_types -> In m metric_names) ->
   match mongo.aggregate S pipeline collection with
   | Ok [] => failed "list index out of range"
   | Ok (_ :: _) =>
       exists evs,
         run = (Ok tt, log ++ subheader :: evs)
         /\ Forall2 (fun m ev => exists v, ev = st_metric m v) metric_types evs
   | Raise e =>
       if exn_is_Exception e then failed (exn_str e)
       else run = (Raise e, log ++ [subheader])
   end)
  /\ (forall before m after,
         metric_types = before ++ m :: after ->
         (forall k, In k before -> In k metric_names) ->
         ~ In m metric_names ->
         exists text,
           failed text /\ (is_ascii m = true -> text = py_repr m)).
Proof.
  intros _ subheader run failed.
  unfold failed, run, dynamic_dashboard_mongo.metric_panel, bind, emit,
    try_except_Exception, lift.
  fold subheader. split.
  - intros Hknown.
    rewrite (build_metric_group_known field metric_types Hknown).
    cbv beta iota. rewrite aggregate_app.
    destruct (mongo.aggregate S pipeline collection) as [docs | e] eqn:Hagg.
    + cbn [obind mongo.aggregate]. rewrite group_stage_run.
      unfold mongo.group_null.
      destruct docs as [| doc docs].
      * cbn [list_head].
        change (exn_is_Exception (IndexError _)) with true.
        cbv beta iota. rewrite <- app_assoc. reflexivity.
      * rewrite group_fields_eval by apply metric_writes_accumulators.
        cbn [list_head]. cbv beta iota.
        set (result := ("_id", VNone)
                         :: map (eval_field S (doc :: docs))
                                (dict_of_writes
                                   (metric_writes field metric_types))).
        destruct (show_metrics_all result metric_types) with
          (log := log ++ [subheader]) as [evs [Hshow Hall]].
        { intros Hm. eexists.
          change (dict_get result "unique count")
            with (dict_get (map (eval_field S (doc :: docs))
                                (dict_of_writes
                                   (metric_writes field metric_types)))
                           (lower "Unique Count")).
          rewrite dict_get_eval,
            (metric_writes_key field metric_types "Unique Count" Hknown Hm).
          reflexivity. }
        exists evs. split; [| exact Hall].
        rewrite Hshow, <- app_assoc. reflexivity.
    + cbn [obind]. cbv beta iota.
      destruct (exn_is_Exception e) eqn:He.
      * rewrite <- app_assoc. reflexivity.
      * reflexivity.
  - intros before m after -> Hbefore Hm. exists (py_repr m).
    split; [| reflexivity].
    unfold dynamic_dashboard_mongo.build_metric_group.
    rewrite (add_metrics_first_unknown field before after m Hbefore Hm).
    cbv beta iota. change (exn_is_Exception (KeyError m)) with true.
    cbv beta iota. rewrite <- app_assoc. reflexivity.
Qed.

(** The average price and a metric kind that does not exist, over a
    collection of one listing. *)
Lemma metric_panel_all_or_error_witness :
  is_ascii "price" = true
  /\ dynamic_dashboard_mongo.metric_panel
       plain_store [[("price", VInt 80)]] [] "price" ["Average"; "Median"] []
     = (Ok tt, [st_subheader "Price"; st_error "Metrics error: 'Median'"]).
Proof.
  split; [reflexivity |].
  destruct (proj2 (metric_panel_all_or_error
                     plain_store [[("price", VInt 80)]] [] "price"
                     ["Average"; "Median"] [] eq_refl)
                  ["Average"] "Median" [] eq_refl)
    as [text [Hrun Htext]].
  - intros k [<- | []]. simpl. auto 8.
  - simpl. intuition discriminate.
  - rewrite (Htext eq_refl) in Hrun. exact Hrun.
Defined.

Lemma convert_docs_rows (docs data : list dict) :
  dynamic_dashboard_mongo.convert_docs docs = Ok data ->
  Forall2 (fun doc row => dynamic_dashboard_mongo.convert_doc doc = Ok row)
          docs data.
Proof.
  revert data. induction docs as [| doc docs IH]; intros data H.
  - injection H as <-. constructor.
  - cbn [dynamic_dashboard_mongo.convert_docs] in H.
    destruct (dynamic_dashboard_mongo.convert_doc doc) as [row |] eqn:Hdoc;
      [| discriminate].
    cbn [obind] in H.
    destruct (dynamic_dashboard_mongo.convert_docs docs) as [rest |];
      [| discriminate].
    cbn [obind] in H. injection H as <-.
    constructor; [exact Hdoc | apply IH; reflexivity].
Qed.

Lemma convert_value_raises (v : value) (e : exn) :
  dynamic_dashboard_mongo.convert_value v = Raise e ->
  e = ValueError "cannot convert signaling NaN to float".
Proof.
  destruct v as [| | | | | d | | |]; try discriminate.
  cbn [dynamic_dashboard_mongo.convert_value].
  destruct d; cbn; intros H; try discriminate; injection H as <-; reflexivity.
Qed.

Lemma convert_items_raises (items : list (string * value)) (acc : dict)
      (e : exn) :
  dynamic_dashboard_mongo.convert_items items acc = Raise e ->
  exn_is_Exception e = true.
Proof.
  revert acc. induction items as [| [k v] items IH]; intros acc H;
    [discriminate |].
  cbn [dynamic_dashboard_mongo.convert_items] in H.
  destruct (dynamic_dashboard_mongo.convert_value v) as [v' | e'] eqn:Hv;
    cbn [obind] in H.
  - exact (IH _ H).
  - injection H as <-. rewrite (convert_value_raises _ _ Hv). reflexivity.
Qed.

Lemma convert_docs_raises (docs : list dict) (e : exn) :
  dynamic_dashboard_mongo.convert_docs docs = Raise e ->
  exn_is_Exception e = true.
Proof.
  induction docs as [| d docs IH]; intros H; [discriminate |].
  cbn [dynamic_dashboard_mongo.convert_docs] in H.
  destruct (dynamic_dashboard_mongo.convert_doc d) as [row | e'] eqn:Hd;
    cbn [obind] in H.
  - destruct (dynamic_dashboard_mongo.convert_docs docs) as [r | e''];
      [discriminate |].
    cbn [obind] in H. injection H as <-. apply IH. reflexivity.
  - injection H as <-. exact (convert_items_raises _ _ _ Hd).
Qed.

Lemma validate_fields_run (first : dict) (others : list dict)
      (required : list string) (log : list ui_event) :
  (dynamic_dashboard_mongo.validate_fields (first :: others) required log
   = (Ok true, log)
   /\ forall f, In f required -> dict_mem first f = true)
  \/ (exists text,
         dynamic_dashboard_mongo.validate_fields (first :: others) required log
         = (Ok false, log ++ [st_error text])
         /\ exists f, In f required /\ dict_mem first f = false).
Proof.
  unfold dynamic_dashboard_mongo.validate_fields, bind, lift.
  rewrite missing_fields_first.
  destruct (filter (fun f => negb (dict_mem first f)) required)
    as [| f missing] eqn:Hmissing.
  - left. split; [reflexivity |].
    apply filter_nil_forallb in Hmissing.
    rewrite forallb_forall in Hmissing. exact Hmissing.
  - right. eexists. split; [reflexivity |].
    exists f. assert (Hin : In f (f :: missing)) by (left; reflexivity).
    rewrite <- Hmissing in Hin. apply filter_In in Hin.
    destruct Hin as [Hin Hf]. split; [exact Hin |].
    apply negb_true_iff in Hf. exact Hf.
Qed.

(** X19.  The rows the visualization block of [main] hands to the charts.
    When the block reaches the charts, it has written nothing, an x field
    is chosen, the rows are the converted documents of the visualization
    query, one for one, there is at least one row and at most 1000, and
    the first row has every required field. *)
Theorem visualization_rows (S : mongo.store) (collection pipeline : list dict)
        (x_field y_field color_field size_field : string)
        (log log' : list ui_event) (data : list dict) :
  dynamic_dashboard_mongo.visualization S collection pipeline x_field y_field
                                        color_field size_field log
  = (Ok (Some data), log') ->
  log' = log
  /\ x_field <> ""
  /\ (exists results,
         mongo.aggregate S
           (dynamic_dashboard_mongo.vis_pipeline pipeline x_field y_field
                                                 color_field size_field)
           collection = Ok results
         /\ Forall2 (fun doc row =>
                       dynamic_dashboard_mongo.convert_doc doc = Ok row)
                    results data)
  /\ 0 < List.length data <= 1000
  /\ forall f,
       In f (dynamic_dashboard_mongo.required_fields x_field y_field
                                                     color_field size_field) ->
       dict_mem (hd [] data) f = true.
Proof.
  intros Hrun. unfold dynamic_dashboard_mongo.visualization in Hrun.
  destruct (String.eqb x_field "") eqn:Hx; [discriminate |].
  apply String.eqb_neq in Hx.
  unfold try_except_Exception in Hrun. unfold bind at 1, lift at 1 in Hrun.
  pose proof (aggregate_limit_last S
                (pipeline
                   ++ [[("$project",
                         VDict (dynamic_dashboard_mongo.projection
                                  x_field y_field color_field size_field))]])
                1000 collection eq_refl) as Hlimit.
  rewrite <- app_assoc in Hlimit.
  change (Z.to_nat 1000) with 1000 in Hlimit.
  unfold dynamic_dashboard_mongo.vis_pipeline in *.
  destruct (mongo.aggregate S _ collection) as [results | e].
  2: { cbv beta iota in Hrun. destruct (exn_is_Exception e); discriminate. }
  cbv beta iota in Hrun. cbn [rows] in Hlimit.
  destruct results as [| doc docs]; [discriminate |].
  unfold bind at 1, lift at 1 in Hrun.
  destruct (dynamic_dashboard_mongo.convert_docs (doc :: docs))
    as [rows_ | e] eqn:Hconv.
  2: { cbv beta iota in Hrun. destruct (exn_is_Exception e); discriminate. }
  cbv beta iota in Hrun.
  pose proof (convert_docs_rows _ _ Hconv) as Hrows.
  pose proof (Forall2_length Hrows) as Hlen.
  destruct rows_ as [| first others]; [discriminate |].
  unfold bind at 1 in Hrun.
  destruct (validate_fields_run first others
              (dynamic_dashboard_mongo.required_fields x_field y_field
                                                       color_field size_field)
              log) as [[Hv Hall] | [text [Hv _]]];
    rewrite Hv in Hrun; cbv beta iota in Hrun; [| discriminate].
  injection Hrun as <- <-.
  split; [reflexivity |]. split; [exact Hx |].
  split; [exists (doc :: docs); split; [reflexivity | exact Hrows] |].
  split; [rewrite <- Hlen; split; [apply Nat.lt_0_succ | exact Hlimit] | exact Hall].
Qed.

(** Two listings, the second priced in Decimal128. *)
Lemma visualization_rows_witness :
  dynamic_dashboard_mongo.visualization
    plain_store
    [[("price", VInt 80)]; [("price", VDecimal128 (D128_finite false 1005 (-1)))]]
    [] "price" "" "" "" []
  = (Ok (Some [[("price", VInt 80)]; [("price", VFloat float_100_5)]]), [])
  /\ 0 < 2 <= 1000.
Proof.
  assert (H : dynamic_dashboard_mongo.visualization
                plain_store
                [[("price", VInt 80)];
                 [("price", VDecimal128 (D128_finite false 1005 (-1)))]]
                [] "price" "" "" "" []
              = (Ok (Some [[("price", VInt 80)];
                           [("price", VFloat float_100_5)]]), []))
    by (vm_compute; reflexivity).
  split; [exact H |].
  exact (proj1 (proj2 (proj2 (proj2 (visualization_rows _ _ _ _ _ _ _ _ _ _ H))))).
Defined.

(** X20.  How the visualization block of [main] ends.  It hands rows to
    the charts and writes nothing; or it stops after at most one message
    -- nothing when no x field is chosen, the warning that there is no
    data when the query returns no document, an error when the first row
    misses a required field or when an [Exception] was raised; or the
    query of the store raises an exception that does not derive from
    [Exception], which is the only way out of the block by an
    exception. *)
Theorem visualization_outcomes (S : mongo.store)
        (collection pipeline : list dict)
        (x_field y_field color_field size_field : string)
        (log : list ui_event) :
  let run := dynamic_dashboard_mongo.visualization
               S collection pipeline x_field y_field color_field size_field
               log in
  (exists data, run = (Ok (Some data), log))
  \/ (run = (Ok None, log) /\ x_field = "")
  \/ (run = (Ok None,
             log ++ [st_warning "No data available for visualization"])
      /\ mongo.aggregate S
           (dynamic_dashboard_mongo.vis_pipeline pipeline x_field y_field
                                                 color_field size_field)
           collection = Ok [])
  \/ (exists text, run = (Ok None, log ++ [st_error text]))
  \/ (exists e,
         run = (Raise e, log)
         /\ exn_is_Exception e = false
         /\ mongo.aggregate S
              (dynamic_dashboard_mongo.vis_pipeline pipeline x_field y_field
                                                    color_field size_field)
              collection = Raise e).
Proof.
  intros run. unfold run, dynamic_dashboard_mongo.visualization.
  destruct (String.eqb x_field "") eqn:Hx.
  { right. left. apply String.eqb_eq in Hx. split; [reflexivity | exact Hx]. }
  unfold try_except_Exception, bind, lift, emit, ret.
  destruct (mongo.aggregate S _ collection) as [results | e].
  2: { destruct (exn_is_Exception e) eqn:He.
       - right. right. right. left. eexists. reflexivity.
       - right. right. right. right. exists e.
         split; [reflexivity |]. split; [exact He | reflexivity]. }
  destruct results as [| doc docs].
  { right. right. left. split; reflexivity. }
  destruct (dynamic_dashboard_mongo.convert_docs (doc :: docs))
    as [rows_ | e] eqn:Hconv.
  2: { rewrite (convert_docs_raises _ _ Hconv).
       right. right. right. left. eexists. reflexivity. }
  pose proof (Forall2_length (convert_docs_rows _ _ Hconv)) as Hlen.
  destruct rows_ as [| first others]; [discriminate |].
  destruct (validate_fields_run first others
              (dynamic_dashboard_mongo.required_fields x_field y_field
                                                       color_field size_field)
              log) as [[Hv _] | [text [Hv _]]];
    rewrite Hv.
  - left. eexists. reflexivity.
  - right. right. right. left. exists text. reflexivity.
Qed.

Lemma convert_items_ok (items items' : list (string * value)) :
  Forall2 converted_entry items items' ->
  forall acc,
    NoDup (keys acc ++ keys items) ->
    dynamic_dashboard_mongo.convert_items items acc = Ok (acc ++ items').
Proof.
  induction 1 as [| [k v] [k' v'] items items' [Hk Hv] _ IH]; intros acc Hnd.
  - rewrite app_nil_r. reflexivity.
  - cbn [fst snd] in Hk, Hv. subst k'.
    cbn [dynamic_dashboard_mongo.convert_items]. rewrite Hv. cbn [obind].
    assert (Hfresh : ~ In k (keys acc)).
    { intros Hin. cbn [keys map fst] in Hnd.
      apply NoDup_remove_2 in Hnd. apply Hnd.
      apply in_or_app. left. exact Hin. }
    rewrite (dict_set_fresh acc k v' Hfresh), IH, <- app_assoc;
      [reflexivity |].
    unfold keys. rewrite map_app, <- app_assoc. exact Hnd.
Qed.

Lemma convert_items_entries (items : list (string * value)) :
  forall acc r,
    dynamic_dashboard_mongo.convert_items items acc = Ok r ->
    exists items', Forall2 converted_entry items items'.
Proof.
  induction items as [| [k v] items IH]; intros acc r H.
  - exists []. constructor.
  - cbn [dynamic_dashboard_mongo.convert_items] in H.
    destruct (dynamic_dashboard_mongo.convert_value v) as [v' | e] eqn:Hv;
      [| discriminate].
    cbn [obind] in H. destruct (IH _ _ H) as [items' Hall].
    exists ((k, v') :: items'). constructor; [| exact Hall].
    split; [reflexivity | exact Hv].
Qed.

(** X21.  The dict comprehension over the items of a document whose keys
    are distinct: the row it builds has the keys of the document in their
    order, each with its value converted by [convert_value], and it is
    built exactly when every value converts; a value that is a signalling
    NaN makes the comprehension raise [ValueError]. *)
Theorem convert_doc_entries (doc : dict) :
  NoDup (keys doc) ->
  (forall row,
      dynamic_dashboard_mongo.convert_doc doc = Ok row
      <-> Forall2 converted_entry doc row)
  /\ (forall row,
         dynamic_dashboard_mongo.convert_doc doc = Ok row ->
         keys row = keys doc)
  /\ (In (VDecimal128 D128_snan) (map snd doc) ->
      dynamic_dashboard_mongo.convert_doc doc
      = Raise (ValueError "cannot convert signaling NaN to float")).
Proof.
  intros Hnd.
  assert (Hiff : forall row,
             dynamic_dashboard_mongo.convert_doc doc = Ok row
             <-> Forall2 converted_entry doc row).
  { intros row. unfold dynamic_dashboard_mongo.convert_doc. split.
    - intros H. destruct (convert_items_entries _ _ _ H) as [items' Hall].
      rewrite (convert_items_ok _ _ Hall [] Hnd) in H.
      injection H as <-. exact Hall.
    - intros Hall. exact (convert_items_ok _ _ Hall [] Hnd). }
  split; [exact Hiff |]. split.
  - intros row H. apply Hiff in H. clear - H.
    induction H as [| kv kv' doc row [Hk _] _ IH]; [reflexivity |].
    cbn [keys map]. rewrite Hk. f_equal. exact IH.
  - intros Hin.
    destruct (dynamic_dashboard_mongo.convert_doc doc) as [row | e] eqn:Hrun.
    + pose proof (proj1 (Hiff row) eq_refl) as Hall. exfalso.
      clear - Hall Hin. rename Hall into Hrun.
      induction Hrun as [| kv kv' doc row [_ Hv] _ IH]; [contradiction |].
      destruct Hin as [Hin | Hin]; [| exact (IH Hin)].
      cbn [map] in Hin. rewrite Hin in Hv. discriminate.
    + f_equal. clear - Hrun. unfold dynamic_dashboard_mongo.convert_doc in Hrun.
      revert Hrun. generalize (@nil (string * value)).
      induction doc as [| [k v] doc IH]; intros acc H; [discriminate |].
      cbn [dynamic_dashboard_mongo.convert_items] in H.
      destruct (dynamic_dashboard_mongo.convert_value v) as [v' | e'] eqn:Hv;
        cbn [obind] in H.
      * exact (IH _ H).
      * injection H as <-. exact (convert_value_raises _ _ Hv).
Qed.

(** A listing with a Decimal128 price. *)
Lemma convert_doc_entries_witness :
  NoDup (keys [("name", VStr "Loft");
               ("price", VDecimal128 (D128_finite false 1005 (-1)))])
  /\ Forall2 converted_entry
       [("name", VStr "Loft");
        ("price", VDecimal128 (D128_finite false 1005 (-1)))]
       [("name", VStr "Loft"); ("price", VFloat float_100_5)].
Proof.
  assert (Hnd : NoDup (keys [("name", VStr "Loft");
                             ("price",
                              VDecimal128 (D128_finite false 1005 (-1)))])).
  { repeat constructor; simpl; intuition discriminate. }
  split; [exact Hnd |].
  apply (proj1 (convert_doc_entries _ Hnd)). vm_compute. reflexivity.
Defined.

(* ================================================================== *)
(** * The field discovery of dynamic_dashboard_mongo.py *)
(* ================================================================== *)

Lemma string_lt_trans (a b c : string) :
  string_lt a b -> string_lt b c -> string_lt a c.
Proof.
  unfold string_lt. intros Hab Hbc.
  apply OrderedTypeEx.String_as_OT.cmp_lt.
  apply OrderedTypeEx.String_as_OT.cmp_lt in Hab, Hbc.
  exact (OrderedTypeEx.String_as_OT.lt_trans _ _ _ Hab Hbc).
Qed.

Lemma string_lt_irrefl (a : string) : ~ string_lt a a.
Proof.
  unfold string_lt. intros H.
  pose proof (String.compare_antisym a a) as Ha. rewrite H in Ha. discriminate.
Qed.

Lemma insert_sorted_In (k x : string) (l : list string) :
  In x (insert_sorted k l) <-> x = k \/ In x l.
Proof.
  induction l as [| y l IH]; simpl; [intuition congruence |].
  destruct (String.compare k y) eqn:Hc; simpl.
  - apply String.compare_eq_iff in Hc. subst y. intuition congruence.
  - intuition congruence.
  - rewrite IH. intuition congruence.
Qed.

Lemma insert_sorted_sorted (k : string) (l : list string) :
  StronglySorted string_lt l -> StronglySorted string_lt (insert_sorted k l).
Proof.
  induction 1 as [| y l Hl IH Hy]; simpl; [repeat constructor |].
  destruct (String.compare k y) eqn:Hc.
  - constructor; assumption.
  - constructor; [constructor; assumption |].
    constructor; [exact Hc |].
    apply Forall_forall. intros z Hz. rewrite Forall_forall in Hy.
    exact (string_lt_trans _ _ _ Hc (Hy z Hz)).
  - constructor; [exact IH |].
    apply Forall_forall. intros z Hz. apply insert_sorted_In in Hz.
    destruct Hz as [-> | Hz].
    + unfold string_lt. rewrite String.compare_antisym, Hc. reflexivity.
    + rewrite Forall_forall in Hy. exact (Hy z Hz).
Qed.

Lemma sorted_set_spec (l : list string) :
  StronglySorted string_lt (sorted_set l)
  /\ forall x, In x (sorted_set l) <-> In x l.
Proof.
  unfold sorted_set.
  assert (H : forall acc,
             StronglySorted string_lt acc ->
             StronglySorted string_lt
               (fold_left (fun acc k => insert_sorted k acc) l acc)
             /\ forall x,
                 In x (fold_left (fun acc k => insert_sorted k acc) l acc)
                 <-> In x acc \/ In x l).
  { induction l as [| k l IH]; intros acc Hacc; simpl.
    - split; [exact Hacc | intuition]. 
    - destruct (IH _ (insert_sorted_sorted k acc Hacc)) as [Hs Hin].
      split; [exact Hs |]. intros x. rewrite Hin, insert_sorted_In.
      intuition. }
  destruct (H [] (SSorted_nil _)) as [Hs Hin].
  split; [exact Hs |]. intros x. rewrite Hin. simpl. intuition.
Qed.

Lemma sorted_NoDup (l : list string) :
  StronglySorted string_lt l -> NoDup l.
Proof.
  induction 1 as [| x l _ IH Hx]; constructor; [| exact IH].
  intros Hin. rewrite Forall_forall in Hx.
  exact (string_lt_irrefl x (Hx x Hin)).
Qed.

(** X22.  The field discovery.  When the sampling query returns, the
    function writes nothing and returns the keys of the flattened sample
    documents together with the names of the custom fields: each of them
    once, in ascending order, and nothing else.  When the query raises an
    [Exception], the function reports it and returns no field. *)
Theorem available_fields_sorted (S : mongo.store) (collection : list dict)
        (custom_fields : dict) (log : list ui_event) :
  (forall sample,
      dynamic_dashboard_mongo.sample_docs S collection = Ok sample ->
      exists fields,
        dynamic_dashboard_mongo.get_available_fields S collection
                                                     custom_fields log
        = (Ok fields, log)
        /\ StronglySorted string_lt fields
        /\ NoDup fields
        /\ forall f,
            In f fields
            <-> (exists doc,
                    In doc sample
                    /\ In f (keys (dynamic_dashboard_mongo.safe_flatten
                                     doc "" "_")))
                \/ In f (keys custom_fields))
  /\ (forall e,
         dynamic_dashboard_mongo.sample_docs S collection = Raise e ->
         exn_is_Exception e = true ->
         dynamic_dashboard_mongo.get_available_fields S collection
                                                      custom_fields log
         = (Ok [], log ++ [st_error ("Field discovery error: " ++ exn_str e)])).
Proof.
  unfold dynamic_dashboard_mongo.get_available_fields, try_except_Exception,
    bind, lift, emit, ret.
  split.
  - intros sample Hsample. rewrite Hsample.
    exists (dynamic_dashboard_mongo.discovered_fields sample custom_fields).
    split; [reflexivity |].
    unfold dynamic_dashboard_mongo.discovered_fields.
    destruct (sorted_set_spec
                (flat_map (fun doc =>
                             keys (dynamic_dashboard_mongo.safe_flatten
                                     doc "" "_")) sample
                   ++ keys custom_fields)) as [Hs Hin].
    split; [exact Hs |]. split; [exact (sorted_NoDup _ Hs) |].
    intros f. rewrite Hin, in_app_iff, in_flat_map. reflexivity.
  - intros e Hsample He. rewrite Hsample, He. reflexivity.
Qed.

(** Two sampled listings and one custom field. *)
Lemma available_fields_sorted_witness :
  dynamic_dashboard_mongo.get_available_fields
    plain_store
    [[("price", VInt 80); ("host", VDict [("name", VStr "Ann")])];
     [("name", VStr "Loft"); ("price", VInt 95)]]
    [("area", VStr "price * 2")] []
  = (Ok ["area"; "host_name"; "name"; "price"], []).
Proof.
  destruct (proj1 (available_fields_sorted
                     plain_store
                     [[("price", VInt 80);
                       ("host", VDict [("name", VStr "Ann")])];
                      [("name", VStr "Loft"); ("price", VInt 95)]]
                     [("area", VStr "price * 2")] []) _ eq_refl)
    as [fields [Hrun _]].
  vm_compute in Hrun. injection Hrun as <-. vm_compute. reflexivity.
Defined.

(* ================================================================== *)
(** * The table of dynamic_dashboard_df.py *)
(* ================================================================== *)






(* ================================================================== *)
(** * The recursive flattener and the one-level flattener *)
(* ================================================================== *)

Lemma deep_writes_flat (sub : dict) (parent_key sep : string) :
  flat sub = true -> parent_key <> EmptyString ->
  deep_writes (VDict sub) parent_key sep
  = map (fun skv => ((parent_key ++ sep ++ fst skv)%string, snd skv)) sub.
Proof.
  intros Hflat Hpk. destruct parent_key as [| c p]; [congruence |].
  simpl. induction sub as [| [k v] sub IH]; [reflexivity |].
  simpl in Hflat. apply andb_true_iff in Hflat. destruct Hflat as [Hv Hflat].
  rewrite (IH Hflat). destruct v; try reflexivity. discriminate.
Qed.

Lemma deep_writes_one_level (doc : dict) :
  one_level doc = true ->
  (forall k sub, In (k, VDict sub) doc -> k <> EmptyString) ->
  deep_writes (VDict doc) "" "_" = one_level_writes (fun v => v) doc.
Proof.
  intros Hone Hkeys. simpl. induction doc as [| [k v] doc IH]; [reflexivity |].
  simpl in Hone. apply andb_true_iff in Hone. destruct Hone as [Hv Hone].
  assert (Hrest : forall k sub, In (k, VDict sub) doc -> k <> EmptyString).
  { intros k' sub' Hin. apply (Hkeys k' sub'). right. exact Hin. }
  unfold one_level_writes. cbn [flat_map].
  fold (one_level_writes (fun v => v) doc). rewrite <- (IH Hone Hrest).
  destruct v; try reflexivity.
  unfold entry_writes. cbn [fst snd]. f_equal.
  apply deep_writes_flat; [exact Hv |].
  apply (Hkeys k d). left. reflexivity.
Qed.

(** X24.  On a document with at most one level of nesting in which no
    dict sits under the empty key, the recursive flattener of
    [dynamic_dashboard_mongo], called as the script calls it, and the
    one-level flattener of [dynamic_dashboard_df] return equal dicts:
    every key has the same value, or none, in both.  (Under an empty
    parent key the recursive flattener does not prefix the sub-keys,
    since it tests [if parent_key].) *)
Theorem mongo_flatten_agrees_with_df (doc : dict) (k : string) :
  one_level doc = true ->
  (forall key sub, In (key, VDict sub) doc -> key <> EmptyString) ->
  dict_get (dynamic_dashboard_mongo.safe_flatten doc "" "_") k
  = dict_get (dynamic_dashboard_df.safe_flatten doc) k.
Proof.
  intros Hone Hkeys. unfold dynamic_dashboard_mongo.safe_flatten.
  rewrite flatten_value_writes, (deep_writes_one_level doc Hone Hkeys).
  rewrite df_flatten_writes. unfold dict_of_writes. rewrite dict_get_update.
  destruct (last_write k (one_level_writes (fun v => v) doc)); reflexivity.
Qed.

(** A listing with an address. *)
Lemma mongo_flatten_agrees_with_df_witness :
  dict_get (dynamic_dashboard_mongo.safe_flatten
              [("name", VStr "Loft");
               ("address", VDict [("country", VStr "Spain")])] "" "_")
           "address_country"
  = dict_get (dynamic_dashboard_df.safe_flatten
                [("name", VStr "Loft");
                 ("address", VDict [("country", VStr "Spain")])])
             "address_country".
Proof.
  apply mongo_flatten_agrees_with_df.
  - reflexivity.
  - intros key sub [H | [H | []]]; inversion H. discriminate.
Defined.

(* ================================================================== *)
(** * The figures of dynamic_dashboard_mongo.py *)
(* ================================================================== *)

Lemma draw_all_run (P : plotting) (calls : list (string * chart_call))
      (log : list ui_event) :
  (Forall (fun c => draw_raises P (snd c) = None) calls
   /\ dynamic_dashboard_mongo.draw_all P calls log = (Ok calls, log))
  \/ (exists before name call after e,
         calls = before ++ (name, call) :: after
         /\ Forall (fun c => draw_raises P (snd c) = None) before
         /\ draw_raises P call = Some e
         /\ dynamic_dashboard_mongo.draw_all P calls log = (Raise e, log)).
Proof.
  induction calls as [| [name call] calls IH].
  - left. split; [constructor | reflexivity].
  - cbn [dynamic_dashboard_mongo.draw_all]. unfold bind, draw, lift, ret.
    destruct (draw_raises P call) as [e |] eqn:Hcall.
    + right. exists [], name, call, calls, e.
      split; [reflexivity |]. split; [constructor |].
      split; [exact Hcall | reflexivity].
    + destruct IH as [[Hall Hrun] | [before [n [c [after [e H]]]]]].
      * left. rewrite Hrun. split; [| reflexivity].
        constructor; [exact Hcall | exact Hall].
      * destruct H as [Hcalls [Hall [He Hrun]]].
        right. exists ((name, call) :: before), n, c, after, e.
        rewrite Hrun, Hcalls. split; [reflexivity |].
        split; [constructor; [exact Hcall | exact Hall] |].
        split; [exact He | reflexivity].
Qed.

(** X25.  The figures of the visualization block.  [fig_map] builds the
    figure of every chart type before one is chosen.  So a figure is
    obtained only when all six chart-building expressions return and
    the chart type is one of the six; it is then the figure built for that
    type.  When one of the six expressions raises, the block raises the
    exception of the first that does, whichever chart type is chosen.  An
    unknown chart type gives no figure. *)
Theorem figures_built_eagerly (P : plotting) (data : list dict)
        (x_field y_field color_field size_field chart_type : string)
        (log : list ui_event) :
  let calls := dynamic_dashboard_mongo.fig_map_calls
                 data x_field y_field color_field size_field in
  let run := dynamic_dashboard_mongo.chart_figure
               P data x_field y_field color_field size_field chart_type log in
  (Forall (fun c => draw_raises P (snd c) = None) calls
   /\ ((exists fig,
           run = (Ok (Some fig), log)
           /\ In (chart_type, fig) calls)
       \/ (run = (Ok None, log)
           /\ ~ In chart_type
                   ["scatter"; "bar"; "line"; "histogram"; "box"; "pie"])))
  \/ (exists before name call after e,
         calls = before ++ (name, call) :: after
         /\ Forall (fun c => draw_raises P (snd c) = None) before
         /\ draw_raises P call = Some e
         /\ run = (Raise e, log)).
Proof.
  intros calls run. unfold run, dynamic_dashboard_mongo.chart_figure.
  fold calls. unfold bind, ret.
  destruct (draw_all_run P calls log)
    as [[Hall Hrun] | [before [name [call [after [e H]]]]]].
  - left. split; [exact Hall |]. rewrite Hrun.
    unfold calls, dynamic_dashboard_mongo.fig_map_calls.
    cbv beta iota zeta. cbn [dynamic_dashboard_mongo.get_figure].
    destruct (String.eqb chart_type "scatter") eqn:E1;
      [apply String.eqb_eq in E1; subst; left; eexists;
       split; [reflexivity | simpl; tauto] |].
    destruct (String.eqb chart_type "bar") eqn:E2;
      [apply String.eqb_eq in E2; subst; left; eexists;
       split; [reflexivity | simpl; tauto] |].
    destruct (String.eqb chart_type "line") eqn:E3;
      [apply String.eqb_eq in E3; subst; left; eexists;
       split; [reflexivity | simpl; tauto] |].
    destruct (String.eqb chart_type "histogram") eqn:E4;
      [apply String.eqb_eq in E4; subst; left; eexists;
       split; [reflexivity | simpl; tauto] |].
    destruct (String.eqb chart_type "box") eqn:E5;
      [apply String.eqb_eq in E5; subst; left; eexists;
       split; [reflexivity | simpl; tauto] |].
    destruct (String.eqb chart_type "pie") eqn:E6;
      [apply String.eqb_eq in E6; subst; left; eexists;
       split; [reflexivity | simpl; tauto] |].
    right. split; [reflexivity |].
    apply String.eqb_neq in E1, E2, E3, E4, E5, E6.
    simpl. intuition congruence.
  - destruct H as [Hcalls [Hall [He Hrun]]].
    right. exists before, name, call, after, e. rewrite Hrun.
    split; [exact Hcalls |]. split; [exact Hall |].
    split; [exact He | reflexivity].
Qed.
